(** * scarlet-planner: course search index and schedule engine

    A shallow embedding of the algorithmic core of the planner
    ([src/utils/parsing.py], [src/models.py], [src/schedule_builder.py],
    [src/search.py]) together with the properties that its specification
    states about it.

    Conventions of the embedding:
    - Python [int] is [Z]; Python [str] is [string], read as a sequence of
      7-bit ASCII characters (the catalogue data is ASCII; characters with
      code 128 and above are carried along as inert symbols).
    - A Python [dict] whose iteration order is observable is an association
      list in insertion order ([PyDict]); the sets and the unordered maps of
      the search index are [gset] and [gmap].
    - Code that may raise returns [result]: [Ok v] or [Raise e]. [int] is
      the conversion of ASCII decimal literals; the interpreter's
      configurable limit on the number of digits of a literal is not
      modelled. *)

From Stdlib Require Import ZArith Ascii String List Bool Lia Sorted.
From stdpp Require Import gmap strings list fin_maps.

Local Open Scope Z_scope.

(* ===================================================================== *)
(** * Part I. The program *)
(* ===================================================================== *)

(** ** Exceptions *)

Inductive exn : Type :=
| ValueError
| IndexError
| KeyError
| AttributeError.

Inductive result (A : Type) : Type :=
| Ok (a : A)
| Raise (e : exn).

Arguments Ok {A} a.
Arguments Raise {A} e.

Global Instance result_ret : MRet result := fun _ a => Ok a.
Global Instance result_bind : MBind result := fun _ _ f m =>
  match m with
  | Ok a => f a
  | Raise e => Raise e
  end.

Definition of_option {A} (e : exn) (o : option A) : result A :=
  match o with
  | Some a => Ok a
  | None => Raise e
  end.

Definition is_ok {A} (r : result A) : bool :=
  match r with
  | Ok _ => true
  | Raise _ => false
  end.

(** [for x in l: acc = body(acc, x)] where [body] may raise. *)
Fixpoint foldM {A B} (body : B -> A -> result B) (acc : B) (l : list A) : result B :=
  match l with
  | [] => Ok acc
  | x :: l' => acc' ← body acc x; foldM body acc' l'
  end.

(** [[f(x) for x in l]] where [f] may raise. *)
Fixpoint mapM {A B} (f : A -> result B) (l : list A) : result (list B) :=
  match l with
  | [] => Ok []
  | x :: l' => y ← f x; ys ← mapM f l'; Ok (y :: ys)
  end.

(** ** Python built-ins on strings *)

Module PyStr.

Definition code (c : ascii) : N := N_of_ascii c.

(** [str.isspace] on one ASCII character: TAB..CR, FS..US and space. *)
Definition isspace_char (c : ascii) : bool :=
  let n := code c in
  ((9 <=? n) && (n <=? 13) || (28 <=? n) && (n <=? 32))%N.

Definition isdigit_char (c : ascii) : bool :=
  let n := code c in ((48 <=? n) && (n <=? 57))%N.

Definition isupper_char (c : ascii) : bool :=
  let n := code c in ((65 <=? n) && (n <=? 90))%N.

Definition islower_char (c : ascii) : bool :=
  let n := code c in ((97 <=? n) && (n <=? 122))%N.

Definition isalpha_char (c : ascii) : bool :=
  isupper_char c || islower_char c.

Definition upper_char (c : ascii) : ascii :=
  if islower_char c then ascii_of_N (code c - 32) else c.

Definition lower_char (c : ascii) : ascii :=
  if isupper_char c then ascii_of_N (code c + 32) else c.

Definition digit_value (c : ascii) : Z := Z.of_N (code c) - 48.

Fixpoint map (f : ascii -> ascii) (s : string) : string :=
  match s with
  | EmptyString => EmptyString
  | String c s' => String (f c) (map f s')
  end.

Definition upper : string -> string := map upper_char.
Definition lower : string -> string := map lower_char.

Definition len (s : string) : Z := Z.of_nat (String.length s).

(** [bool(s)]: a string is truthy when it is not empty. *)
Definition truthy (s : string) : bool :=
  match s with
  | EmptyString => false
  | String _ _ => true
  end.

(** Removal of the leading and of the trailing characters that satisfy
    [p]. *)
Fixpoint lstrip_by (p : ascii -> bool) (s : string) : string :=
  match s with
  | EmptyString => EmptyString
  | String c s' => if p c then lstrip_by p s' else s
  end.

Fixpoint rstrip_by (p : ascii -> bool) (s : string) : string :=
  match s with
  | EmptyString => EmptyString
  | String c s' =>
      match rstrip_by p s' with
      | EmptyString => if p c then EmptyString else String c EmptyString
      | r => String c r
      end
  end.

Definition lstrip : string -> string := lstrip_by isspace_char.
Definition rstrip : string -> string := rstrip_by isspace_char.

(** [s.strip()] *)
Definition strip (s : string) : string := rstrip (lstrip s).

Definition startswith (s p : string) : bool := String.prefix p s.

(** [sub in s] *)
Fixpoint contains (sub s : string) : bool :=
  String.prefix sub s ||
  match s with
  | EmptyString => false
  | String _ s' => contains sub s'
  end.

(** [c in s] for a one-character [c]. *)
Fixpoint contains_char (c : ascii) (s : string) : bool :=
  match s with
  | EmptyString => false
  | String d s' => if Ascii.eqb c d then true else contains_char c s'
  end.

(** [s.replace("", new, count)]: [new] goes before each of the first
    characters and, when the count allows it, after the last one. *)
Fixpoint replace_empty (new : string) (count : option nat) (s : string) : string :=
  match count with
  | Some O => s
  | _ =>
      let count' := match count with Some (S k) => Some k | _ => None end in
      new +:+
      match s with
      | EmptyString => EmptyString
      | String c s' => String c (replace_empty new count' s')
      end
  end.

(** Left-to-right scan for the non-overlapping occurrences of a non-empty
    [old]; [skip] counts the characters of an occurrence still to drop. *)
Fixpoint replace_go (old new : string) (skip : nat) (count : option nat)
    (s : string) : string :=
  match s with
  | EmptyString => EmptyString
  | String c s' =>
      match skip with
      | S k => replace_go old new k count s'
      | O =>
          match count with
          | Some O => s
          | _ =>
              if String.prefix old s then
                let count' := match count with Some (S k) => Some k | _ => None end in
                new +:+ replace_go old new (Nat.pred (String.length old)) count' s'
              else String c (replace_go old new O count s')
          end
      end
  end.

(** [s.replace(old, new)] when [count] is [None],
    [s.replace(old, new, k)] when it is [Some k]. *)
Definition replace (old new : string) (count : option nat) (s : string) : string :=
  match old with
  | EmptyString => replace_empty new count s
  | _ => replace_go old new O count s
  end.

(** [s.split(sep)] for a one-character separator. *)
Fixpoint split (sep : ascii) (s : string) : list string :=
  match s with
  | EmptyString => [EmptyString]
  | String c s' =>
      if Ascii.eqb c sep then EmptyString :: split sep s'
      else match split sep s' with
           | h :: t => String c h :: t
           | [] => [String c EmptyString]
           end
  end.

(** [s.split()]: the maximal runs of non-whitespace characters. [cur] is
    the run being read, reversed. *)
Fixpoint split_ws_go (cur : option string) (s : string) : list string :=
  match s with
  | EmptyString => option_list (String.rev <$> cur)
  | String c s' =>
      if isspace_char c
      then option_list (String.rev <$> cur) ++ split_ws_go None s'
      else split_ws_go (Some (String c (default EmptyString cur))) s'
  end.

Definition split_ws : string -> list string := split_ws_go None.

Fixpoint all_digits (s : string) : bool :=
  match s with
  | EmptyString => true
  | String c s' => isdigit_char c && all_digits s'
  end.

(** [s.isdigit()] *)
Definition isdigit (s : string) : bool := truthy s && all_digits s.

(** The digits of an integer literal: decimal digits, with single
    underscores allowed between two digits. [prev] tells whether the
    previous character was a digit. *)
Fixpoint int_digits (acc : Z) (prev : bool) (s : string) : option Z :=
  match s with
  | EmptyString => if prev then Some acc else None
  | String c s' =>
      if isdigit_char c then int_digits (10 * acc + digit_value c) true s'
      else if Ascii.eqb c "_" && prev then int_digits acc false s'
      else None
  end.

(** The whitespace that [int] skips around an ASCII literal: TAB..CR and
    space (the separators FS..US, which [str.strip] removes, are not
    skipped). *)
Definition isspace_int_char (c : ascii) : bool :=
  let n := code c in ((9 <=? n) && (n <=? 13) || (n =? 32))%N.

(** [int(s)]: surrounding whitespace, an optional sign, then digits. *)
Definition int (s : string) : result Z :=
  let s := rstrip_by isspace_int_char (lstrip_by isspace_int_char s) in
  let '(neg, body) :=
    match s with
    | String "-" r => (true, r)
    | String "+" r => (false, r)
    | _ => (false, s)
    end in
  match int_digits 0 false body with
  | Some n => Ok (if neg then - n else n)
  | None => Raise ValueError
  end.

(** [s[:n]] and [s[n:]] for [0 <= n]. *)
Definition take (n : nat) (s : string) : string := String.substring 0 n s.

Fixpoint drop (n : nat) (s : string) : string :=
  match n, s with
  | O, _ => s
  | S k, String _ s' => drop k s'
  | S _, EmptyString => EmptyString
  end.

(** [sep.join(l)] *)
Fixpoint join (sep : string) (l : list string) : string :=
  match l with
  | [] => EmptyString
  | [x] => x
  | x :: l' => x +:+ sep +:+ join sep l'
  end.

(** Comparison of strings by code point, as [<] and [<=] on [str]. *)
Definition ltb (a b : string) : bool :=
  match String.compare a b with Lt => true | _ => false end.

Definition leb (a b : string) : bool :=
  match String.compare a b with Gt => false | _ => true end.

End PyStr.

(** ** Python built-ins on lists *)

Module PyList.

(** [l[i]] for [0 <= i]. *)
Definition index {A} (l : list A) (i : nat) : result A :=
  of_option IndexError (l !! i).

(** Insertion of [x] in front of the first element that is not smaller
    than it: with it, [sorted] keeps equal elements in their original
    order. *)
Fixpoint insert_sorted {A} (ltb : A -> A -> bool) (x : A) (l : list A) : list A :=
  match l with
  | [] => [x]
  | y :: l' => if ltb y x then y :: insert_sorted ltb x l' else x :: l
  end.

(** [sorted(l, key=...)], with [ltb a b] deciding [key(a) < key(b)].
    Python's sort is stable, and a stable sort has one result. *)
Fixpoint sorted {A} (ltb : A -> A -> bool) (l : list A) : list A :=
  match l with
  | [] => []
  | x :: l' => insert_sorted ltb x (sorted ltb l')
  end.

(** [enumerate(l)] *)
Definition enumerate {A} (l : list A) : list (Z * A) :=
  zip (Z.of_nat <$> seq 0 (length l)) l.

(** [l[i]] for an integer [i]: a negative index counts from the end. *)
Definition index_int {A} (l : list A) (i : Z) : result A :=
  if 0 <=? i then PyList.index l (Z.to_nat i)
  else if 0 <=? Z.of_nat (length l) + i
       then PyList.index l (Z.to_nat (Z.of_nat (length l) + i))
       else Raise IndexError.

(** [l[:stop]]: a negative [stop] counts from the end. *)
Definition slice_to {A} (stop : Z) (l : list A) : list A :=
  if 0 <=? stop then take (Z.to_nat stop) l
  else take (Z.to_nat (Z.of_nat (length l) + stop)) l.

End PyList.

(** ** Python dictionaries, in insertion order *)

Module PyDict.
Section PyDict.
Context {K V : Type} `{EqDecision K}.

Definition t := list (K * V).

Definition empty : list (K * V) := [].

(** [d.get(k)] *)
Fixpoint get (d : list (K * V)) (k : K) : option V :=
  match d with
  | [] => None
  | (k', v) :: d' => if decide (k' = k) then Some v else get d' k
  end.

(** [k in d] *)
Definition mem (d : list (K * V)) (k : K) : bool :=
  match get d k with Some _ => true | None => false end.

(** [d[k] = v]: a present key keeps its position, a new key goes last. *)
Fixpoint set (d : list (K * V)) (k : K) (v : V) : list (K * V) :=
  match d with
  | [] => [(k, v)]
  | (k', v') :: d' =>
      if decide (k' = k) then (k', v) :: d' else (k', v') :: set d' k v
  end.

(** [del d[k]] *)
Fixpoint del (d : list (K * V)) (k : K) : list (K * V) :=
  match d with
  | [] => []
  | (k', v') :: d' => if decide (k' = k) then d' else (k', v') :: del d' k
  end.

Definition keys (d : list (K * V)) : list K := fst <$> d.
Definition values (d : list (K * V)) : list V := snd <$> d.

(** The shape every reachable dictionary has: one entry per key. *)
Definition wf (d : list (K * V)) : Prop := NoDup (keys d).

End PyDict.
End PyDict.

(** ** [src/utils/parsing.py] *)

Module parsing.

Definition DAY_CODES : list (string * string) :=
  [("MO", "Monday"); ("TU", "Tuesday"); ("WE", "Wednesday");
   ("TH", "Thursday"); ("FR", "Friday"); ("SA", "Saturday");
   ("SU", "Sunday")].

Definition DAY_ORDER : list string :=
  ["Monday"; "Tuesday"; "Wednesday"; "Thursday"; "Friday"; "Saturday";
   "Sunday"].

(** Convert a time string to minutes since midnight. *)
Definition parse_time_to_minutes (time_str : string) : result Z :=
  let time_str := PyStr.upper (PyStr.strip time_str) in
  (* Check for AM/PM *)
  let is_pm := PyStr.contains "PM" time_str in
  let is_am := PyStr.contains "AM" time_str in
  let time_str :=
    PyStr.strip
      (PyStr.replace "PM" "" None (PyStr.replace "AM" "" None time_str)) in
  (* Try format with colon *)
  if PyStr.contains ":" time_str then
    let parts := PyStr.split ":" time_str in
    p0 ← PyList.index parts 0;
    h ← PyStr.int p0;
    p1 ← PyList.index parts 1;
    tok ← PyList.index (PyStr.split_ws p1) 0;
    m ← PyStr.int tok;
    (* Convert to 24-hour format *)
    let h :=
      if is_pm && negb (h =? 12) then h + 12
      else if is_am && (h =? 12) then 0
      else h in
    Ok (h * 60 + m)
  (* Try 4-digit format *)
  else if PyStr.isdigit time_str then
    if (PyStr.len time_str =? 4) then
      hh ← PyStr.int (PyStr.take 2 time_str);
      mm ← PyStr.int (PyStr.drop 2 time_str);
      Ok (hh * 60 + mm)
    else
      (* Assume hours only *)
      hh ← PyStr.int time_str;
      Ok (hh * 60)
  else Ok 0.

(** The first loop of [parse_days_to_codes]: the two-letter codes, each
    removed once from the string when found. *)
Fixpoint two_letter_codes (codes : list string) (result : list string)
    (days_upper : string) : list string * string :=
  match codes with
  | [] => (result, days_upper)
  | two_letter :: codes' =>
      if PyStr.contains two_letter days_upper
      then two_letter_codes codes' (result ++ [two_letter])
             (PyStr.replace two_letter "" (Some 1%nat) days_upper)
      else two_letter_codes codes' result days_upper
  end.

Definition in_list (x : string) (l : list string) : bool :=
  bool_decide (x ∈ l).

(** The second loop: single letter codes, for a format like "MWF". *)
Fixpoint single_letter_codes (result : list string) (days_upper : string)
    : list string :=
  match days_upper with
  | EmptyString => result
  | String char rest =>
      let result :=
        if Ascii.eqb char "M" && negb (in_list "MO" result) then result ++ ["M"]
        else if Ascii.eqb char "W" && negb (in_list "WE" result) then result ++ ["W"]
        else if Ascii.eqb char "F" && negb (in_list "FR" result) then result ++ ["F"]
        else result in
      single_letter_codes result rest
  end.

(** Parse a day string into a list of day codes. *)
Definition parse_days_to_codes (days_str : string) : list string :=
  let days_upper := PyStr.upper days_str in
  let '(result, days_upper) :=
    two_letter_codes ["TU"; "TH"; "SA"; "SU"; "MO"; "WE"; "FR"] [] days_upper in
  single_letter_codes result days_upper.

Definition code_to_name (code : string) : list string :=
  match PyDict.get DAY_CODES code with
  | Some name => [name]
  | None =>
      if String.eqb code "M" then ["Monday"]
      else if String.eqb code "W" then ["Wednesday"]
      else if String.eqb code "F" then ["Friday"]
      else []
  end.

(** Parse a day string into a list of full day names. *)
Definition parse_days_to_full_names (days_str : string) : list string :=
  let codes := parse_days_to_codes days_str in
  flat_map code_to_name codes.

(** The first loop of [parse_days_to_set]: every occurrence of a found
    two-letter code is removed. *)
Fixpoint two_letter_set (codes : list string) (result : gset string)
    (days : string) : gset string * string :=
  match codes with
  | [] => (result, days)
  | two_letter :: codes' =>
      if PyStr.contains two_letter days
      then two_letter_set codes' (result ∪ {[two_letter]})
             (PyStr.replace two_letter "" None days)
      else two_letter_set codes' result days
  end.

Fixpoint single_letter_set (result : gset string) (days : string) : gset string :=
  match days with
  | EmptyString => result
  | String char rest =>
      let result :=
        if PyStr.contains_char char "MTWFS"
        then result ∪ {[String char EmptyString]}
        else result in
      single_letter_set result rest
  end.

(** Parse a day string into the set of day codes used for overlap
    detection by [search.py]. *)
Definition parse_days_to_set (days_str : string) : gset string :=
  let days := PyStr.upper days_str in
  let '(result, days) := two_letter_set ["TU"; "TH"; "SA"; "SU"] ∅ days in
  single_letter_set result days.

(** Parse a time string into (hour, minute) in 24-hour format. *)
Definition parse_time_to_hours_minutes (time_str : string) : result (Z * Z) :=
  minutes ← parse_time_to_minutes time_str;
  Ok (minutes / 60, minutes mod 60).

End parsing.

(** ** [src/utils/constants.py] *)

Module constants.

(** Section types that stand alone as primary sections. *)
Definition PRIMARY_SECTION_TYPES : gset string :=
  {[ "Lecture"; "IND"; "DRS"; "EXP"; "MUO"; "PLB"; "THP"; "OTH"; "MUE"; "" ]}.

(** Section types that are grouped under primary sections. *)
Definition SECONDARY_SECTION_TYPES : gset string :=
  {[ "Discussion"; "Laboratory" ]}.

End constants.

(** ** [src/models.py] *)

Module Meeting.
Record t : Type := mk {
  days : string;
  start_time : string;
  end_time : string;
  location : string
}.
End Meeting.

Module ProfessorRating.
(** The floating-point fields are carried as their IEEE-754 bit patterns:
    the core never inspects a rating. *)
Record t : Type := mk {
  name : string;
  rating : option Z;
  num_ratings : Z;
  difficulty : option Z;
  would_take_again : option Z;
  rmp_url : option string
}.
End ProfessorRating.

Module Course.
Record t : Type := mk {
  id : string;
  code : string;
  title : string;
  description : string;
  section : string;
  professor : string;
  term : string;
  credits : Z;
  hub_units : list string;
  department : string;
  college : string;
  schedule : list Meeting.t;
  status : string;
  enrollment_cap : Z;
  enrollment_total : Z;
  section_type : string;
  class_nbr : Z;
  professor_rating : option ProfessorRating.t
}.

(** Combined text for fuzzy search. *)
Definition search_text (self : t) : string :=
  let hub_text :=
    match hub_units self with
    | [] => ""
    | l => PyStr.join " " l
    end in
  code self +:+ " " +:+ title self +:+ " " +:+ professor self +:+ " "
    +:+ department self +:+ " " +:+ hub_text.
End Course.

Module RelatedSection.
Record t : Type := mk {
  id : string;
  section : string;
  section_type : string;
  professor : string;
  schedule : list Meeting.t;
  status : string;
  enrollment_cap : Z;
  enrollment_total : Z;
  professor_rating : option ProfessorRating.t
}.
End RelatedSection.

Module GroupedCourse.
Record t : Type := mk {
  id : string;
  code : string;
  title : string;
  description : string;
  section : string;
  professor : string;
  term : string;
  credits : Z;
  hub_units : list string;
  department : string;
  college : string;
  schedule : list Meeting.t;
  status : string;
  enrollment_cap : Z;
  enrollment_total : Z;
  section_type : string;
  class_nbr : Z;
  professor_rating : option ProfessorRating.t;
  related_sections : list RelatedSection.t
}.

(** Create a GroupedCourse from a Course and its related sections. *)
Definition from_course (course : Course.t) (related : list RelatedSection.t) : t :=
  {| id := Course.id course;
     code := Course.code course;
     title := Course.title course;
     description := Course.description course;
     section := Course.section course;
     professor := Course.professor course;
     term := Course.term course;
     credits := Course.credits course;
     hub_units := Course.hub_units course;
     department := Course.department course;
     college := Course.college course;
     schedule := Course.schedule course;
     status := Course.status course;
     enrollment_cap := Course.enrollment_cap course;
     enrollment_total := Course.enrollment_total course;
     section_type := Course.section_type course;
     class_nbr := Course.class_nbr course;
     professor_rating := Course.professor_rating course;
     related_sections := related |}.
End GroupedCourse.

Module Conflict.
(** A pair of conflicting courses. *)
Record t : Type := mk {
  course1_id : string;
  course2_id : string;
  course1_code : string;
  course2_code : string;
  overlap_day : string;
  overlap_time : string
}.
End Conflict.

(** ** [src/schedule_builder.py] *)

Module ScheduleEvent.
(** A single event on the schedule calendar. *)
Record t : Type := mk {
  course_id : string;
  course_code : string;
  course_title : string;
  section : string;
  section_type : string;
  professor : string;
  day : string;
  start_minutes : Z;
  end_minutes : Z;
  start_time : string;
  end_time : string;
  location : string;
  color : option string;
  column : Z;
  total_columns : Z
}.

Definition duration_minutes (self : t) : Z :=
  end_minutes self - start_minutes self.

(** Check if this event overlaps with another on the same day. *)
Definition overlaps (self other : t) : bool :=
  if negb (String.eqb (day self) (day other)) then false
  else (start_minutes self <? end_minutes other)
       && (start_minutes other <? end_minutes self).

(** [event.column = c] *)
Definition set_column (c : Z) (e : t) : t :=
  mk (course_id e) (course_code e) (course_title e) (section e)
     (section_type e) (professor e) (day e) (start_minutes e)
     (end_minutes e) (start_time e) (end_time e) (location e) (color e)
     c (total_columns e).

(** [event.total_columns = n] *)
Definition set_total_columns (n : Z) (e : t) : t :=
  mk (course_id e) (course_code e) (course_title e) (section e)
     (section_type e) (professor e) (day e) (start_minutes e)
     (end_minutes e) (start_time e) (end_time e) (location e) (color e)
     (column e) n.
End ScheduleEvent.

Module ScheduleConflict.
(** Represents a time conflict between two courses. *)
Record t : Type := mk {
  event1 : ScheduleEvent.t;
  event2 : ScheduleEvent.t;
  day : string;
  overlap_start : Z;
  overlap_end : Z
}.

Definition overlap_duration (self : t) : Z :=
  overlap_end self - overlap_start self.
End ScheduleConflict.

Module ScheduleBuilder.

(** Manages a course schedule with conflict detection and layout. *)
Record t : Type := mk {
  courses : list (string * Course.t);
  _color_index : Z
}.

(** [ScheduleBuilder()] *)
Definition new : t := mk [] 0.

Definition COLORS : list string :=
  ["#CC0000"; "#3B82F6"; "#10B981"; "#8B5CF6"; "#F59E0B"; "#EC4899";
   "#06B6D4"; "#84CC16"; "#F97316"; "#6366F1"].

(** Get the next color from the palette. The index is reduced modulo the
    length of the palette, so the lookup is always in range. *)
Definition _get_next_color (self : t) : string * t :=
  let color :=
    nth (Z.to_nat (_color_index self mod Z.of_nat (length COLORS))) COLORS "" in
  (color, mk (courses self) (_color_index self + 1)).

(** The events of one meeting, one per day name. *)
Definition meeting_events (course : Course.t) (color : string)
    (meeting : Meeting.t) (days : list string) (start end_ : Z)
    : list ScheduleEvent.t :=
  (fun day =>
     {| ScheduleEvent.course_id := Course.id course;
        ScheduleEvent.course_code := Course.code course;
        ScheduleEvent.course_title := Course.title course;
        ScheduleEvent.section := Course.section course;
        ScheduleEvent.section_type := Course.section_type course;
        ScheduleEvent.professor := Course.professor course;
        ScheduleEvent.day := day;
        ScheduleEvent.start_minutes := start;
        ScheduleEvent.end_minutes := end_;
        ScheduleEvent.start_time := Meeting.start_time meeting;
        ScheduleEvent.end_time := Meeting.end_time meeting;
        ScheduleEvent.location := Meeting.location meeting;
        ScheduleEvent.color := Some color;
        ScheduleEvent.column := 0;
        ScheduleEvent.total_columns := 1 |}) <$> days.

(** The body of the loop of [_course_to_events] for one meeting. *)
Definition meeting_to_events (course : Course.t) (color : string)
    (events : list ScheduleEvent.t) (meeting : Meeting.t)
    : result (list ScheduleEvent.t) :=
  if negb (PyStr.truthy (Meeting.days meeting))
     || String.eqb (PyStr.upper (Meeting.days meeting)) "TBA"
  then Ok events
  else
    let days := parsing.parse_days_to_full_names (Meeting.days meeting) in
    start ←
      (if PyStr.truthy (Meeting.start_time meeting)
       then parsing.parse_time_to_minutes (Meeting.start_time meeting)
       else Ok 0);
    end_ ←
      (if PyStr.truthy (Meeting.end_time meeting)
       then parsing.parse_time_to_minutes (Meeting.end_time meeting)
       else Ok 0);
    if (start =? 0) && (end_ =? 0) then Ok events (* Skip TBA times *)
    else Ok (events ++ meeting_events course color meeting days start end_).

(** Convert a course to a list of schedule events. *)
Definition _course_to_events (course : Course.t) (color : string)
    : result (list ScheduleEvent.t) :=
  foldM (meeting_to_events course color) [] (Course.schedule course).

(** The conflict recorded for two overlapping events. *)
Definition make_conflict (e1 e2 : ScheduleEvent.t) : ScheduleConflict.t :=
  {| ScheduleConflict.event1 := e1;
     ScheduleConflict.event2 := e2;
     ScheduleConflict.day := ScheduleEvent.day e1;
     ScheduleConflict.overlap_start :=
       Z.max (ScheduleEvent.start_minutes e1) (ScheduleEvent.start_minutes e2);
     ScheduleConflict.overlap_end :=
       Z.min (ScheduleEvent.end_minutes e1) (ScheduleEvent.end_minutes e2) |}.

(** [for e1 in events1: for e2 in events2: if e1.overlaps(e2): append] *)
Definition event_conflicts (events1 events2 : list ScheduleEvent.t)
    : list ScheduleConflict.t :=
  flat_map (fun e1 =>
    flat_map (fun e2 =>
      if ScheduleEvent.overlaps e1 e2 then [make_conflict e1 e2] else [])
      events2)
    events1.

(** Detect conflicts between a new course and existing courses. *)
Definition _detect_conflicts_with (self : t) (new_course : Course.t)
    : result (list ScheduleConflict.t) :=
  new_events ← _course_to_events new_course "temp";
  foldM (fun conflicts existing_course =>
           existing_events ← _course_to_events existing_course "temp";
           Ok (conflicts ++ event_conflicts new_events existing_events))
        [] (PyDict.values (courses self)).

(** Add a course to the schedule; returns the conflicts with existing
    courses. When conflict detection raises, the schedule is unchanged. *)
Definition add_course (self : t) (course : Course.t)
    : result (list ScheduleConflict.t) * t :=
  match _detect_conflicts_with self course with
  | Ok conflicts =>
      (Ok conflicts,
       mk (PyDict.set (courses self) (Course.id course) course)
          (_color_index self))
  | Raise e => (Raise e, self)
  end.

(** Remove a course from the schedule. *)
Definition remove_course (self : t) (course_id : string) : bool * t :=
  if PyDict.mem (courses self) course_id
  then (true, mk (PyDict.del (courses self) course_id) (_color_index self))
  else (false, self).

(** Get a course by ID. *)
Definition get_course (self : t) (course_id : string) : option Course.t :=
  PyDict.get (courses self) course_id.

(** Remove all courses from the schedule. *)
Definition clear (self : t) : t := mk [] 0.

(** Get all conflicts in the current schedule. *)
Fixpoint all_conflicts_from (course_list : list Course.t)
    : result (list ScheduleConflict.t) :=
  match course_list with
  | [] => Ok []
  | course1 :: rest =>
      events1 ← _course_to_events course1 "temp";
      conflicts1 ←
        foldM (fun conflicts course2 =>
                 events2 ← _course_to_events course2 "temp";
                 Ok (conflicts ++ event_conflicts events1 events2))
              [] rest;
      conflicts' ← all_conflicts_from rest;
      Ok (conflicts1 ++ conflicts')
  end.

Definition get_all_conflicts (self : t) : result (list ScheduleConflict.t) :=
  all_conflicts_from (PyDict.values (courses self)).

(** Key of the sort in [_assign_columns]: [(start_minutes, end_minutes)]. *)
Definition key_ltb (a b : ScheduleEvent.t) : bool :=
  (ScheduleEvent.start_minutes a <? ScheduleEvent.start_minutes b)
  || ((ScheduleEvent.start_minutes a =? ScheduleEvent.start_minutes b)
      && (ScheduleEvent.end_minutes a <? ScheduleEvent.end_minutes b)).

(** The inner loop of [_assign_columns]: the index of the first column
    whose tracked end time is at most the start of the event. *)
Fixpoint first_free (i : nat) (columns : list Z) (start : Z) : option nat :=
  match columns with
  | [] => None
  | col_end :: columns' =>
      if start >=? col_end then Some i else first_free (S i) columns' start
  end.

(** One step of the outer loop: place [event], update [columns]. *)
Definition place (columns : list Z) (event : ScheduleEvent.t)
    : list Z * ScheduleEvent.t :=
  match first_free 0 columns (ScheduleEvent.start_minutes event) with
  | Some i =>
      (<[i := ScheduleEvent.end_minutes event]> columns,
       ScheduleEvent.set_column (Z.of_nat i) event)
  | None =>
      (columns ++ [ScheduleEvent.end_minutes event],
       ScheduleEvent.set_column (Z.of_nat (length columns)) event)
  end.

Fixpoint place_all (columns : list Z) (events : list ScheduleEvent.t)
    : list Z * list ScheduleEvent.t :=
  match events with
  | [] => (columns, [])
  | event :: events' =>
      let '(columns1, event1) := place columns event in
      let '(columns2, events2) := place_all columns1 events' in
      (columns2, event1 :: events2)
  end.

(** The number stamped on the events of a day. *)
Definition total_cols (columns : list Z) : Z :=
  match columns with
  | [] => 1
  | _ => Z.of_nat (length columns)
  end.

(** Greedy interval scheduling - assign columns to overlapping events. *)
Definition _assign_columns (events : list ScheduleEvent.t)
    : list ScheduleEvent.t :=
  (* Sort by start time, then by end time *)
  let events := PyList.sorted key_ltb events in
  let '(columns, events) := place_all [] events in
  ScheduleEvent.set_total_columns (total_cols columns) <$> events.

(** [events_by_day], built in the order of the events. *)
Definition group_by_day (all_events : list ScheduleEvent.t)
    : list (string * list ScheduleEvent.t) :=
  fold_left (fun events_by_day event =>
               let bucket :=
                 default [] (PyDict.get events_by_day (ScheduleEvent.day event)) in
               PyDict.set events_by_day (ScheduleEvent.day event)
                          (bucket ++ [event]))
            all_events [].

(** The colours of the courses, in the iteration order of the schedule. *)
Definition assign_colors (self : t) : list (string * string) * t :=
  fold_left (fun '(course_colors, self) course_id =>
               let '(color, self) := _get_next_color self in
               (PyDict.set course_colors course_id color, self))
            (PyDict.keys (courses self)) ([], self).

(** Get all events with column assignments for overlapping events. The
    colour index is reset before the events are generated, so it is reset
    also when generating them raises. *)
Definition get_events (self : t) : result (list ScheduleEvent.t) * t :=
  let '(course_colors, self) := assign_colors self in
  let self := mk (courses self) 0 in
  let all_events :=
    foldM (fun all_events course =>
             color ← of_option KeyError (PyDict.get course_colors (Course.id course));
             events ← _course_to_events course color;
             Ok (all_events ++ events))
          [] (PyDict.values (courses self)) in
  match all_events with
  | Raise e => (Raise e, self)
  | Ok all_events =>
      let events_by_day := group_by_day all_events in
      (Ok (flat_map (fun day =>
                       match PyDict.get events_by_day day with
                       | Some day_events => _assign_columns day_events
                       | None => []
                       end)
                    parsing.DAY_ORDER),
       self)
  end.

(** Get total credits for all courses in the schedule. *)
Definition total_credits (self : t) : Z :=
  foldr Z.add 0 (Course.credits <$> PyDict.values (courses self)).

(** Get number of courses in the schedule. *)
Definition course_count (self : t) : Z :=
  Z.of_nat (length (courses self)).

(** Get events grouped by day with column assignments. *)
Definition get_events_by_day (self : t)
    : result (list (string * list ScheduleEvent.t)) * t :=
  let '(events, self) := get_events self in
  (events ← events;
   let by_day :=
     fold_left (fun by_day day => PyDict.set by_day day []) parsing.DAY_ORDER [] in
   foldM (fun by_day event =>
            bucket ← of_option KeyError (PyDict.get by_day (ScheduleEvent.day event));
            Ok (PyDict.set by_day (ScheduleEvent.day event) (bucket ++ [event])))
         by_day events,
   self).

End ScheduleBuilder.

(** ** [src/search.py] *)

Module TrigramIndex.

(** Trigram index for fast candidate retrieval. *)
Record t : Type := mk {
  trigram_to_ids : gmap string (gset Z);
  id_to_text : gmap Z string
}.

(** [TrigramIndex()] *)
Definition new : t := mk ∅ ∅.

(** [re.sub(r'\s+', ' ', s)]: every run of whitespace becomes one space.
    [in_ws] tells whether the previous character was whitespace. *)
Fixpoint collapse_ws (in_ws : bool) (s : string) : string :=
  match s with
  | EmptyString => EmptyString
  | String c s' =>
      if PyStr.isspace_char c
      then if in_ws then collapse_ws true s'
           else String " " (collapse_ws true s')
      else String c (collapse_ws false s')
  end.

(** Normalize text for indexing. *)
Definition _normalize (text : string) : string :=
  collapse_ws false (PyStr.strip (PyStr.lower text)).

(** Extract character trigrams from text. *)
Definition _extract_trigrams (text : string) : gset string :=
  if (String.length text <? 3)%nat then
    if PyStr.truthy text then {[ text ]} else ∅
  else
    list_to_set
      ((fun i => String.substring i 3 text)
         <$> seq 0 (String.length text - 2)).

(** [self.trigram_to_ids[trigram].add(doc_id)] on a [defaultdict(set)]. *)
Definition add_posting (doc_id : Z) (trigram : string)
    (m : gmap string (gset Z)) : gmap string (gset Z) :=
  <[trigram := default ∅ (m !! trigram) ∪ {[doc_id]}]> m.

(** Add a document to the index. *)
Definition add (self : t) (doc_id : Z) (text : string) : t :=
  let text := _normalize text in
  mk (foldr (add_posting doc_id) (trigram_to_ids self)
            (elements (_extract_trigrams text)))
     (<[doc_id := text]> (id_to_text self)).

(** [match_counts[doc_id] += 1] on a [defaultdict(int)]. *)
Definition bump (doc_id : Z) (match_counts : gmap Z Z) : gmap Z Z :=
  <[doc_id := default 0 (match_counts !! doc_id) + 1]> match_counts.

(** Count trigram matches per document. *)
Definition count_matches (self : t) (trigrams : list string) : gmap Z Z :=
  foldr (fun trigram match_counts =>
           foldr bump match_counts
                 (elements (default ∅ (trigram_to_ids self !! trigram))))
        ∅ trigrams.

(** Get candidate document IDs that might match the query. *)
Definition get_candidates (self : t) (query : string) (min_matches : Z)
    : gset Z :=
  let query := _normalize query in
  let trigrams := _extract_trigrams query in
  if bool_decide (trigrams = ∅) then dom (id_to_text self)
  else
    let match_counts := count_matches self (elements trigrams) in
    (* Return docs with enough matches *)
    dom (filter (fun '(_, count) => min_matches <= count) match_counts).

End TrigramIndex.

Module BitmapIndex.

(** Bitmap index for fast filter intersection: each filter value maps to
    the set of the positions of the courses that carry it. *)
Record t : Type := mk {
  indices : gmap string (gmap string (gset Z));
  all_ids : option (gset Z)
}.

(** [BitmapIndex()] *)
Definition new : t := mk ∅ None.

(** [self.indices[field][value].add(i)] on a [defaultdict(BitMap)]. *)
Definition add_to (field value : string) (i : Z)
    (indices : gmap string (gmap string (gset Z)))
    : gmap string (gmap string (gset Z)) :=
  let m := default ∅ (indices !! field) in
  <[field := <[value := default ∅ (m !! value) ∪ {[i]}]> m]> indices.

(** The body of the loop of [build] for the course at position [i]. *)
Definition index_course (indices : gmap string (gmap string (gset Z)))
    (ic : Z * Course.t) : gmap string (gmap string (gset Z)) :=
  let '(i, course) := ic in
  let indices := add_to "subject" (Course.department course) i indices in
  let indices := add_to "term" (Course.term course) i indices in
  let indices := add_to "college" (Course.college course) i indices in
  let indices :=
    if PyStr.truthy (Course.status course)
    then add_to "status" (Course.status course) i indices
    else indices in
  fold_left (fun indices hub => add_to "hub" hub i indices)
            (Course.hub_units course) indices.

Definition empty_indices : gmap string (gmap string (gset Z)) :=
  <["subject" := ∅]> (<["term" := ∅]> (<["hub" := ∅]>
    (<["college" := ∅]> (<["status" := ∅]> ∅)))).

(** Build bitmap indices for all filterable fields. *)
Definition build (courses : list Course.t) : t :=
  let n := length courses in
  mk (fold_left index_course (PyList.enumerate courses) empty_indices)
     (Some (list_to_set (Z.of_nat <$> seq 0 n))).

(** The value of a keyword argument of [filter]. *)
Inductive filter_value : Type :=
| FNone
| FStr (s : string)
| FList (l : list string).

(** [not values] *)
Definition falsy (values : filter_value) : bool :=
  match values with
  | FNone => true
  | FStr s => negb (PyStr.truthy s)
  | FList l => match l with [] => true | _ => false end
  end.

(** Normalize to list. *)
Definition to_list (values : filter_value) : list string :=
  match values with
  | FNone => []
  | FStr s => [s]
  | FList l => l
  end.

(** OR within field: union all matching bitmaps. *)
Definition field_matches (index : gmap string (gset Z)) (values : list string)
    : gset Z :=
  fold_left (fun acc value =>
               match index !! value with
               | Some bitmap => acc ∪ bitmap
               | None => acc
               end)
            values ∅.

(** The body of the loop of [filter] for one keyword argument. *)
Definition filter_step (self : t) (result : gset Z)
    (fv : string * filter_value) : gset Z :=
  let '(field, values) := fv in
  match indices self !! field with
  | None => result
  | Some index =>
      if falsy values then result
      else
        let matches := field_matches index (to_list values) in
        (* AND between fields *)
        if bool_decide (matches = ∅) then result else result ∩ matches
  end.

(** Get course IDs matching all specified filters. [filters] lists the
    keyword arguments in the order of the call. *)
Definition filter (self : t) (filters : list (string * filter_value))
    : result (gset Z) :=
  result ← of_option AttributeError (all_ids self);
  Ok (fold_left (filter_step self) filters result).

(** Get all unique values for a field. *)
Definition get_values (self : t) (field : string) : list string :=
  match indices self !! field with
  | Some index => PyList.sorted PyStr.ltb (elements (dom index))
  | None => []
  end.

End BitmapIndex.

(** ** [src/config.py] *)

Module config.

(** Terms to show in the filter dropdown (others are hidden). *)
Definition DISPLAY_TERMS : list string := ["Fall 2025"; "Spring 2026"].

End config.

Module CourseIndex.

(** The course index: the courses, their search texts and the indices built
    from them. The constructor computes the search texts from the courses
    and the table of department names and then calls [_build_indices]; the
    precomputed sort orders play no part below and are left out. *)
Record t : Type := mk {
  courses : list Course.t;
  search_texts : list string;
  trigram_index : TrigramIndex.t;
  bitmap_index : BitmapIndex.t;
  prefix_index : gmap string (gset Z)
}.

(** [self.prefix_index[key].add(i)] on a [defaultdict(set)]. *)
Definition add_prefix (key : string) (i : Z) (prefix_index : gmap string (gset Z))
    : gmap string (gset Z) :=
  <[key := default ∅ (prefix_index !! key) ∪ {[i]}]> prefix_index.

(** Build prefix index for handling short queries. *)
Definition _build_prefix_index (courses : list Course.t) : gmap string (gset Z) :=
  fold_left (fun prefix_index '(i, course) =>
               (* Index by code prefix *)
               let code_parts := PyStr.split_ws (PyStr.upper (Course.code course)) in
               let prefix_index :=
                 fold_left (fun prefix_index part =>
                              if (2 <=? String.length part)%nat
                              then add_prefix (PyStr.take 2 part) i prefix_index
                              else prefix_index)
                           code_parts prefix_index in
               (* Index by department *)
               if PyStr.truthy (Course.department course)
               then add_prefix (PyStr.upper (Course.department course)) i prefix_index
               else prefix_index)
            (PyList.enumerate courses) ∅.

(** Build all search and filter indices. *)
Definition _build_indices (courses : list Course.t) (search_texts : list string)
    : t :=
  let trigram_index :=
    fold_left (fun index '(i, text) => TrigramIndex.add index i text)
              (PyList.enumerate search_texts) TrigramIndex.new in
  mk courses search_texts trigram_index (BitmapIndex.build courses)
     (_build_prefix_index courses).

(** Look up candidates by prefix (for short queries). *)
Definition _prefix_lookup (self : t) (prefix : string) : gset Z :=
  match prefix_index self !! prefix with
  | Some ids => ids
  | None =>
      (* Partial prefix match *)
      map_fold (fun p ids acc =>
                  if PyStr.startswith p prefix then acc ∪ ids else acc)
               ∅ (prefix_index self)
  end.

(** Get candidate IDs matching the query using trigram or prefix index. *)
Definition _get_query_candidates (self : t) (query : string) : gset Z :=
  if (String.length query <? 3)%nat then _prefix_lookup self (PyStr.upper query)
  else
    let min_matches := Z.max 1 (PyStr.len query / 4) in
    TrigramIndex.get_candidates (trigram_index self) query min_matches.

(** The methods below do not read the state of the index: they are
    functions of their arguments alone. *)

(** Check if two day strings share any days. *)
Definition _days_overlap (days1 days2 : string) : option string :=
  let d1 := parsing.parse_days_to_set days1 in
  let d2 := parsing.parse_days_to_set days2 in
  let common := d1 ∩ d2 in
  if bool_decide (common = ∅) then None
  else Some (PyStr.join ", " (PyList.sorted PyStr.ltb (elements common))).

(** Check if two meeting times overlap. *)
Definition _times_overlap (m1 m2 : Meeting.t) : result bool :=
  s1 ← parsing.parse_time_to_minutes (Meeting.start_time m1);
  e1 ← parsing.parse_time_to_minutes (Meeting.end_time m1);
  s2 ← parsing.parse_time_to_minutes (Meeting.start_time m2);
  e2 ← parsing.parse_time_to_minutes (Meeting.end_time m2);
  Ok ((s1 <? e2) && (s2 <? e1)).

(** The test of [_check_conflict] on one pair of meetings: the overlapping
    days when the pair conflicts. The times are parsed only when the days
    overlap. *)
Definition meetings_conflict (m1 m2 : Meeting.t) : result (option string) :=
  match _days_overlap (Meeting.days m1) (Meeting.days m2) with
  | Some overlap_day =>
      if PyStr.truthy overlap_day then
        b ← _times_overlap m1 m2;
        Ok (if b : bool then Some overlap_day else None)
      else Ok None
  | None => Ok None
  end.

(** The inner loop of [_check_conflict], over the meetings of [c2]. *)
Fixpoint check_against (c1 c2 : Course.t) (m1 : Meeting.t)
    (schedule2 : list Meeting.t) : result (option Conflict.t) :=
  match schedule2 with
  | [] => Ok None
  | m2 :: schedule2' =>
      r ← meetings_conflict m1 m2;
      match r with
      | Some overlap_day =>
          Ok (Some
            {| Conflict.course1_id := Course.id c1;
               Conflict.course2_id := Course.id c2;
               Conflict.course1_code := Course.code c1;
               Conflict.course2_code := Course.code c2;
               Conflict.overlap_day := overlap_day;
               Conflict.overlap_time :=
                 Meeting.start_time m1 +:+ "-" +:+ Meeting.end_time m1 |})
      | None => check_against c1 c2 m1 schedule2'
      end
  end.

(** The outer loop of [_check_conflict], over the meetings of [c1]. *)
Fixpoint check_from (c1 c2 : Course.t) (schedule1 : list Meeting.t)
    : result (option Conflict.t) :=
  match schedule1 with
  | [] => Ok None
  | m1 :: schedule1' =>
      r ← check_against c1 c2 m1 (Course.schedule c2);
      match r with
      | Some conflict => Ok (Some conflict)
      | None => check_from c1 c2 schedule1'
      end
  end.

(** Check if two courses have a time conflict. *)
Definition _check_conflict (c1 c2 : Course.t) : result (option Conflict.t) :=
  check_from c1 c2 (Course.schedule c1).

(** Detect time conflicts between courses. *)
Fixpoint detect_conflicts (courses : list Course.t) : result (list Conflict.t) :=
  match courses with
  | [] => Ok []
  | c1 :: rest =>
      conflicts1 ←
        foldM (fun conflicts c2 =>
                 conflict ← _check_conflict c1 c2;
                 Ok (conflicts ++ option_list conflict))
              [] rest;
      conflicts' ← detect_conflicts rest;
      Ok (conflicts1 ++ conflicts')
  end.

(** *** Grouping methods *)

(** The leading run of letters of a string. *)
Fixpoint leading_alpha (s : string) : string :=
  match s with
  | EmptyString => EmptyString
  | String char s' =>
      if PyStr.isalpha_char char then String char (leading_alpha s')
      else EmptyString
  end.

(** Extract the letter prefix from a section code. *)
Definition _get_section_prefix (section : string) : string :=
  if negb (PyStr.truthy section) then ""
  else PyStr.upper (leading_alpha section).

(** The loop of [_section_sort_key]: letters go to [prefix] as long as no
    digit has been seen, digits go to [num_str]. *)
Fixpoint sort_key_go (prefix num_str : string) (section : string)
    : string * string :=
  match section with
  | EmptyString => (prefix, num_str)
  | String char s' =>
      if PyStr.isalpha_char char then
        if negb (PyStr.truthy num_str)
        then sort_key_go (prefix +:+ String char EmptyString) num_str s'
        else sort_key_go prefix num_str s'
      else if PyStr.isdigit_char char then
        sort_key_go prefix (num_str +:+ String char EmptyString) s'
      else sort_key_go prefix num_str s'
  end.

(** [int(s)] on a string of decimal digits. *)
Definition int_of_digits (s : string) : Z :=
  default 0 (PyStr.int_digits 0 false s).

(** Generate a sort key for section codes. *)
Definition _section_sort_key (section : string) : string * Z :=
  if negb (PyStr.truthy section) then ("", 0)
  else
    let '(prefix, num_str) := sort_key_go "" "" section in
    let num := if PyStr.truthy num_str then int_of_digits num_str else 0 in
    (PyStr.upper prefix, num).

Definition to_related (sec : Course.t) : RelatedSection.t :=
  {| RelatedSection.id := Course.id sec;
     RelatedSection.section := Course.section sec;
     RelatedSection.section_type := Course.section_type sec;
     RelatedSection.professor := Course.professor sec;
     RelatedSection.schedule := Course.schedule sec;
     RelatedSection.status := Course.status sec;
     RelatedSection.enrollment_cap := Course.enrollment_cap sec;
     RelatedSection.enrollment_total := Course.enrollment_total sec;
     RelatedSection.professor_rating := Course.professor_rating sec |}.

(** [<] on the keys [(section_type, (prefix, number))] of the sort of the
    related sections. *)
Definition related_ltb (a b : RelatedSection.t) : bool :=
  let ta := RelatedSection.section_type a in
  let tb := RelatedSection.section_type b in
  let '(pa, na) := _section_sort_key (RelatedSection.section a) in
  let '(pb, nb) := _section_sort_key (RelatedSection.section b) in
  PyStr.ltb ta tb
  || (String.eqb ta tb
      && (PyStr.ltb pa pb || (String.eqb pa pb && (na <? nb)))).

(** Group by code+term, in the order of first appearance. *)
Definition partition_by_code_term (courses : list Course.t)
    : list ((string * string) * list Course.t) :=
  fold_left (fun by_code_term course =>
               let key := (Course.code course, Course.term course) in
               PyDict.set by_code_term key
                 (default [] (PyDict.get by_code_term key) ++ [course]))
            courses [].

(** [d[k].append(x)]; every key used below is present. *)
Definition dict_append {V} (d : list (string * list V)) (k : string) (x : V)
    : list (string * list V) :=
  match PyDict.get d k with
  | Some l => PyDict.set d k (l ++ [x])
  | None => d
  end.

(** The body of the loop of [group_sections] for one (code, term)
    partition. *)
Definition group_partition (group : list Course.t) : list GroupedCourse.t :=
  (* Separate primary and secondary sections *)
  let primaries :=
    List.filter (fun c => bool_decide
      (Course.section_type c ∈ constants.PRIMARY_SECTION_TYPES)) group in
  let secondaries :=
    List.filter (fun c => bool_decide
      (Course.section_type c ∈ constants.SECONDARY_SECTION_TYPES)) group in
  (* If no primaries, promote first secondary to primary *)
  let '(primaries, secondaries) :=
    match primaries, secondaries with
    | [], s :: secondaries' => ([s], secondaries')
    | _, _ => (primaries, secondaries)
    end in
  (* Build a map of section prefix -> primary course *)
  let prefix_to_primary : list (string * Course.t) :=
    fold_left (fun prefix_to_primary primary =>
                 let prefix := _get_section_prefix (Course.section primary) in
                 if PyStr.truthy prefix
                    && negb (PyDict.mem prefix_to_primary prefix)
                 then PyDict.set prefix_to_primary prefix primary
                 else prefix_to_primary)
              primaries [] in
  (* Match secondaries to primaries by section prefix *)
  let primary_to_related0 : list (string * list RelatedSection.t) :=
    fold_left (fun d p => PyDict.set d (Course.id p) [])
              primaries [] in
  let '(primary_to_related1, unmatched_secondaries) :=
    fold_left (fun '(primary_to_related, unmatched) sec =>
                 let sec_prefix := _get_section_prefix (Course.section sec) in
                 match PyDict.get prefix_to_primary sec_prefix with
                 | Some matched_primary =>
                     (dict_append primary_to_related
                        (Course.id matched_primary) (to_related sec),
                      unmatched)
                 | None => (primary_to_related, unmatched ++ [sec])
                 end)
              secondaries (primary_to_related0, []) in
  (* Unmatched secondaries are shared across ALL primaries *)
  let primary_to_related2 :=
    fold_left (fun primary_to_related sec =>
                 let related_section := to_related sec in
                 fold_left (fun primary_to_related primary =>
                              dict_append primary_to_related
                                (Course.id primary) related_section)
                           primaries primary_to_related)
              unmatched_secondaries primary_to_related1 in
  (* Create grouped courses with sorted related sections *)
  (fun primary =>
     let related :=
       default [] (PyDict.get primary_to_related2 (Course.id primary)) in
     GroupedCourse.from_course primary (PyList.sorted related_ltb related))
    <$> primaries.

(** Group courses by code+term, with primary sections containing related
    sections. *)
Definition group_sections (courses : list Course.t) : list GroupedCourse.t :=
  flat_map (fun '(_, group) => group_partition group)
           (partition_by_code_term courses).

(** *** Catalogue getters *)

Definition total_courses (self : t) : Z := Z.of_nat (length (courses self)).

Definition get_subjects (self : t) : list string :=
  BitmapIndex.get_values (bitmap_index self) "subject".

(** Only the terms of [DISPLAY_TERMS] that have courses. *)
Definition get_terms (self : t) : list string :=
  let terms : gset string :=
    list_to_set (BitmapIndex.get_values (bitmap_index self) "term") in
  List.filter (fun t => bool_decide (t ∈ terms)) config.DISPLAY_TERMS.

Definition get_hub_units (self : t) : list string :=
  BitmapIndex.get_values (bitmap_index self) "hub".

(** *** Lookup by id, sort orders and search *)

(** [self.by_id]: the dictionary [{c.id: c for c in courses}] that the
    constructor builds; of two courses with one id it keeps the later. Like
    the sort orders below it is computed once from the courses and never
    updated, so it is read off the courses here. *)
Definition by_id (self : t) : gmap string Course.t :=
  fold_left (fun by_id c => <[Course.id c := c]> by_id) (courses self) ∅.

Definition get_by_id (self : t) (course_id : string) : option Course.t :=
  by_id self !! course_id.

(** [key(self.courses[i]) < key(self.courses[j])] for two positions. *)
Definition at_ltb (courses : list Course.t) (ltb : Course.t -> Course.t -> bool)
    (i j : Z) : bool :=
  match courses !! Z.to_nat i, courses !! Z.to_nat j with
  | Some a, Some b => ltb a b
  | _, _ => false
  end.

(** The keys of the four sort orders, as comparisons. *)
Definition code_ltb (a b : Course.t) : bool :=
  PyStr.ltb (Course.code a) (Course.code b).

Definition title_ltb (a b : Course.t) : bool :=
  PyStr.ltb (PyStr.lower (Course.title a)) (PyStr.lower (Course.title b)).

Definition professor_ltb (a b : Course.t) : bool :=
  PyStr.ltb (PyStr.lower (Course.professor a)) (PyStr.lower (Course.professor b)).

Definition credits_ltb (a b : Course.t) : bool :=
  - Course.credits a <? - Course.credits b.

(** Pre-compute sorted course indices for common sort orders. *)
Definition _build_sort_indices (courses : list Course.t) : list (string * list Z) :=
  let indices := Z.of_nat <$> seq 0 (length courses) in
  [("code", PyList.sorted (at_ltb courses code_ltb) indices);
   ("title", PyList.sorted (at_ltb courses title_ltb) indices);
   ("professor", PyList.sorted (at_ltb courses professor_ltb) indices);
   ("credits", PyList.sorted (at_ltb courses credits_ltb) indices)].

Definition sorted_by (self : t) : list (string * list Z) :=
  _build_sort_indices (courses self).

(** Get courses by IDs in specified sort order. *)
Definition _get_sorted (self : t) (ids : gset Z) (sort_by : string) (limit : Z)
    : result (list Course.t) :=
  let sorted_ids :=
    match PyDict.get (sorted_by self) sort_by with
    | Some order => filter (fun i => i ∈ ids) order
    | None => PyList.sorted Z.ltb (elements ids)
    end in
  mapM (PyList.index_int (courses self)) (PyList.slice_to limit sorted_ids).

Section search.

(** The fuzzy matcher of the [rapidfuzz] library, with the cut at a score
    of 50 and the final sort, is a parameter. *)
Variable _fuzzy_match : t -> string -> gset Z -> Z -> result (list Course.t).

(** Search courses with optional filters. *)
Definition search (self : t) (query sort_by : string) (limit : Z)
    (filters : list (string * BitmapIndex.filter_value))
    : result (list Course.t) :=
  candidate_ids ← BitmapIndex.filter (bitmap_index self) filters;
  let query := PyStr.strip query in
  if negb (PyStr.truthy query) then _get_sorted self candidate_ids sort_by limit
  else
    let candidate_ids := candidate_ids ∩ _get_query_candidates self query in
    if bool_decide (candidate_ids = ∅) then Ok []
    else _fuzzy_match self query candidate_ids limit.

End search.

End CourseIndex.

(* ===================================================================== *)
(** * Part II. The vocabulary of the properties *)
(* ===================================================================== *)

(** ** The orders of a list *)

(** All the ways to insert [x] into [l]. *)
Fixpoint insert_everywhere {A} (x : A) (l : list A) : list (list A) :=
  match l with
  | [] => [[x]]
  | y :: l' => (x :: l) :: ((fun r => y :: r) <$> insert_everywhere x l')
  end.

(** All the orders of the elements of [l]. *)
Fixpoint orders {A} (l : list A) : list (list A) :=
  match l with
  | [] => [[]]
  | x :: l' => flat_map (insert_everywhere x) (orders l')
  end.

(** ** The invariant of the schedule *)

Module ScheduleInvariant.

(** Every entry of the schedule is filed under the id of its course. *)
Definition keyed_by_id (self : ScheduleBuilder.t) : Prop :=
  Forall (fun kc => kc.1 = Course.id kc.2) (ScheduleBuilder.courses self).

(** No two courses of the schedule have the same id. *)
Definition one_course_per_id (self : ScheduleBuilder.t) : Prop :=
  keyed_by_id self
  /\ NoDup (Course.id <$> PyDict.values (ScheduleBuilder.courses self)).

End ScheduleInvariant.

(** ** Columns and overlap *)

Module Columns.
Import ScheduleBuilder.

Abbreviation start_of := ScheduleEvent.start_minutes.

Abbreviation end_of := ScheduleEvent.end_minutes.

Abbreviation column_of := ScheduleEvent.column.

Abbreviation day_of := ScheduleEvent.day.

(** The time ranges of two events overlap. *)
Definition time_overlap (a b : ScheduleEvent.t) : Prop :=
  start_of a < end_of b /\ start_of b < end_of a.

Definition start_le (a b : ScheduleEvent.t) : Prop := start_of a <= start_of b.

(** The columns of the events placed so far: every placed event sits in an
    opened column, and it ends before the tracked end time of its column
    or before the start [lo] of the event placed last. *)
Definition tracked (columns : list Z) (lo : Z) (placed : list ScheduleEvent.t)
    : Prop :=
  forall p, p ∈ placed ->
    exists (i : nat) (x : Z),
      column_of p = Z.of_nat i /\ columns !! i = Some x
      /\ (end_of p <= x \/ end_of p <= lo).

(** [separated l]: of two events of [l] in one column, the earlier one has
    ended when the later one starts. *)
Fixpoint separated (l : list ScheduleEvent.t) : Prop :=
  match l with
  | [] => True
  | p :: l' =>
      Forall (fun q => column_of p = column_of q -> end_of p <= start_of q) l'
      /\ separated l'
  end.

(** [pairwise R l]: [R a b] for every [a] that comes before [b] in [l]. *)
Fixpoint pairwise {A} (R : A -> A -> Prop) (l : list A) : Prop :=
  match l with
  | [] => True
  | a :: l' => Forall (R a) l' /\ pairwise R l'
  end.

(** Of two events in one column, the earlier one has ended when the later
    one starts. *)
Definition ends_before (p q : ScheduleEvent.t) : Prop :=
  column_of p = column_of q -> end_of p <= start_of q.

(** Two events on one day and in one column do not overlap in time. *)
Definition compatible (a b : ScheduleEvent.t) : Prop :=
  day_of a = day_of b -> column_of a = column_of b -> ~ time_overlap a b.

(** The columns opened while laying out the events of a day. *)
Definition columns_opened (events : list ScheduleEvent.t) : list Z :=
  (place_all [] (PyList.sorted key_ltb events)).1.

End Columns.

(** ** The layout of a day *)

Module Events.
Import ScheduleBuilder Columns.

(** The layout of one day, as [get_events] computes it. *)
Definition day_layout (all_events : list ScheduleEvent.t) (day : string)
    : list ScheduleEvent.t :=
  match PyDict.get (group_by_day all_events) day with
  | Some day_events => _assign_columns day_events
  | None => []
  end.

End Events.

(** ** Events and the meetings they come from *)

Module MeetingEvents.
Import ScheduleBuilder.

(** The start (or end) of a meeting as [_course_to_events] reads it. *)
Definition time_of (time_str : string) : result Z :=
  if PyStr.truthy time_str then parsing.parse_time_to_minutes time_str else Ok 0.

(** [e] is an event of the meeting [m] of [course]. *)
Definition event_of_meeting (course : Course.t) (m : Meeting.t)
    (e : ScheduleEvent.t) : Prop :=
  ScheduleEvent.course_id e = Course.id course
  /\ ScheduleEvent.day e ∈ parsing.parse_days_to_full_names (Meeting.days m)
  /\ time_of (Meeting.start_time m) = Ok (ScheduleEvent.start_minutes e)
  /\ time_of (Meeting.end_time m) = Ok (ScheduleEvent.end_minutes e)
  /\ ~ (ScheduleEvent.start_minutes e = 0 /\ ScheduleEvent.end_minutes e = 0)
  /\ Meeting.days m <> ""
  /\ PyStr.upper (Meeting.days m) <> "TBA".

End MeetingEvents.

(** ** Conflicts and the pairs they come from *)

Module ConflictScan.
Import ScheduleBuilder.

(** [a] comes before [b] in [l]. *)
Definition ordered_pair {A} (a b : A) (l : list A) : Prop :=
  exists l1 l2, l = l1 ++ a :: l2 /\ b ∈ l2.

(** A conflict of the events of [a] with the events of [b]. *)
Definition conflict_between (a b : Course.t) (c : ScheduleConflict.t) : Prop :=
  exists events1 events2,
    _course_to_events a "temp" = Ok events1
    /\ _course_to_events b "temp" = Ok events2
    /\ c ∈ event_conflicts events1 events2.

End ConflictScan.

Module DayConflicts.
Import ScheduleBuilder.

(** What a reported conflict tells: the day, the minutes of overlap, and the
    ids of the two courses. *)
Definition describe (c : ScheduleConflict.t) : string * Z * string * string :=
  (ScheduleConflict.day c, ScheduleConflict.overlap_duration c,
   ScheduleEvent.course_id (ScheduleConflict.event1 c),
   ScheduleEvent.course_id (ScheduleConflict.event2 c)).

(** No day name of a meeting of [a] is a day name of a meeting of [b]. *)
Definition disjoint_day_names (a b : Course.t) : Prop :=
  forall m1 m2 d,
    m1 ∈ Course.schedule a -> m2 ∈ Course.schedule b ->
    d ∈ parsing.parse_days_to_full_names (Meeting.days m1) ->
    d ∈ parsing.parse_days_to_full_names (Meeting.days m2) -> False.

(** No day code of a meeting of [a] is a day code of a meeting of [b]. *)
Definition disjoint_day_sets (a b : Course.t) : Prop :=
  forall m1 m2,
    m1 ∈ Course.schedule a -> m2 ∈ Course.schedule b ->
    parsing.parse_days_to_set (Meeting.days m1)
      ∩ parsing.parse_days_to_set (Meeting.days m2) = ∅.

End DayConflicts.

(** The schedule that holds [a], then [b]. *)
Definition schedule_of_two (a b : Course.t) : ScheduleBuilder.t :=
  (ScheduleBuilder.add_course (ScheduleBuilder.add_course ScheduleBuilder.new a).2 b).2.

(** ** Sample sections *)

Module DistinctSections.
Import ConflictScan.

(** A section that meets on Monday, Wednesday and Friday from 10:00 to
    11:00. *)
Definition mwf_section : Course.t :=
  {| Course.id := "CAS-CS-111-A1-Fall2026";
     Course.code := "CAS CS 111";
     Course.title := "Introduction to Computer Science";
     Course.description := "";
     Course.section := "A1";
     Course.professor := "John Lapets";
     Course.term := "Fall 2026";
     Course.credits := 4;
     Course.hub_units := [];
     Course.department := "CS";
     Course.college := "CAS";
     Course.schedule := [Meeting.mk "MWF" "10:00" "11:00" "CAS 313"];
     Course.status := "Open";
     Course.enrollment_cap := 0;
     Course.enrollment_total := 0;
     Course.section_type := "Lecture";
     Course.class_nbr := 0;
     Course.professor_rating := None |}.

End DistinctSections.

(** ** Time strings *)

Module TimeParsing.


End TimeParsing.

(** A section whose meeting has the start time "a:b". *)
Definition malformed_time_course : Course.t :=
  {| Course.id := "CAS-CS-112-A1-Fall2026";
     Course.code := "CAS CS 112";
     Course.title := "Introduction to Computer Science II";
     Course.description := "";
     Course.section := "A1";
     Course.professor := "";
     Course.term := "Fall 2026";
     Course.credits := 4;
     Course.hub_units := [];
     Course.department := "CS";
     Course.college := "CAS";
     Course.schedule := [Meeting.mk "MWF" "a:b" "11:00" "CAS 313"];
     Course.status := "Open";
     Course.enrollment_cap := 0;
     Course.enrollment_total := 0;
     Course.section_type := "Lecture";
     Course.class_nbr := 0;
     Course.professor_rating := None |}.

(** ** Bitmap and trigram indices *)

Module Bitmaps.
Import BitmapIndex.
Implicit Types (indices : gmap string (gmap string (gset Z))).

(** Every bitmap of the index holds at least one position. *)
Definition bitmaps_nonempty indices : Prop :=
  forall field index value bitmap,
    indices !! field = Some index -> index !! value = Some bitmap -> bitmap <> ∅.

End Bitmaps.

Module Trigrams.
Import TrigramIndex.

(** The posting set of a trigram, empty when the trigram is not indexed. *)
Definition postings (self : t) (trigram : string) : gset Z :=
  default ∅ (trigram_to_ids self !! trigram).

(** The index built by adding the documents of a list, in order. *)
Definition add_all (docs : list (Z * string)) : t :=
  fold_left (fun self '(doc_id, text) => add self doc_id text) docs new.

(** The number of shingles that two strings share. *)
Definition shared (query stored : string) : Z :=
  Z.of_nat (size (_extract_trigrams query ∩ _extract_trigrams stored)).

(** A posting list names exactly the documents whose stored text has the
    trigram. *)
Definition consistent (self : t) : Prop :=
  forall trigram doc_id,
    doc_id ∈ postings self trigram <->
    exists stored, id_to_text self !! doc_id = Some stored
                   /\ trigram ∈ _extract_trigrams stored.

(** The number of the trigrams of [l] whose posting list names [d]. *)
Definition tally (self : t) (l : list string) (d : Z) : Z :=
  Z.of_nat (length (List.filter (fun trigram => bool_decide (d ∈ postings self trigram)) l)).

(** The specified result of [get_candidates] for a query with shingles, as a
    property of an index, a query and a threshold. *)
Definition returns_ids_sharing (self : t) (query : string) (min_matches : Z)
    : Prop :=
  forall d,
    d ∈ get_candidates self query min_matches <->
    exists stored, id_to_text self !! d = Some stored
                   /\ min_matches <= shared (_normalize query) stored.

End Trigrams.

(** ** Grouping *)

Module Grouping.
Import CourseIndex.

Definition is_primary (c : Course.t) : bool :=
  bool_decide (Course.section_type c ∈ constants.PRIMARY_SECTION_TYPES).

Definition is_secondary (c : Course.t) : bool :=
  bool_decide (Course.section_type c ∈ constants.SECONDARY_SECTION_TYPES).

(** The group of A1, with A2 and the shared D1, and the group of B1, with
    the shared D1 only. *)
Definition group_A (a1 a2 d1 : Course.t) : GroupedCourse.t :=
  GroupedCourse.from_course a1 [to_related a2; to_related d1].

Definition group_B (b1 d1 : Course.t) : GroupedCourse.t :=
  GroupedCourse.from_course b1 [to_related d1].

End Grouping.

(** ** A small catalogue *)

Module Demo.

Definition section_of (id code section section_type subject : string)
    (schedule : list Meeting.t) : Course.t :=
  {| Course.id := id;
     Course.code := code;
     Course.title := "";
     Course.description := "";
     Course.section := section;
     Course.professor := "";
     Course.term := "Fall 2026";
     Course.credits := 4;
     Course.hub_units := [];
     Course.department := subject;
     Course.college := "CAS";
     Course.schedule := schedule;
     Course.status := "Open";
     Course.enrollment_cap := 0;
     Course.enrollment_total := 0;
     Course.section_type := section_type;
     Course.class_nbr := 0;
     Course.professor_rating := None |}.

Definition cs111 : Course.t :=
  section_of "CS111-A1" "CAS CS 111" "A1" "Lecture" "CS"
    [Meeting.mk "M" "12:00" "13:00" "CAS 313"].

Definition ma225 : Course.t :=
  section_of "MA225-A1" "CAS MA 225" "A1" "Lecture" "MA"
    [Meeting.mk "M" "12:30" "14:00" "CAS 314"].

Definition ph100 : Course.t :=
  section_of "PH100-A1" "CAS PH 100" "A1" "Lecture" "PH"
    [Meeting.mk "MWF" "13:30" "15:00" "CAS 315"].

Definition wr120 : Course.t :=
  section_of "WR120-A1" "CAS WR 120" "A1" "Lecture" "WR"
    [Meeting.mk "TuTh" "12:00" "13:00" "CAS 316"].

Definition mwf_1000 : Course.t :=
  section_of "CS112-A1" "CAS CS 112" "A1" "Lecture" "CS"
    [Meeting.mk "MWF" "10:00" "11:00" "CAS 313"].

Definition mwf_1030 : Course.t :=
  section_of "CS131-A1" "CAS CS 131" "A1" "Lecture" "CS"
    [Meeting.mk "MWF" "10:30" "11:30" "CAS 314"].

(** The schedule after adding four sections. *)
Definition schedule : ScheduleBuilder.t :=
  fold_left (fun self course => (ScheduleBuilder.add_course self course).2)
            [cs111; ma225; ph100; wr120] ScheduleBuilder.new.

Definition schedule_events : list ScheduleEvent.t :=
  Eval vm_compute in
    match (ScheduleBuilder.get_events schedule).1 with
    | Ok events => events
    | Raise _ => []
    end.

Definition schedule_conflicts : list ScheduleConflict.t :=
  Eval vm_compute in
    match ScheduleBuilder.get_all_conflicts schedule with
    | Ok conflicts => conflicts
    | Raise _ => []
    end.

(** The Monday events of the first three sections. *)
Definition first_event (course : Course.t) : ScheduleEvent.t :=
  match ScheduleBuilder._course_to_events course "temp" with
  | Ok (event :: _) => event
  | _ => ScheduleEvent.mk "" "" "" "" "" "" "" 0 0 "" "" "" None 0 1
  end.

Definition monday_1200 : ScheduleEvent.t := Eval vm_compute in first_event cs111.

Definition monday_1230 : ScheduleEvent.t := Eval vm_compute in first_event ma225.

Definition monday_1330 : ScheduleEvent.t := Eval vm_compute in first_event ph100.

Definition monday_events : list ScheduleEvent.t :=
  [monday_1330; monday_1200; monday_1230].

(** A day with two overlapping events in the morning and a lone event in
    the afternoon. *)
Definition event_at (start_minutes end_minutes : Z) : ScheduleEvent.t :=
  ScheduleEvent.mk "" "" "" "" "" "" "Tuesday" start_minutes end_minutes
    "" "" "" None 0 1.

Definition two_clusters : list ScheduleEvent.t :=
  [event_at 540 600; event_at 570 630; event_at 840 900].

Definition lecture_A1 : Course.t :=
  section_of "EK381-A1" "ENG EK 381" "A1" "Lecture" "EK" [].

Definition lecture_B1 : Course.t :=
  section_of "EK381-B1" "ENG EK 381" "B1" "Lecture" "EK" [].

Definition discussion_A2 : Course.t :=
  section_of "EK381-A2" "ENG EK 381" "A2" "Discussion" "EK" [].

Definition discussion_D1 : Course.t :=
  section_of "EK381-D1" "ENG EK 381" "D1" "Discussion" "EK" [].

Definition catalogue : list Course.t := [cs111; ma225; ph100; wr120].

End Demo.

(** The schedule that holds the Monday section and the Tuesday-Thursday
    section, and the conflicts reported when a second Monday section is
    added to it. *)
Definition monday_tuth_schedule : ScheduleBuilder.t :=
  schedule_of_two Demo.cs111 Demo.wr120.

Definition monday_tuth_added : list ScheduleConflict.t :=
  Eval vm_compute in
    match (ScheduleBuilder.add_course monday_tuth_schedule Demo.ma225).1 with
    | Ok conflicts => conflicts
    | Raise _ => []
    end.

Definition empty_event : ScheduleEvent.t :=
  ScheduleEvent.mk "" "" "" "" "" "" "" 0 0 "" "" "" None 0 1.

Definition first_conflict (conflicts : list ScheduleConflict.t) : ScheduleConflict.t :=
  List.hd (ScheduleConflict.mk empty_event empty_event "" 0 0) conflicts.

(** The bitmap index of the four sections of the catalogue. *)
Definition catalogue_index : BitmapIndex.t := BitmapIndex.build Demo.catalogue.

(** The trigram index of three texts. *)
Definition catalogue_texts : list (Z * string) :=
  [(0, "CAS CS 111  Introduction to Computer Science");
   (1, "CAS MA 225 Multivariate Calculus");
   (2, "cs")].

(** ** The layout and the events it is made from *)

Module Layout.
Import ScheduleBuilder.

(** An event as it is before the layout: in column 0 of 1. *)
Definition unplaced (e : ScheduleEvent.t) : ScheduleEvent.t :=
  ScheduleEvent.set_total_columns 1 (ScheduleEvent.set_column 0 e).

(** [p] is under way when [e] starts. *)
Definition under_way_at_start (p e : ScheduleEvent.t) : Prop :=
  ScheduleEvent.start_minutes p <= ScheduleEvent.start_minutes e
  /\ ScheduleEvent.start_minutes e < ScheduleEvent.end_minutes p.

(** Every open column holds an event that ends at the tracked time. *)
Definition occupied (columns : list Z) (placed : list ScheduleEvent.t) : Prop :=
  forall (k : nat) x, columns !! k = Some x ->
    exists p, p ∈ placed /\ ScheduleEvent.column p = Z.of_nat k
              /\ ScheduleEvent.end_minutes p = x.

(** The events of a list that fall on a day. *)
Definition on_day (day : string) (events : list ScheduleEvent.t)
    : list ScheduleEvent.t :=
  filter (fun e => ScheduleEvent.day e = day) events.

(** The colour that [get_events] gives to the course at position [i] of the
    schedule: the palette is read from the colour index on, round and
    round. *)
Definition color_at (self : t) (i : nat) : string :=
  nth (Z.to_nat ((_color_index self + Z.of_nat i) mod Z.of_nat (length COLORS)))
      COLORS "".

(** The events of a course in the colour that the table gives to its id. *)
Definition colored_events (course_colors : list (string * string))
    (course : Course.t) : result (list ScheduleEvent.t) :=
  color ← of_option KeyError (PyDict.get course_colors (Course.id course));
  _course_to_events course color.

(** An event as [_course_to_events] makes it for a course and a colour. *)
Definition fresh_event (course : Course.t) (color : string) (e : ScheduleEvent.t)
    : Prop :=
  ScheduleEvent.course_id e = Course.id course
  /\ ScheduleEvent.color e = Some color
  /\ ScheduleEvent.column e = 0
  /\ ScheduleEvent.total_columns e = 1
  /\ ScheduleEvent.day e ∈ parsing.DAY_ORDER.

End Layout.

(** ** Overlaps *)

Module Overlap.
Import ScheduleBuilder.

(** Every meeting of the course is untimed or ends after it starts. *)
Definition timed (course : Course.t) : Prop :=
  forall m s e,
    m ∈ Course.schedule course ->
    MeetingEvents.time_of (Meeting.start_time m) = Ok s ->
    MeetingEvents.time_of (Meeting.end_time m) = Ok e ->
    s < e \/ (s = 0 /\ e = 0).

(** The overlap of a conflict is a stretch of positive length, on the day of
    both events and within the times of both. *)
Definition proper (c : ScheduleConflict.t) : Prop :=
  let e1 := ScheduleConflict.event1 c in
  let e2 := ScheduleConflict.event2 c in
  ScheduleEvent.day e1 = ScheduleConflict.day c
  /\ ScheduleEvent.day e2 = ScheduleConflict.day c
  /\ 0 < ScheduleConflict.overlap_duration c
  /\ ScheduleConflict.overlap_duration c <= ScheduleEvent.duration_minutes e1
  /\ ScheduleConflict.overlap_duration c <= ScheduleEvent.duration_minutes e2
  /\ ScheduleConflict.overlap_start c
     = Z.max (ScheduleEvent.start_minutes e1) (ScheduleEvent.start_minutes e2)
  /\ ScheduleConflict.overlap_end c
     = Z.min (ScheduleEvent.end_minutes e1) (ScheduleEvent.end_minutes e2).

(** The same conflict seen from the other course. *)
Definition mirror (c : ScheduleConflict.t) : ScheduleConflict.t :=
  ScheduleConflict.mk (ScheduleConflict.event2 c) (ScheduleConflict.event1 c)
    (ScheduleConflict.day c) (ScheduleConflict.overlap_start c)
    (ScheduleConflict.overlap_end c).

(** The conflicts among courses whose events are given, earlier against
    later. *)
Fixpoint among (events : list (list ScheduleEvent.t)) : list ScheduleConflict.t :=
  match events with
  | [] => []
  | events1 :: rest => flat_map (event_conflicts events1) rest ++ among rest
  end.

End Overlap.

(** The schedule of the catalogue with one more section, and the layout of
    the Monday of the catalogue. *)
Definition schedule_with_mwf : ScheduleBuilder.t :=
  (ScheduleBuilder.add_course Demo.schedule Demo.mwf_1000).2.

Definition monday_layout : list ScheduleEvent.t :=
  Eval vm_compute in ScheduleBuilder._assign_columns Demo.monday_events.

(** ** Clock times and day codes *)

Module Clock.

(** The ten day codes that [parse_days_to_codes] knows. *)
Definition day_codes : list string :=
  ["TU"; "TH"; "SA"; "SU"; "MO"; "WE"; "FR"; "M"; "W"; "F"].

Definition digit (n : Z) : ascii := ascii_of_N (Z.to_N (48 + n)).

(** A number below 100 written with two digits, and written as it is
    spoken. *)
Definition two_digits (n : Z) : string :=
  String (digit (n / 10)) (String (digit (n mod 10)) "").

Definition decimal (n : Z) : string :=
  if n <? 10 then String (digit n) "" else two_digits n.

(** [parse_time_to_minutes] reads [time_str] as [minutes]. *)
Definition reads (time_str : string) (minutes : Z) : bool :=
  match parsing.parse_time_to_minutes time_str with
  | Ok v => v =? minutes
  | Raise _ => false
  end.

(** The ways to write a time of the 24-hour clock, and of the 12-hour
    clock before and after noon. *)
Definition reads_24 (h m : Z) : bool :=
  reads (decimal h +:+ ":" +:+ two_digits m) (h * 60 + m)
  && reads (two_digits h +:+ ":" +:+ two_digits m) (h * 60 + m)
  && reads (two_digits h +:+ two_digits m) (h * 60 + m)
  && reads (decimal h) (h * 60).

Definition reads_12 (h m : Z) : bool :=
  reads (decimal h +:+ ":" +:+ two_digits m +:+ " AM") (h mod 12 * 60 + m)
  && reads (decimal h +:+ ":" +:+ two_digits m +:+ " PM") ((h mod 12 + 12) * 60 + m)
  && reads (decimal h +:+ ":" +:+ two_digits m +:+ "am") (h mod 12 * 60 + m)
  && reads (decimal h +:+ ":" +:+ two_digits m +:+ "pm") ((h mod 12 + 12) * 60 + m).

Definition all_times (f : Z -> Z -> bool) (hours minutes : list Z) : bool :=
  forallb (fun h => forallb (f h) minutes) hours.

End Clock.

(** ** The fields of the bitmap index *)

Module Fields.
Import BitmapIndex.

(** The fields that [build] indexes. *)
Definition fields : list string := ["subject"; "term"; "hub"; "college"; "status"].

(** The values that a course carries for a field of the index. *)
Definition field_values (field : string) (course : Course.t) : list string :=
  if String.eqb field "subject" then [Course.department course]
  else if String.eqb field "term" then [Course.term course]
  else if String.eqb field "college" then [Course.college course]
  else if String.eqb field "status" then
    (if PyStr.truthy (Course.status course) then [Course.status course] else [])
  else if String.eqb field "hub" then Course.hub_units course
  else [].

(** The course at position [i] carries [value] for [field]. *)
Definition carries (courses : list Course.t) (field value : string) (i : Z) : Prop :=
  exists (n : nat) course,
    i = Z.of_nat n /\ courses !! n = Some course
    /\ value ∈ field_values field course.

(** The positions that the index lists for a value of a field, none when it
    does not know the field or the value. *)
Definition posting (indices : gmap string (gmap string (gset Z)))
    (field value : string) : gset Z :=
  default ∅ (default ∅ (indices !! field) !! value).

(** The course at position [i] carries one of the values of the keyword
    argument. *)
Definition satisfies (courses : list Course.t) (fv : string * filter_value)
    (i : Z) : Prop :=
  exists value, value ∈ to_list fv.2 /\ carries courses fv.1 value i.

(** The keyword argument restricts the result: it has values, and some
    course carries one of them. *)
Definition constrains (courses : list Course.t) (fv : string * filter_value)
    : Prop :=
  falsy fv.2 = false /\ exists i, satisfies courses fv i.

End Fields.

(** ** The order of strings *)

Module StringOrder.

(** [a < b] and [a <= b] on strings. *)
Definition lt (a b : string) : Prop := PyStr.ltb a b = true.
Definition le (a b : string) : Prop := PyStr.ltb b a = false.

End StringOrder.

(** ** Sort orders and limits *)

Module Sorting.
Import CourseIndex.

(** The order of the results for a sort key. *)
Definition in_order (sort_by : string) (a b : Course.t) : Prop :=
  if String.eqb sort_by "code" then
    StringOrder.le (Course.code a) (Course.code b)
  else if String.eqb sort_by "title" then
    StringOrder.le (PyStr.lower (Course.title a)) (PyStr.lower (Course.title b))
  else if String.eqb sort_by "professor" then
    StringOrder.le (PyStr.lower (Course.professor a)) (PyStr.lower (Course.professor b))
  else if String.eqb sort_by "credits" then
    Course.credits b <= Course.credits a
  else True.

(** The courses at the positions of a list. *)
Definition courses_at (courses : list Course.t) (positions : list Z)
    (out : list Course.t) : Prop :=
  Forall2 (fun i c => 0 <= i /\ courses !! Z.to_nat i = Some c) positions out.

(** The position is one of the list of courses. *)
Definition valid (courses : list Course.t) (i : Z) : Prop :=
  0 <= i < Z.of_nat (length courses).

(** The positions that [_get_sorted] reads, before the limit. *)
Definition sorted_ids (self : t) (ids : gset Z) (sort_by : string) : list Z :=
  match PyDict.get (sorted_by self) sort_by with
  | Some order => filter (fun i => i ∈ ids) order
  | None => PyList.sorted Z.ltb (elements ids)
  end.

(** The order of two positions, by the courses they hold. *)
Definition at_order (courses : list Course.t) (R : Course.t -> Course.t -> Prop)
    (i j : Z) : Prop :=
  forall a b,
    courses !! Z.to_nat i = Some a -> courses !! Z.to_nat j = Some b -> R a b.

(** The number of results for a limit and a number of matches. *)
Definition limited (limit matches : Z) : Z :=
  if 0 <=? limit then Z.min limit matches else Z.max 0 (matches + limit).

End Sorting.

(** ** The prefix index *)

Module Prefixes.
Import CourseIndex.

(** The keys under which [_build_prefix_index] files a course: the first two
    characters of every word of its code that has two, and its department,
    all in upper case. *)
Definition prefix_keys (course : Course.t) : list string :=
  (PyStr.take 2
     <$> filter (fun part => (2 <= String.length part)%nat)
                (PyStr.split_ws (PyStr.upper (Course.code course))))
  ++ (if PyStr.truthy (Course.department course)
      then [PyStr.upper (Course.department course)] else []).

(** The course at position [i] is filed under [key]. *)
Definition filed (courses : list Course.t) (key : string) (i : Z) : Prop :=
  exists (n : nat) course,
    i = Z.of_nat n /\ courses !! n = Some course /\ key ∈ prefix_keys course.

(** The ids that a map from keys to sets lists for a key. *)
Definition listed (m : gmap string (gset Z)) (key : string) : gset Z :=
  default ∅ (m !! key).

(** The body of the loop of [_build_prefix_index]. *)
Definition step (prefix_index : gmap string (gset Z)) (ic : Z * Course.t)
    : gmap string (gset Z) :=
  let '(i, course) := ic in
  let code_parts := PyStr.split_ws (PyStr.upper (Course.code course)) in
  let prefix_index :=
    fold_left (fun prefix_index part =>
                 if (2 <=? String.length part)%nat
                 then add_prefix (PyStr.take 2 part) i prefix_index
                 else prefix_index)
              code_parts prefix_index in
  if PyStr.truthy (Course.department course)
  then add_prefix (PyStr.upper (Course.department course)) i prefix_index
  else prefix_index.


End Prefixes.

(** ** Containment of strings *)

Module Containment.
(** [sub] occurs in [s]. *)
Definition within (sub s : string) : Prop :=
  exists pre post, s = pre +:+ sub +:+ post.
End Containment.

(** The course index of the four sections of the catalogue, with their
    search texts. *)
Definition catalogue_course_index : CourseIndex.t :=
  CourseIndex._build_indices Demo.catalogue (Course.search_text <$> Demo.catalogue).

(** A matcher that finds nothing. *)
Definition no_match (self : CourseIndex.t) (query : string) (ids : gset Z)
    (limit : Z) : result (list Course.t) := Ok [].

(* ===================================================================== *)
(** * Part III. Properties *)
(* ===================================================================== *)

(** ** The error monad *)

Lemma bind_Ok {A B} (m : result A) (f : A -> result B) (b : B) :
  m ≫= f = Ok b -> exists a, m = Ok a /\ f a = Ok b.
Proof. destruct m as [a|e]; simpl; [eauto | discriminate]. Qed.

Ltac inv_bind H :=
  let a := fresh "v" in
  let Ha := fresh "Hv" in
  apply bind_Ok in H; destruct H as (a & Ha & H).

(** A loop whose body only ever appends: the result is the concatenation of
    what each iteration contributes. *)
Lemma foldM_app_Ok {A B} (g : A -> result (list B)) (l : list A)
    (acc out : list B) :
  foldM (fun acc x => r ← g x; Ok (acc ++ r)) acc l = Ok out ->
  exists parts, Forall2 (fun x r => g x = Ok r) l parts
                /\ out = acc ++ concat parts.
Proof.
  revert acc. induction l as [|x l IH]; intros acc H; simpl in H.
  - injection H as <-. exists []. split; [constructor|]. simpl.
    by rewrite app_nil_r.
  - inv_bind H. inv_bind Hv. injection Hv as <-.
    destruct (IH _ H) as (parts & Hparts & ->).
    exists (v0 :: parts). split; [by constructor|].
    simpl. by rewrite <- app_assoc.
Qed.

(** ** Ordered dictionaries *)

Section PyDict_facts.

Context {K V : Type} `{EqDecision K}.

Implicit Types (d : list (K * V)) (k : K) (v : V).

Lemma get_set_eq d k v : PyDict.get (PyDict.set d k v) k = Some v.
Proof.
  induction d as [|[k' v'] d IH]; simpl.
  - by rewrite decide_True.
  - destruct (decide (k' = k)) as [->|Hne]; simpl.
    + by rewrite decide_True.
    + by rewrite decide_False.
Qed.

Lemma get_set_ne d k k' v :
  k <> k' -> PyDict.get (PyDict.set d k v) k' = PyDict.get d k'.
Proof.
  intros Hne. induction d as [|[k0 v0] d IH]; simpl.
  - by rewrite decide_False.
  - destruct (decide (k0 = k)) as [->|Hne0]; simpl.
    + by rewrite !decide_False.
    + by rewrite IH.
Qed.

Lemma keys_set_present d k v :
  k ∈ PyDict.keys d -> PyDict.keys (PyDict.set d k v) = PyDict.keys d.
Proof.
  unfold PyDict.keys. induction d as [|[k' v'] d IH]; simpl; intros Hin.
  - by apply elem_of_nil in Hin.
  - destruct (decide (k' = k)) as [->|Hne]; simpl; [done|].
    f_equal. apply IH. apply elem_of_cons in Hin as [->|Hin]; done.
Qed.

Lemma keys_set_absent d k v :
  k ∉ PyDict.keys d -> PyDict.keys (PyDict.set d k v) = PyDict.keys d ++ [k].
Proof.
  unfold PyDict.keys. induction d as [|[k' v'] d IH]; simpl; intros Hin.
  - done.
  - destruct (decide (k' = k)) as [->|Hne]; simpl.
    + exfalso. apply Hin. by left.
    + f_equal. apply IH. intros ?. apply Hin. by right.
Qed.

Lemma keys_del_subseteq d k : PyDict.keys (PyDict.del d k) ⊆ PyDict.keys d.
Proof.
  unfold PyDict.keys. induction d as [|[k' v'] d IH]; simpl; [done|].
  destruct (decide (k' = k)); simpl.
  - by apply list_subseteq_cons.
  - intros x Hx. apply elem_of_cons in Hx as [->|Hx]; [by left|].
    right. by apply IH.
Qed.

Lemma wf_set d k v : PyDict.wf d -> PyDict.wf (PyDict.set d k v).
Proof.
  unfold PyDict.wf. intros Hwf.
  destruct (decide (k ∈ PyDict.keys d)) as [Hin|Hnin].
  - by rewrite keys_set_present.
  - rewrite keys_set_absent by done.
    apply NoDup_app. split; [done|]. split; [|apply NoDup_singleton].
    intros x Hx ->%list_elem_of_singleton. done.
Qed.

Lemma wf_del d k : PyDict.wf d -> PyDict.wf (PyDict.del d k).
Proof.
  unfold PyDict.wf, PyDict.keys.
  induction d as [|[k' v'] d IH]; simpl; intros Hwf; [done|].
  apply NoDup_cons in Hwf as [Hk' Hwf].
  destruct (decide (k' = k)); simpl; [done|].
  apply NoDup_cons. split; [|by apply IH].
  intros Hin. apply Hk'. by apply (keys_del_subseteq d k).
Qed.

Lemma mem_true_keys d k : PyDict.mem d k = true <-> k ∈ PyDict.keys d.
Proof.
  unfold PyDict.mem, PyDict.keys.
  induction d as [|[k' v'] d IH]; simpl.
  - split; [discriminate|]. intros H. by apply elem_of_nil in H.
  - destruct (decide (k' = k)) as [->|Hne].
    + split; [|done]. intros _. by left.
    + rewrite IH. split; [by right|].
      intros [->|H]%elem_of_cons; done.
Qed.

Lemma length_set_present d k v :
  k ∈ PyDict.keys d -> length (PyDict.set d k v) = length d.
Proof.
  intros H. rewrite <- (length_fmap fst (PyDict.set d k v)).
  fold (PyDict.keys (PyDict.set d k v)). rewrite keys_set_present by done.
  unfold PyDict.keys. by rewrite length_fmap.
Qed.

Lemma length_set_absent d k v :
  k ∉ PyDict.keys d -> length (PyDict.set d k v) = S (length d).
Proof.
  intros H. rewrite <- (length_fmap fst (PyDict.set d k v)).
  fold (PyDict.keys (PyDict.set d k v)). rewrite keys_set_absent by done.
  unfold PyDict.keys. rewrite length_app, length_fmap. simpl. lia.
Qed.

End PyDict_facts.

Section PyDict_entries.

Context {K V : Type} `{EqDecision K}.

Implicit Types (d : list (K * V)) (P : K * V -> Prop).

Lemma Forall_set d k v P :
  Forall P d -> P (k, v) -> Forall P (PyDict.set d k v).
Proof.
  intros Hd Hkv. induction Hd as [|[k' v'] d Hx Hd IH]; simpl.
  - by constructor.
  - destruct (decide (k' = k)) as [->|Hne]; by constructor.
Qed.

Lemma Forall_del d k P : Forall P d -> Forall P (PyDict.del d k).
Proof.
  intros Hd. induction Hd as [|[k' v'] d Hx Hd IH]; simpl; [done|].
  destruct (decide (k' = k)); [done | by constructor].
Qed.

Lemma get_Some_elem_of d k v : PyDict.get d k = Some v -> (k, v) ∈ d.
Proof.
  induction d as [|[k' v'] d IH]; simpl; [discriminate|].
  destruct (decide (k' = k)) as [->|Hne].
  - intros [= ->]. by left.
  - intros H. right. by apply IH.
Qed.

End PyDict_entries.

(** ** The schedule holds one course per id *)

Module ScheduleInvariantFacts.
Import ScheduleInvariant.
Lemma keyed_keys d :
  Forall (fun kc : string * Course.t => kc.1 = Course.id kc.2) d ->
  Course.id <$> PyDict.values d = PyDict.keys d.
Proof.
  unfold PyDict.values, PyDict.keys.
  induction 1 as [|[k c] d Hk Hd IH]; [done|].
  rewrite !fmap_cons. simpl in *. by rewrite IH, Hk.
Qed.

Lemma of_wf self :
  keyed_by_id self -> PyDict.wf (ScheduleBuilder.courses self) ->
  one_course_per_id self.
Proof.
  intros Hk Hwf. split; [done|]. by rewrite keyed_keys.
Qed.

Lemma to_wf self :
  one_course_per_id self -> PyDict.wf (ScheduleBuilder.courses self).
Proof. intros [Hk Hnd]. unfold PyDict.wf. by rewrite <- keyed_keys. Qed.

Lemma new_ok : one_course_per_id ScheduleBuilder.new.
Proof. split; [constructor | apply NoDup_nil_2]. Qed.

Lemma clear_ok self : one_course_per_id (ScheduleBuilder.clear self).
Proof. split; [constructor | apply NoDup_nil_2]. Qed.

Lemma add_course_ok self course :
  one_course_per_id self ->
  one_course_per_id (ScheduleBuilder.add_course self course).2.
Proof.
  intros Hinv. unfold ScheduleBuilder.add_course.
  destruct (ScheduleBuilder._detect_conflicts_with self course); [|done].
  simpl. apply of_wf.
  - unfold keyed_by_id; simpl. apply Forall_set; [apply Hinv | done].
  - simpl. apply wf_set. by apply to_wf.
Qed.

Lemma remove_course_ok self course_id :
  one_course_per_id self ->
  one_course_per_id (ScheduleBuilder.remove_course self course_id).2.
Proof.
  intros Hinv. unfold ScheduleBuilder.remove_course.
  destruct (PyDict.mem _ _); [|done].
  simpl. apply of_wf.
  - unfold keyed_by_id; simpl. apply Forall_del, Hinv.
  - simpl. apply wf_del. by apply to_wf.
Qed.

End ScheduleInvariantFacts.

(** C10. The schedule holds at most one course per id, and every operation
    keeps it so: a new schedule and a cleared one satisfy the invariant;
    [add_course] and [remove_course] preserve it; and [add_course] with a
    course whose id is already present replaces the entry under that id
    (the course found there afterwards is the new one) and leaves
    [course_count] unchanged. *)
Theorem schedule_one_course_per_id :
  ScheduleInvariant.one_course_per_id ScheduleBuilder.new
  /\ forall self : ScheduleBuilder.t,
      ScheduleInvariant.one_course_per_id self ->
      (forall course,
          ScheduleInvariant.one_course_per_id
            (ScheduleBuilder.add_course self course).2)
      /\ (forall course conflicts self',
             ScheduleBuilder.add_course self course = (Ok conflicts, self') ->
             PyDict.mem (ScheduleBuilder.courses self) (Course.id course) = true ->
             ScheduleBuilder.course_count self' = ScheduleBuilder.course_count self
             /\ ScheduleBuilder.get_course self' (Course.id course) = Some course)
      /\ (forall course_id,
             ScheduleInvariant.one_course_per_id
               (ScheduleBuilder.remove_course self course_id).2)
      /\ ScheduleInvariant.one_course_per_id (ScheduleBuilder.clear self).
Proof.
  split; [apply ScheduleInvariantFacts.new_ok|].
  intros self Hinv.
  split; [|split; [|split]].
  - intros course. by apply ScheduleInvariantFacts.add_course_ok.
  - intros course conflicts self' H Hmem.
    unfold ScheduleBuilder.add_course in H.
    destruct (ScheduleBuilder._detect_conflicts_with self course); [|done].
    injection H as _ <-. split.
    + unfold ScheduleBuilder.course_count. simpl.
      f_equal. apply length_set_present. by apply mem_true_keys.
    + unfold ScheduleBuilder.get_course. simpl. apply get_set_eq.
  - intros course_id. by apply ScheduleInvariantFacts.remove_course_ok.
  - apply ScheduleInvariantFacts.clear_ok.
Qed.

(** ** Sorting *)

Section sorted_facts.

Context {A : Type} (ltb : A -> A -> bool).

Lemma insert_sorted_perm x l : PyList.insert_sorted ltb x l ≡ₚ x :: l.
Proof.
  induction l as [|y l IH]; simpl; [done|].
  destruct (ltb y x); [|done].
  rewrite IH. apply Permutation_swap.
Qed.

Lemma sorted_perm l : PyList.sorted ltb l ≡ₚ l.
Proof.
  induction l as [|x l IH]; simpl; [done|].
  by rewrite insert_sorted_perm, IH.
Qed.

Lemma sorted_elem_of x l : x ∈ PyList.sorted ltb l <-> x ∈ l.
Proof. by rewrite sorted_perm. Qed.

Lemma sorted_Forall (P : A -> Prop) l :
  Forall P l -> Forall P (PyList.sorted ltb l).
Proof. by rewrite sorted_perm. Qed.

Lemma sorted_length l : length (PyList.sorted ltb l) = length l.
Proof. by rewrite sorted_perm. Qed.

(** [le] is a preorder that [ltb] refines: what [ltb] puts first is below,
    and what it does not put first is not below. *)
Context (le : A -> A -> Prop).

Hypothesis le_trans : forall a b c, le a b -> le b c -> le a c.

Hypothesis ltb_le : forall a b, ltb a b = true -> le a b.

Hypothesis not_ltb_le : forall a b, ltb a b = false -> le b a.

Lemma insert_sorted_StronglySorted x l :
  StronglySorted le l -> StronglySorted le (PyList.insert_sorted ltb x l).
Proof.
  induction 1 as [|y l Hl IH Hy]; simpl.
  - constructor; constructor.
  - destruct (ltb y x) eqn:Hyx.
    + constructor; [done|].
      rewrite insert_sorted_perm. constructor; [by apply ltb_le | done].
    + constructor; [by constructor|].
      constructor; [by apply not_ltb_le|].
      eapply Forall_impl; [exact Hy|]. intros z Hz.
      eapply le_trans; [|exact Hz]. by apply not_ltb_le.
Qed.

Lemma sorted_StronglySorted l : StronglySorted le (PyList.sorted ltb l).
Proof.
  induction l as [|x l IH]; simpl; [constructor|].
  by apply insert_sorted_StronglySorted.
Qed.

End sorted_facts.

Lemma insert_everywhere_middle {A} (x : A) l1 l2 :
  l1 ++ x :: l2 ∈ insert_everywhere x (l1 ++ l2).
Proof.
  induction l1 as [|y l1 IH]; simpl.
  - destruct l2; by left.
  - right. by apply (list_elem_of_fmap_2 (fun r => y :: r)).
Qed.

(** Every permutation of a list is one of its orders. *)
Lemma orders_complete {A} (l0 l : list A) : l ≡ₚ l0 -> l ∈ orders l0.
Proof.
  revert l. induction l0 as [|x l0 IH]; intros l Hperm; simpl.
  - apply Permutation_nil_r in Hperm as ->. by left.
  - destruct (Permutation_vs_cons_inv Hperm) as (l1 & l2 & ->).
    apply Permutation_sym, Permutation_cons_app_inv, Permutation_sym in Hperm.
    apply list_elem_of_In, in_flat_map. exists (l1 ++ l2).
    split; apply list_elem_of_In; [by apply IH | apply insert_everywhere_middle].
Qed.

(** ** Column assignment *)

Module ColumnsFacts.
Import Columns.
Import ScheduleBuilder.

Lemma key_ltb_start_le a b : key_ltb a b = true -> start_le a b.
Proof. unfold key_ltb, start_le. lia. Qed.

Lemma not_key_ltb_start_le a b : key_ltb a b = false -> start_le b a.
Proof. unfold key_ltb, start_le. lia. Qed.

Lemma sorted_by_start events :
  StronglySorted start_le (PyList.sorted key_ltb events).
Proof.
  apply sorted_StronglySorted.
  - unfold start_le. lia.
  - apply key_ltb_start_le.
  - apply not_key_ltb_start_le.
Qed.

(** What [first_free] finds: a column whose tracked end time is at most the
    start. *)
Lemma first_free_Some i columns start k :
  first_free i columns start = Some k ->
  exists x, (i <= k)%nat /\ columns !! (k - i)%nat = Some x /\ x <= start.
Proof.
  revert i. induction columns as [|c columns IH]; intros i; simpl; [done|].
  destruct (start >=? c) eqn:Hc.
  - intros [= <-]. exists c. rewrite Nat.sub_diag. split; [lia|]. split; [done|lia].
  - intros H. destruct (IH _ H) as (x & Hle & Hx & Hs).
    exists x. split; [lia|]. split; [|done].
    replace (k - i)%nat with (S (k - S i)) by lia. done.
Qed.

Lemma set_column_fields c e :
  start_of (ScheduleEvent.set_column c e) = start_of e
  /\ end_of (ScheduleEvent.set_column c e) = end_of e
  /\ day_of (ScheduleEvent.set_column c e) = day_of e
  /\ column_of (ScheduleEvent.set_column c e) = c.
Proof. done. Qed.

Lemma place_fields columns event :
  start_of (place columns event).2 = start_of event
  /\ end_of (place columns event).2 = end_of event
  /\ day_of (place columns event).2 = day_of event.
Proof. unfold place. destruct (first_free _ _ _); done. Qed.

(** One step: the placed event is separated from the earlier events of
    its column, and the bookkeeping stays right. *)
Lemma place_tracked columns lo placed event :
  tracked columns lo placed ->
  lo <= start_of event ->
  let '(columns1, event1) := place columns event in
  tracked columns1 (start_of event) (event1 :: placed)
  /\ forall p, p ∈ placed -> column_of p = column_of event1 ->
               end_of p <= start_of event.
Proof.
  intros Htr Hlo. unfold place.
  destruct (first_free 0 columns (start_of event)) as [k|] eqn:Hff.
  - apply first_free_Some in Hff as (x & _ & Hx & Hxs).
    rewrite Nat.sub_0_r in Hx.
    assert (k < length columns)%nat as Hk by (by eapply lookup_lt_Some).
    split.
    + intros p [->|Hp]%elem_of_cons.
      * exists k, (end_of event). simpl.
        split; [done|]. split; [by apply list_lookup_insert_eq|]. left; lia.
      * destruct (Htr p Hp) as (i & y & Hi & Hy & Hend).
        destruct (decide (i = k)) as [->|Hne].
        -- exists k, (end_of event).
           split; [done|]. split; [by apply list_lookup_insert_eq|].
           right. rewrite Hx in Hy. injection Hy as <-. lia.
        -- exists i, y. split; [done|].
           split; [by rewrite list_lookup_insert_ne|]. lia.
    + intros p Hp Hcol. simpl in Hcol.
      destruct (Htr p Hp) as (i & y & Hi & Hy & Hend).
      assert (i = k) as -> by lia.
      rewrite Hx in Hy. injection Hy as <-. lia.
  - split.
    + intros p [->|Hp]%elem_of_cons.
      * exists (length columns), (end_of event). simpl.
        split; [done|]. split; [|left; lia].
        rewrite lookup_app_r by lia. by rewrite Nat.sub_diag.
      * destruct (Htr p Hp) as (i & y & Hi & Hy & Hend).
        exists i, y. split; [done|].
        split; [|lia]. rewrite lookup_app_l; [done|]. by eapply lookup_lt_Some.
    + intros p Hp Hcol. simpl in Hcol.
      destruct (Htr p Hp) as (i & y & Hi & Hy & Hend).
      apply lookup_lt_Some in Hy. lia.
Qed.

Lemma place_all_separated events :
  forall columns lo placed,
    tracked columns lo placed ->
    Forall (fun e => lo <= start_of e) events ->
    StronglySorted start_le events ->
    let out := (place_all columns events).2 in
    Forall (fun q => forall p, p ∈ placed -> column_of p = column_of q ->
                               end_of p <= start_of q) out
    /\ separated out.
Proof.
  induction events as [|event events IH]; intros columns lo placed Htr Hlo Hs.
  - simpl. split; [constructor | done].
  - apply Forall_cons in Hlo as [Hlo0 Hlo].
    apply StronglySorted_inv in Hs as [Hs Hhd].
    pose proof (place_tracked columns lo placed event Htr Hlo0) as Hstep.
    pose proof (place_fields columns event) as (Hst & Hen & _).
    simpl. destruct (place columns event) as [columns1 event1] eqn:Hplace.
    destruct Hstep as [Htr1 Hsep1]. simpl in Hst, Hen.
    specialize (IH columns1 (start_of event) (event1 :: placed) Htr1 Hhd Hs).
    destruct (place_all columns1 events) as [columns2 events2]. simpl in *.
    destruct IH as [IH1 IH2].
    split; [|split; [|done]].
    + constructor.
      * intros p Hp Hcol. rewrite Hst. by apply Hsep1.
      * eapply Forall_impl; [exact IH1|]. intros q Hq p Hp.
        apply Hq. by right.
    + eapply Forall_impl; [exact IH1|]. intros q Hq Hcol.
      apply Hq; [by left | done].
Qed.

Lemma pairwise_app {A} (R : A -> A -> Prop) l1 l2 :
  pairwise R l1 -> pairwise R l2 ->
  Forall (fun a => Forall (R a) l2) l1 ->
  pairwise R (l1 ++ l2).
Proof.
  induction l1 as [|a l1 IH]; simpl; [done|].
  intros [Ha H1] H2 [Ha2 H12]%Forall_cons.
  split; [|by apply IH]. apply Forall_app. done.
Qed.

Lemma pairwise_lookup {A} (R : A -> A -> Prop) l i j a b :
  pairwise R l -> (i < j)%nat -> l !! i = Some a -> l !! j = Some b -> R a b.
Proof.
  revert i j. induction l as [|x l IH]; intros i j Hp Hij Hi Hj; [done|].
  destruct Hp as [Hx Hp].
  destruct j as [|j]; [lia|]. simpl in Hj.
  destruct i as [|i]; simpl in Hi.
  - injection Hi as ->. rewrite Forall_forall in Hx. apply Hx.
    by eapply list_elem_of_lookup_2.
  - eapply (IH i j); [done | lia | done | done].
Qed.

Lemma pairwise_impl {A} (R S : A -> A -> Prop) l :
  (forall a b, R a b -> S a b) -> pairwise R l -> pairwise S l.
Proof.
  intros HRS. induction l as [|a l IH]; simpl; [done|].
  intros [Ha Hl]. split; [|by apply IH].
  eapply Forall_impl; [exact Ha|]. intros b. apply HRS.
Qed.

Lemma pairwise_fmap {A B} (R : B -> B -> Prop) (f : A -> B) l :
  pairwise (fun a b => R (f a) (f b)) l -> pairwise R (f <$> l).
Proof.
  induction l as [|a l IH]; simpl; [done|].
  intros [Ha Hl]. split; [|by apply IH].
  apply Forall_fmap. done.
Qed.

Lemma separated_pairwise l : separated l <-> pairwise ends_before l.
Proof. induction l as [|a l IH]; simpl; [done|]. by rewrite IH. Qed.

Lemma compatible_sym a b : compatible a b -> compatible b a.
Proof. unfold compatible, time_overlap. intros H Hd Hc. rewrite Hd, Hc in H. tauto. Qed.

Lemma place_all_Forall (P : ScheduleEvent.t -> Prop) events :
  (forall c e, P e -> P (ScheduleEvent.set_column c e)) ->
  forall columns, Forall P events -> Forall P (place_all columns events).2.
Proof.
  intros HP. induction events as [|e events IH]; intros columns Hall; simpl.
  - constructor.
  - apply Forall_cons in Hall as [He Hall].
    destruct (place columns e) as [columns1 e1] eqn:Hpl.
    specialize (IH columns1 Hall).
    destruct (place_all columns1 events) as [columns2 events2]. simpl in *.
    constructor; [|done].
    unfold place in Hpl. destruct (first_free _ _ _); injection Hpl as _ <-; by apply HP.
Qed.

Lemma place_all_length events :
  forall columns, length (place_all columns events).2 = length events.
Proof.
  induction events as [|e events IH]; intros columns; simpl; [done|].
  destruct (place columns e) as [columns1 e1].
  specialize (IH columns1).
  destruct (place_all columns1 events) as [columns2 events2]. simpl in *. lia.
Qed.

(** The columns only grow, and a placed event leaves at least one. *)
Lemma place_columns columns event :
  (length columns <= length (place columns event).1)%nat
  /\ (place columns event).1 <> [].
Proof.
  unfold place.
  destruct (first_free 0 columns (start_of event)) as [k|] eqn:Hff; simpl.
  - apply first_free_Some in Hff as (x & _ & Hx & _).
    rewrite Nat.sub_0_r in Hx. apply lookup_lt_Some in Hx.
    rewrite length_insert. split; [lia|].
    intros Hnil. apply (f_equal length) in Hnil.
    rewrite length_insert in Hnil. simpl in Hnil. lia.
  - rewrite length_app. simpl. split; [lia|].
    intros Hnil. apply (f_equal length) in Hnil.
    rewrite length_app in Hnil. simpl in Hnil. lia.
Qed.

Lemma place_all_columns events :
  forall columns,
    (length columns <= length (place_all columns events).1)%nat
    /\ (events <> [] -> (place_all columns events).1 <> []).
Proof.
  induction events as [|e events IH]; intros columns; simpl; [done|].
  pose proof (place_columns columns e) as [Hlen Hne].
  destruct (place columns e) as [columns1 e1].
  specialize (IH columns1) as [IHlen _].
  destruct (place_all columns1 events) as [columns2 events2]. simpl in *.
  split; [lia|]. intros _ ->. simpl in IHlen.
  destruct columns1; [done | simpl in IHlen; lia].
Qed.

Lemma assign_columns_unfold events :
  _assign_columns events =
  ScheduleEvent.set_total_columns (total_cols (columns_opened events))
    <$> (place_all [] (PyList.sorted key_ltb events)).2.
Proof.
  unfold _assign_columns, columns_opened.
  by destruct (place_all [] (PyList.sorted key_ltb events)).
Qed.

Lemma assign_columns_separated events : separated (_assign_columns events).
Proof.
  rewrite assign_columns_unfold.
  apply separated_pairwise, pairwise_fmap.
  apply (proj1 (separated_pairwise _)).
  pose proof (sorted_by_start events) as Hs.
  destruct (PyList.sorted key_ltb events) as [|e0 sorted'] eqn:Hsorted.
  - done.
  - eapply (place_all_separated _ [] (start_of e0) []).
    + intros p Hp. by apply elem_of_nil in Hp.
    + apply StronglySorted_inv in Hs as [_ Hhd].
      constructor; [lia | exact Hhd].
    + done.
Qed.

Lemma assign_columns_compatible events :
  pairwise compatible (_assign_columns events).
Proof.
  eapply pairwise_impl; [|apply separated_pairwise, assign_columns_separated].
  unfold ends_before, compatible, time_overlap. intros a b H _ Hc. specialize (H Hc). lia.
Qed.

Lemma assign_columns_day d events :
  Forall (fun e => day_of e = d) events ->
  Forall (fun e => day_of e = d) (_assign_columns events).
Proof.
  intros Hd. rewrite assign_columns_unfold. apply Forall_fmap.
  eapply Forall_impl.
  - apply place_all_Forall; [|apply sorted_Forall, Hd]. done.
  - done.
Qed.

Lemma assign_columns_length events :
  length (_assign_columns events) = length events.
Proof.
  rewrite assign_columns_unfold, length_fmap, place_all_length.
  apply sorted_length.
Qed.

End ColumnsFacts.

(** ** The events of a schedule *)

Module EventsFacts.
Import Events.
Import ScheduleBuilder Columns ColumnsFacts.

Lemma group_by_day_step_day (acc : list (string * list ScheduleEvent.t)) events :
  (forall d l, PyDict.get acc d = Some l -> Forall (fun e => day_of e = d) l) ->
  forall d l,
    PyDict.get
      (fold_left (fun events_by_day event =>
                    let bucket :=
                      default [] (PyDict.get events_by_day (day_of event)) in
                    PyDict.set events_by_day (day_of event) (bucket ++ [event]))
                 events acc) d = Some l ->
    Forall (fun e => day_of e = d) l.
Proof.
  revert acc. induction events as [|e events IH]; intros acc Hacc; simpl; [done|].
  apply IH. intros d l.
  destruct (decide (day_of e = d)) as [<-|Hne].
  - rewrite get_set_eq. intros [= <-].
    apply Forall_app. split; [|by repeat constructor].
    destruct (PyDict.get acc (day_of e)) as [bucket|] eqn:Hget; simpl.
    + by apply Hacc.
    + constructor.
  - rewrite get_set_ne by done. apply Hacc.
Qed.

(** Every bucket of [events_by_day] holds events of its own day. *)
Lemma group_by_day_day all_events d l :
  PyDict.get (group_by_day all_events) d = Some l ->
  Forall (fun e => day_of e = d) l.
Proof. apply group_by_day_step_day. intros ? ?. done. Qed.

Lemma get_events_layout self events self' :
  get_events self = (Ok events, self') ->
  exists all_events, events = flat_map (day_layout all_events) parsing.DAY_ORDER.
Proof.
  unfold get_events. destruct (assign_colors self) as [course_colors self1].
  match goal with |- context [foldM ?f ?a ?l] => destruct (foldM f a l) as [all_events|e] end.
  - intros [= <- _]. by exists all_events.
  - discriminate.
Qed.

Lemma day_layout_day all_events d :
  Forall (fun e => day_of e = d) (day_layout all_events d).
Proof.
  unfold day_layout.
  destruct (PyDict.get _ d) as [l|] eqn:Hget; [|constructor].
  by apply assign_columns_day, (group_by_day_day all_events).
Qed.

Lemma day_layout_compatible all_events d :
  pairwise compatible (day_layout all_events d).
Proof.
  unfold day_layout. destruct (PyDict.get _ d); [|done].
  apply assign_columns_compatible.
Qed.

Lemma layout_compatible all_events (days : list string) :
  NoDup days ->
  pairwise compatible (flat_map (day_layout all_events) days).
Proof.
  induction 1 as [|d days Hd Hnd IH]; simpl; [done|].
  apply pairwise_app; [apply day_layout_compatible | done |].
  eapply Forall_impl; [apply (day_layout_day all_events d)|].
  intros a Ha. apply Forall_forall. intros b Hb.
  apply list_elem_of_In, in_flat_map in Hb as (d' & Hd' & Hb).
  apply list_elem_of_In in Hd', Hb.
  pose proof (day_layout_day all_events d') as Hall.
  rewrite Forall_forall in Hall. specialize (Hall b Hb). simpl in *.
  intros Hday _. exfalso. apply Hd. congruence.
Qed.

Lemma DAY_ORDER_NoDup : NoDup parsing.DAY_ORDER.
Proof. apply (bool_decide_unpack (NoDup parsing.DAY_ORDER)). by vm_compute. Qed.

End EventsFacts.

(** ** [get_events] returns *)

Lemma foldM_returns {A B} (body : B -> A -> result B) (l : list A) (acc : B) :
  (forall acc x, x ∈ l -> exists acc', body acc x = Ok acc') ->
  exists out, foldM body acc l = Ok out.
Proof.
  revert acc. induction l as [|x l IH]; intros acc Hbody; simpl; [by eexists|].
  destruct (Hbody acc x) as [acc' ->]; [by left|]. simpl.
  apply IH. intros acc1 y Hy. apply Hbody. by right.
Qed.

Module EventsReturn.
Import ScheduleBuilder.

(** Whether a meeting can be expanded does not depend on the colour or on
    the events collected so far. *)
Lemma meeting_to_events_returns course color events m events' color2 events2 :
  meeting_to_events course color events m = Ok events' ->
  exists events2', meeting_to_events course color2 events2 m = Ok events2'.
Proof.
  unfold meeting_to_events.
  destruct (negb (PyStr.truthy (Meeting.days m))
            || String.eqb (PyStr.upper (Meeting.days m)) "TBA"); [by eexists|].
  intros H. inv_bind H. inv_bind H. rewrite Hv, Hv0. simpl.
  destruct ((v =? 0) && (v0 =? 0)); by eexists.
Qed.

Lemma course_to_events_returns course color events color2 :
  _course_to_events course color = Ok events ->
  exists events2, _course_to_events course color2 = Ok events2.
Proof.
  unfold _course_to_events. generalize (@nil ScheduleEvent.t) at 1 as acc.
  generalize (@nil ScheduleEvent.t) as acc2.
  induction (Course.schedule course) as [|m schedule IH]; intros acc2 acc H;
    simpl in *; [by eexists|].
  inv_bind H.
  destruct (meeting_to_events_returns _ _ _ _ _ color2 acc2 Hv) as [acc2' ->].
  simpl. by eapply IH.
Qed.

(** The loop that hands out the colours gives one to every key of the
    schedule and leaves the courses alone. *)
Lemma assign_colors_from (keys : list string) course_colors self :
  let '(course_colors', self') :=
    fold_left (fun '(course_colors, self) course_id =>
                 let '(color, self) := _get_next_color self in
                 (PyDict.set course_colors course_id color, self))
              keys (course_colors, self) in
  courses self' = courses self
  /\ forall k, k ∈ keys \/ is_Some (PyDict.get course_colors k) ->
               is_Some (PyDict.get course_colors' k).
Proof.
  revert course_colors self.
  induction keys as [|key keys IH]; intros course_colors self; simpl.
  - split; [done|]. intros k [Hk|Hk]; [by apply elem_of_nil in Hk | done].
  - specialize (IH (PyDict.set course_colors key
                      (nth (Z.to_nat (_color_index self mod Z.of_nat (length COLORS)))
                           COLORS ""))
                   (mk (courses self) (_color_index self + 1))).
    destruct (fold_left _ keys _) as [course_colors' self'].
    destruct IH as [Hcourses Hkeys]. split; [done|].
    intros k Hk. apply Hkeys.
    destruct (decide (key = k)) as [->|Hne].
    + right. rewrite get_set_eq. by eexists.
    + destruct Hk as [[?|Hk]%elem_of_cons|Hk]; [congruence | by left |].
      right. by rewrite get_set_ne.
Qed.

(** [get_events] returns a list whenever every entry of the schedule is
    filed under the id of its course and every course can be expanded into
    events. *)
Lemma get_events_returns self :
  ScheduleInvariant.keyed_by_id self ->
  (forall course, course ∈ PyDict.values (courses self) ->
     exists events, _course_to_events course "temp" = Ok events) ->
  exists events, (get_events self).1 = Ok events.
Proof.
  intros Hkeyed Hparse. unfold get_events, assign_colors.
  pose proof (assign_colors_from (PyDict.keys (courses self)) [] self) as Hcolors.
  destruct (fold_left _ (PyDict.keys (courses self)) _) as [course_colors self1].
  destruct Hcolors as [Hcourses Hkeys]. simpl. rewrite Hcourses.
  match goal with
  | |- context [foldM ?body ?acc ?l] =>
      destruct (foldM_returns body l acc) as [all_events ->]
  end.
  - intros acc course Hcourse.
    destruct (Hkeys (Course.id course)) as [color ->].
    { left. rewrite <- (ScheduleInvariantFacts.keyed_keys _ Hkeyed).
      by apply list_elem_of_fmap_2. }
    simpl. destruct (Hparse course Hcourse) as [events Hevents].
    destruct (course_to_events_returns _ _ _ color Hevents) as [events2 ->].
    simpl. by eexists.
  - by eexists.
Qed.

End EventsReturn.

(** C1. In the list that [get_events] returns, two different events (two
    positions of the list) that are on the same day and in the same column
    never overlap in time. *)
Theorem get_events_columns_do_not_overlap
    (self self' : ScheduleBuilder.t) (events : list ScheduleEvent.t)
    (i j : nat) (e1 e2 : ScheduleEvent.t) :
  ScheduleBuilder.get_events self = (Ok events, self') ->
  i <> j ->
  events !! i = Some e1 ->
  events !! j = Some e2 ->
  ScheduleEvent.day e1 = ScheduleEvent.day e2 ->
  ScheduleEvent.column e1 = ScheduleEvent.column e2 ->
  ~ (ScheduleEvent.start_minutes e1 < ScheduleEvent.end_minutes e2
     /\ ScheduleEvent.start_minutes e2 < ScheduleEvent.end_minutes e1).
Proof.
  intros Hget Hij Hi Hj Hday Hcol.
  apply EventsFacts.get_events_layout in Hget as [all_events ->].
  pose proof (EventsFacts.layout_compatible all_events _ EventsFacts.DAY_ORDER_NoDup) as Hp.
  destruct (Nat.lt_total i j) as [Hlt|[Heq|Hgt]]; [|done|].
  - by apply (ColumnsFacts.pairwise_lookup _ _ i j e1 e2 Hp Hlt Hi Hj).
  - apply ColumnsFacts.compatible_sym; [|done|done].
    by apply (ColumnsFacts.pairwise_lookup _ _ j i e2 e1 Hp Hgt Hj Hi).
Qed.

(** C4. Three events at 12:00-13:00, 12:30-14:00 and 13:30-15:00, handed
    over in any order, get the columns 0, 1 and 0, and all three are stamped
    with 2 total columns; and in general every event that [_assign_columns]
    returns is stamped with the number of columns opened for the whole
    list, one constant for the day. *)
Theorem assign_columns_greedy_and_constant_total :
  (forall (e1 e2 e3 : ScheduleEvent.t) (events : list ScheduleEvent.t),
      ScheduleEvent.start_minutes e1 = 720 -> ScheduleEvent.end_minutes e1 = 780 ->
      ScheduleEvent.start_minutes e2 = 750 -> ScheduleEvent.end_minutes e2 = 840 ->
      ScheduleEvent.start_minutes e3 = 810 -> ScheduleEvent.end_minutes e3 = 900 ->
      events ≡ₚ [e1; e2; e3] ->
      ScheduleBuilder._assign_columns events =
      [ScheduleEvent.set_total_columns 2 (ScheduleEvent.set_column 0 e1);
       ScheduleEvent.set_total_columns 2 (ScheduleEvent.set_column 1 e2);
       ScheduleEvent.set_total_columns 2 (ScheduleEvent.set_column 0 e3)])
  /\ (forall (events : list ScheduleEvent.t) (e : ScheduleEvent.t),
         e ∈ ScheduleBuilder._assign_columns events ->
         ScheduleEvent.total_columns e
         = Z.of_nat (length (Columns.columns_opened events))).
Proof.
  split.
  - intros e1 e2 e3 events Hs1 He1 Hs2 He2 Hs3 He3 Hperm.
    assert (ScheduleBuilder.key_ltb e1 e2 = true) as H12
      by (unfold ScheduleBuilder.key_ltb; rewrite Hs1, He1, Hs2, He2; reflexivity).
    assert (ScheduleBuilder.key_ltb e2 e1 = false) as H21
      by (unfold ScheduleBuilder.key_ltb; rewrite Hs1, He1, Hs2, He2; reflexivity).
    assert (ScheduleBuilder.key_ltb e1 e3 = true) as H13
      by (unfold ScheduleBuilder.key_ltb; rewrite Hs1, He1, Hs3, He3; reflexivity).
    assert (ScheduleBuilder.key_ltb e3 e1 = false) as H31
      by (unfold ScheduleBuilder.key_ltb; rewrite Hs1, He1, Hs3, He3; reflexivity).
    assert (ScheduleBuilder.key_ltb e2 e3 = true) as H23
      by (unfold ScheduleBuilder.key_ltb; rewrite Hs2, He2, Hs3, He3; reflexivity).
    assert (ScheduleBuilder.key_ltb e3 e2 = false) as H32
      by (unfold ScheduleBuilder.key_ltb; rewrite Hs2, He2, Hs3, He3; reflexivity).
    assert (PyList.sorted ScheduleBuilder.key_ltb events = [e1; e2; e3]) as Hsorted.
    { apply orders_complete in Hperm.
      cbn [orders insert_everywhere flat_map fmap list_fmap app] in Hperm.
      repeat (apply elem_of_cons in Hperm as [->|Hperm]);
        [..|by apply elem_of_nil in Hperm];
        cbn [PyList.sorted PyList.insert_sorted];
        repeat (rewrite ?H12, ?H21, ?H13, ?H31, ?H23, ?H32;
                cbn [PyList.insert_sorted]);
        reflexivity. }
    unfold ScheduleBuilder._assign_columns. rewrite Hsorted.
    unfold ScheduleBuilder.place_all, ScheduleBuilder.place.
    simpl. rewrite He1, Hs2. simpl. rewrite Hs3, He2. simpl. reflexivity.
  - intros events e He. rewrite ColumnsFacts.assign_columns_unfold in He.
    apply list_elem_of_fmap in He as (e0 & -> & He0). simpl.
    assert (events <> []) as Hne.
    { intros ->. simpl in He0. by apply elem_of_nil in He0. }
    unfold Columns.columns_opened.
    pose proof (ColumnsFacts.place_all_columns (PyList.sorted ScheduleBuilder.key_ltb events) [])
      as [_ Hcols].
    destruct ((ScheduleBuilder.place_all [] (PyList.sorted ScheduleBuilder.key_ltb events)).1)
      as [|c cols] eqn:Hpl; [|done].
    exfalso. apply Hcols; [|done].
    intros Hnil. apply (f_equal length) in Hnil.
    rewrite sorted_length in Hnil. by destruct events.
Qed.

(** ** From meetings to events *)

Lemma foldM_invariant {A B} (P : B -> Prop) (body : B -> A -> result B)
    (l : list A) (acc out : B) :
  (forall acc x acc', x ∈ l -> P acc -> body acc x = Ok acc' -> P acc') ->
  P acc -> foldM body acc l = Ok out -> P out.
Proof.
  revert acc. induction l as [|x l IH]; intros acc Hstep Hacc H; simpl in H.
  - by injection H as <-.
  - inv_bind H. eapply IH; [|eapply Hstep; [by left | exact Hacc | exact Hv]|exact H].
    intros acc1 y acc2 Hy. apply Hstep. by right.
Qed.

Module MeetingEventsFacts.
Import MeetingEvents.
Import ScheduleBuilder.

Lemma meeting_to_events_spec course color events m events' :
  meeting_to_events course color events m = Ok events' ->
  forall e, e ∈ events' -> e ∈ events \/ event_of_meeting course m e.
Proof.
  unfold meeting_to_events.
  destruct (PyStr.truthy (Meeting.days m)) eqn:Hdays; simpl;
    [|intros [= <-]; auto].
  destruct (String.eqb (PyStr.upper (Meeting.days m)) "TBA") eqn:Htba;
    [intros [= <-]; auto|].
  fold (time_of (Meeting.start_time m)). fold (time_of (Meeting.end_time m)).
  intros H. inv_bind H. inv_bind H.
  destruct ((v =? 0) && (v0 =? 0)) eqn:Hzero; injection H as <-; [auto|].
  intros e [He|He]%elem_of_app; [by left|]. right.
  unfold meeting_events in He. apply list_elem_of_fmap in He as (d & -> & Hd).
  unfold event_of_meeting. simpl.
  split; [done|]. split; [done|]. split; [done|]. split; [done|].
  split; [lia|]. split.
  - intros Heq. rewrite Heq in Hdays. discriminate.
  - intros Heq. rewrite Heq in Htba. discriminate.
Qed.

(** Every event of a course comes from one of its meetings. *)
Lemma course_to_events_spec course color events :
  _course_to_events course color = Ok events ->
  forall e, e ∈ events ->
    exists m, m ∈ Course.schedule course /\ event_of_meeting course m e.
Proof.
  unfold _course_to_events. intros H.
  eapply (foldM_invariant
            (fun evs => forall e, e ∈ evs ->
               exists m, m ∈ Course.schedule course /\ event_of_meeting course m e));
    [| |exact H].
  - intros acc m acc' Hm Hacc Hstep e He.
    destruct (meeting_to_events_spec _ _ _ _ _ Hstep e He) as [Hin|Hev].
    + by apply Hacc.
    + by exists m.
  - intros e He. by apply elem_of_nil in He.
Qed.

(** A meeting whose start and end both read as zero yields no event. *)
Lemma zero_times_dropped course color events m :
  time_of (Meeting.start_time m) = Ok 0 ->
  time_of (Meeting.end_time m) = Ok 0 ->
  meeting_to_events course color events m = Ok events.
Proof.
  intros Hs He. unfold meeting_to_events.
  fold (time_of (Meeting.start_time m)). fold (time_of (Meeting.end_time m)).
  rewrite Hs, He. simpl. by destruct (_ || _).
Qed.

(** Events on different days never conflict. *)
Lemma event_conflicts_nil events1 events2 :
  (forall e1 e2, e1 ∈ events1 -> e2 ∈ events2 ->
                 ScheduleEvent.day e1 <> ScheduleEvent.day e2) ->
  event_conflicts events1 events2 = [].
Proof.
  intros Hdays. unfold event_conflicts.
  induction events1 as [|e1 events1 IH]; simpl; [done|].
  rewrite IH by (intros ? ? ? ?; apply Hdays; [by right | done]).
  rewrite app_nil_r.
  assert (forall e2, e2 ∈ events2 -> ScheduleEvent.day e1 <> ScheduleEvent.day e2) as H1
    by (intros ? ?; apply Hdays; [by left | done]).
  clear IH Hdays. induction events2 as [|e2 events2 IH]; simpl; [done|].
  rewrite IH by (intros ? ?; apply H1; by right).
  unfold ScheduleEvent.overlaps.
  destruct (String.eqb_spec (ScheduleEvent.day e1) (ScheduleEvent.day e2)) as [Heq|Hne];
    simpl; [|done].
  exfalso. by apply (H1 e2); [left|].
Qed.

End MeetingEventsFacts.

(** ** Conflict detection *)

Module ConflictScanFacts.
Import ConflictScan.
Import ScheduleBuilder.

Lemma ordered_pair_cons {A} (a b x : A) l :
  ordered_pair a b l -> ordered_pair a b (x :: l).
Proof. intros (l1 & l2 & -> & Hb). by exists (x :: l1), l2. Qed.

Lemma ordered_pair_elem_of {A} (a b : A) l :
  ordered_pair a b l -> a ∈ l /\ b ∈ l.
Proof.
  intros (l1 & l2 & -> & Hb). split; apply elem_of_app; right; [by left | by right].
Qed.

Lemma ordered_pair_NoDup {A B} (f : A -> B) (a b : A) l :
  NoDup (f <$> l) -> ordered_pair a b l -> f a <> f b.
Proof.
  intros Hnd (l1 & l2 & -> & Hb) Heq.
  rewrite fmap_app, fmap_cons in Hnd.
  apply NoDup_app in Hnd as (_ & _ & Hnd). apply NoDup_cons in Hnd as [Hnin _].
  apply Hnin. rewrite Heq. by apply list_elem_of_fmap_2.
Qed.

(** Same key, same element, in a list without duplicate keys. *)
Lemma NoDup_fmap_inj {A B} (f : A -> B) (a b : A) l :
  NoDup (f <$> l) -> a ∈ l -> b ∈ l -> f a = f b -> a = b.
Proof.
  induction l as [|x l IH]; intros Hnd Ha Hb Heq; [by apply elem_of_nil in Ha|].
  rewrite fmap_cons in Hnd. apply NoDup_cons in Hnd as [Hx Hnd].
  apply elem_of_cons in Ha as [->|Ha]; apply elem_of_cons in Hb as [->|Hb].
  - done.
  - exfalso. apply Hx. rewrite Heq. by apply list_elem_of_fmap_2.
  - exfalso. apply Hx. rewrite <- Heq. by apply list_elem_of_fmap_2.
  - by apply IH.
Qed.

Lemma event_conflicts_elem c events1 events2 :
  c ∈ event_conflicts events1 events2 ->
  exists e1 e2, e1 ∈ events1 /\ e2 ∈ events2
                /\ ScheduleEvent.overlaps e1 e2 = true /\ c = make_conflict e1 e2.
Proof.
  unfold event_conflicts. intros Hc.
  apply list_elem_of_In, in_flat_map in Hc as (e1 & He1 & Hc).
  apply in_flat_map in Hc as (e2 & He2 & Hc).
  apply list_elem_of_In in He1, He2.
  destruct (ScheduleEvent.overlaps e1 e2) eqn:Hov; [|done].
  destruct Hc as [<-|[]]. exists e1; exists e2. auto.
Qed.

Lemma overlaps_true e1 e2 :
  ScheduleEvent.overlaps e1 e2 = true ->
  ScheduleEvent.day e1 = ScheduleEvent.day e2
  /\ ScheduleEvent.start_minutes e1 < ScheduleEvent.end_minutes e2
  /\ ScheduleEvent.start_minutes e2 < ScheduleEvent.end_minutes e1.
Proof.
  unfold ScheduleEvent.overlaps.
  destruct (String.eqb_spec (ScheduleEvent.day e1) (ScheduleEvent.day e2));
    simpl; [|discriminate].
  intros H. split; [done | lia].
Qed.

Lemma conflicts_against_elem (a : Course.t) events1 rest conflicts :
  _course_to_events a "temp" = Ok events1 ->
  foldM (fun conflicts course2 =>
           events2 ← _course_to_events course2 "temp";
           Ok (conflicts ++ event_conflicts events1 events2))
        [] rest = Ok conflicts ->
  forall c, c ∈ conflicts -> exists b, b ∈ rest /\ conflict_between a b c.
Proof.
  intros Ha H.
  eapply (foldM_invariant
            (fun cs => forall c, c ∈ cs -> exists b, b ∈ rest /\ conflict_between a b c));
    [| |exact H].
  - intros acc b acc' Hb Hacc Hstep c Hc.
    inv_bind Hstep. injection Hstep as <-.
    apply elem_of_app in Hc as [Hc|Hc]; [by apply Hacc|].
    exists b. split; [done|]. by exists events1, v.
  - intros c Hc. by apply elem_of_nil in Hc.
Qed.

(** [get_all_conflicts] reports conflicts of an earlier course of the
    schedule with a later one, and nothing else. *)
Lemma all_conflicts_from_elem course_list conflicts :
  all_conflicts_from course_list = Ok conflicts ->
  forall c, c ∈ conflicts ->
    exists a b, ordered_pair a b course_list /\ conflict_between a b c.
Proof.
  revert conflicts. induction course_list as [|a rest IH]; intros conflicts H c Hc;
    simpl in H.
  - injection H as <-. by apply elem_of_nil in Hc.
  - inv_bind H. inv_bind H. inv_bind H. injection H as <-.
    apply elem_of_app in Hc as [Hc|Hc].
    + destruct (conflicts_against_elem a v rest v0 Hv Hv0 c Hc) as (b & Hb & Hab).
      exists a, b. split; [|done]. by exists [], rest.
    + destruct (IH _ Hv1 c Hc) as (a' & b' & Hord & Hab).
      exists a', b'. split; [by apply ordered_pair_cons | done].
Qed.

(** [add_course] reports conflicts of the new course with the courses of
    the schedule, and nothing else. *)
Lemma detect_conflicts_with_elem self new_course conflicts :
  _detect_conflicts_with self new_course = Ok conflicts ->
  forall c, c ∈ conflicts ->
    exists b, b ∈ PyDict.values (courses self) /\ conflict_between new_course b c.
Proof.
  unfold _detect_conflicts_with. intros H. inv_bind H.
  eapply (foldM_invariant
            (fun cs => forall c, c ∈ cs ->
               exists b, b ∈ PyDict.values (courses self)
                         /\ conflict_between new_course b c));
    [| |exact H].
  - intros acc b acc' Hb Hacc Hstep c Hc.
    inv_bind Hstep. injection Hstep as <-.
    apply elem_of_app in Hc as [Hc|Hc]; [by apply Hacc|].
    exists b. split; [done|]. by exists v, v0.
  - intros c Hc. by apply elem_of_nil in Hc.
Qed.

(** What a conflict between two courses tells about them. *)
Lemma conflict_between_spec a b c :
  conflict_between a b c ->
  ScheduleEvent.course_id (ScheduleConflict.event1 c) = Course.id a
  /\ ScheduleEvent.course_id (ScheduleConflict.event2 c) = Course.id b
  /\ exists m1 m2,
      m1 ∈ Course.schedule a /\ m2 ∈ Course.schedule b
      /\ ScheduleConflict.day c ∈ parsing.parse_days_to_full_names (Meeting.days m1)
      /\ ScheduleConflict.day c ∈ parsing.parse_days_to_full_names (Meeting.days m2).
Proof.
  intros (events1 & events2 & H1 & H2 & Hc).
  apply event_conflicts_elem in Hc as (e1 & e2 & He1 & He2 & Hov & ->).
  apply overlaps_true in Hov as (Hday & _).
  destruct (MeetingEventsFacts.course_to_events_spec _ _ _ H1 e1 He1)
    as (m1 & Hm1 & Hid1 & Hd1 & _).
  destruct (MeetingEventsFacts.course_to_events_spec _ _ _ H2 e2 He2)
    as (m2 & Hm2 & Hid2 & Hd2 & _).
  simpl. split; [done|]. split; [done|].
  exists m1, m2. rewrite Hday at 2. done.
Qed.

End ConflictScanFacts.

Module DayConflictsFacts.
Import DayConflicts.
Import ScheduleBuilder.

Lemma course_to_events_mwf course color start_time end_time location start end_ :
  Course.schedule course = [Meeting.mk "MWF" start_time end_time location] ->
  MeetingEvents.time_of start_time = Ok start ->
  MeetingEvents.time_of end_time = Ok end_ ->
  (start =? 0) && (end_ =? 0) = false ->
  _course_to_events course color =
  Ok (meeting_events course color (Meeting.mk "MWF" start_time end_time location)
        ["Monday"; "Wednesday"; "Friday"] start end_).
Proof.
  intros Hsched Hs He Hz. unfold _course_to_events. rewrite Hsched. simpl.
  unfold meeting_to_events. simpl.
  fold (MeetingEvents.time_of start_time). fold (MeetingEvents.time_of end_time).
  rewrite Hs, He. simpl. rewrite Hz. done.
Qed.

Lemma two_courses_all_conflicts a b events1 events2 :
  _course_to_events a "temp" = Ok events1 ->
  _course_to_events b "temp" = Ok events2 ->
  all_conflicts_from [a; b] = Ok (event_conflicts events1 events2).
Proof.
  intros H1 H2. simpl. rewrite H1, H2. simpl. by rewrite !app_nil_r.
Qed.

Lemma mwf_overlap a b loc1 loc2 :
  Course.schedule a = [Meeting.mk "MWF" "10:00" "11:00" loc1] ->
  Course.schedule b = [Meeting.mk "MWF" "10:30" "11:30" loc2] ->
  exists events1 events2,
    _course_to_events a "temp" = Ok events1
    /\ _course_to_events b "temp" = Ok events2
    /\ describe <$> event_conflicts events1 events2 =
       [("Monday", 30, Course.id a, Course.id b);
        ("Wednesday", 30, Course.id a, Course.id b);
        ("Friday", 30, Course.id a, Course.id b)]
    /\ describe <$> event_conflicts events2 events1 =
       [("Monday", 30, Course.id b, Course.id a);
        ("Wednesday", 30, Course.id b, Course.id a);
        ("Friday", 30, Course.id b, Course.id a)].
Proof.
  intros Ha Hb. eexists _, _.
  split; [by apply (course_to_events_mwf a _ _ _ _ 600 660 Ha)|].
  split; [by apply (course_to_events_mwf b _ _ _ _ 630 690 Hb)|].
  split; reflexivity.
Qed.

End DayConflictsFacts.

Module IndexConflicts.
Import CourseIndex ConflictScan ConflictScanFacts.

Lemma meetings_conflict_disjoint m1 m2 :
  parsing.parse_days_to_set (Meeting.days m1)
    ∩ parsing.parse_days_to_set (Meeting.days m2) = ∅ ->
  meetings_conflict m1 m2 = Ok None.
Proof.
  intros H. unfold meetings_conflict, _days_overlap.
  by rewrite bool_decide_eq_true_2.
Qed.

Lemma check_against_disjoint c1 c2 m1 schedule2 :
  (forall m2, m2 ∈ schedule2 ->
     parsing.parse_days_to_set (Meeting.days m1)
       ∩ parsing.parse_days_to_set (Meeting.days m2) = ∅) ->
  check_against c1 c2 m1 schedule2 = Ok None.
Proof.
  induction schedule2 as [|m2 schedule2 IH]; intros H; simpl; [done|].
  rewrite meetings_conflict_disjoint by (apply H; by left). simpl.
  apply IH. intros m Hm. apply H. by right.
Qed.

Lemma check_from_disjoint c1 c2 schedule1 :
  (forall m1 m2, m1 ∈ schedule1 -> m2 ∈ Course.schedule c2 ->
     parsing.parse_days_to_set (Meeting.days m1)
       ∩ parsing.parse_days_to_set (Meeting.days m2) = ∅) ->
  check_from c1 c2 schedule1 = Ok None.
Proof.
  induction schedule1 as [|m1 schedule1 IH]; intros H; simpl; [done|].
  rewrite check_against_disjoint by (intros m2 Hm2; apply H; [by left | done]).
  simpl. apply IH. intros m1' m2 Hm1 Hm2. apply H; [by right | done].
Qed.

(** The conflict that [_check_conflict] returns names its two courses. *)
Lemma check_against_ids c1 c2 m1 schedule2 c :
  check_against c1 c2 m1 schedule2 = Ok (Some c) ->
  Conflict.course1_id c = Course.id c1 /\ Conflict.course2_id c = Course.id c2.
Proof.
  induction schedule2 as [|m2 schedule2 IH]; simpl; [done|].
  intros H. inv_bind H. destruct v as [overlap_day|]; [|by apply IH].
  by injection H as <-.
Qed.

Lemma check_conflict_ids c1 c2 c :
  _check_conflict c1 c2 = Ok (Some c) ->
  Conflict.course1_id c = Course.id c1 /\ Conflict.course2_id c = Course.id c2.
Proof.
  unfold _check_conflict. generalize (Course.schedule c1) as schedule1.
  induction schedule1 as [|m1 schedule1 IH]; simpl; [done|].
  intros H. inv_bind H. destruct v as [conflict|]; [|by apply IH].
  injection H as <-. by eapply check_against_ids.
Qed.

(** [detect_conflicts] reports conflicts of an earlier course of the list
    with a later one, and nothing else. *)
Lemma detect_conflicts_elem courses conflicts :
  detect_conflicts courses = Ok conflicts ->
  forall c, c ∈ conflicts ->
    exists a b, ordered_pair a b courses /\ _check_conflict a b = Ok (Some c).
Proof.
  revert conflicts. induction courses as [|a rest IH]; intros conflicts H c Hc;
    simpl in H.
  - injection H as <-. by apply elem_of_nil in Hc.
  - inv_bind H. inv_bind H. injection H as <-.
    apply elem_of_app in Hc as [Hc|Hc].
    + assert (exists b, b ∈ rest /\ _check_conflict a b = Ok (Some c)) as (b & Hb & Hab).
      { eapply (foldM_invariant
                  (fun cs => forall c, c ∈ cs ->
                     exists b, b ∈ rest /\ _check_conflict a b = Ok (Some c)));
          [| |exact Hv|exact Hc].
        - intros acc b acc' Hb Hacc Hstep c' Hc'.
          inv_bind Hstep. injection Hstep as <-.
          apply elem_of_app in Hc' as [Hc'|Hc']; [by apply Hacc|].
          destruct v1 as [c1|]; simpl in Hc'; [|by apply elem_of_nil in Hc'].
          apply list_elem_of_singleton in Hc' as ->. by exists b.
        - intros c' Hc'. by apply elem_of_nil in Hc'. }
      exists a, b. split; [|done]. by exists [], rest.
    + destruct (IH _ Hv0 c Hc) as (a' & b' & Hord & Hab).
      exists a', b'. split; [by apply ordered_pair_cons | done].
Qed.

End IndexConflicts.

(** C3. Two sections whose only meetings are "MWF" 10:00-11:00 and "MWF"
    10:30-11:30 are reported as conflicting on Monday, on Wednesday and on
    Friday, with an overlap of 30 minutes each time, both when the second
    one is added to the schedule and by [get_all_conflicts]; the index
    reports the pair once, naming the days F, M and W. And two sections
    whose meetings share no day are never reported as conflicting, whatever
    their times: not by [get_all_conflicts], not by [add_course], not by the
    index. *)
Theorem mwf_conflict_and_disjoint_days :
  (forall (a b : Course.t) (loc1 loc2 : string),
      Course.schedule a = [Meeting.mk "MWF" "10:00" "11:00" loc1] ->
      Course.schedule b = [Meeting.mk "MWF" "10:30" "11:30" loc2] ->
      Course.id a <> Course.id b ->
      (exists added,
          (ScheduleBuilder.add_course
             (ScheduleBuilder.add_course ScheduleBuilder.new a).2 b).1 = Ok added
          /\ DayConflicts.describe <$> added =
             [("Monday", 30, Course.id b, Course.id a);
              ("Wednesday", 30, Course.id b, Course.id a);
              ("Friday", 30, Course.id b, Course.id a)])
      /\ (exists conflicts,
             ScheduleBuilder.get_all_conflicts (schedule_of_two a b) = Ok conflicts
             /\ DayConflicts.describe <$> conflicts =
                [("Monday", 30, Course.id a, Course.id b);
                 ("Wednesday", 30, Course.id a, Course.id b);
                 ("Friday", 30, Course.id a, Course.id b)])
      /\ (exists conflict,
             CourseIndex.detect_conflicts [a; b] = Ok [conflict]
             /\ Conflict.course1_id conflict = Course.id a
             /\ Conflict.course2_id conflict = Course.id b
             /\ Conflict.overlap_day conflict = "F, M, W"))
  /\ (forall (self : ScheduleBuilder.t) (a b : Course.t)
             (conflicts : list ScheduleConflict.t) (c : ScheduleConflict.t),
         ScheduleInvariant.one_course_per_id self ->
         a ∈ PyDict.values (ScheduleBuilder.courses self) ->
         b ∈ PyDict.values (ScheduleBuilder.courses self) ->
         DayConflicts.disjoint_day_names a b ->
         ScheduleBuilder.get_all_conflicts self = Ok conflicts ->
         c ∈ conflicts ->
         ~ (ScheduleEvent.course_id (ScheduleConflict.event1 c) = Course.id a
            /\ ScheduleEvent.course_id (ScheduleConflict.event2 c) = Course.id b))
  /\ (forall (self : ScheduleBuilder.t) (a b : Course.t)
             (conflicts : list ScheduleConflict.t) (c : ScheduleConflict.t),
         ScheduleInvariant.one_course_per_id self ->
         a ∈ PyDict.values (ScheduleBuilder.courses self) ->
         DayConflicts.disjoint_day_names b a ->
         (ScheduleBuilder.add_course self b).1 = Ok conflicts ->
         c ∈ conflicts ->
         ScheduleEvent.course_id (ScheduleConflict.event2 c) <> Course.id a)
  /\ (forall a b : Course.t,
         DayConflicts.disjoint_day_sets a b ->
         CourseIndex._check_conflict a b = Ok None
         /\ CourseIndex.detect_conflicts [a; b] = Ok []).
Proof.
  split; [|split; [|split]].
  - intros a b loc1 loc2 Ha Hb Hne.
    destruct (DayConflictsFacts.mwf_overlap a b loc1 loc2 Ha Hb)
      as (events1 & events2 & H1 & H2 & H12 & H21).
    assert (ScheduleBuilder.add_course ScheduleBuilder.new a
            = (Ok [], ScheduleBuilder.mk [(Course.id a, a)] 0)) as Hadd1.
    { unfold ScheduleBuilder.add_course, ScheduleBuilder._detect_conflicts_with.
      rewrite H1. done. }
    assert (ScheduleBuilder.add_course (ScheduleBuilder.mk [(Course.id a, a)] 0) b
            = (Ok (ScheduleBuilder.event_conflicts events2 events1),
               ScheduleBuilder.mk [(Course.id a, a); (Course.id b, b)] 0)) as Hadd2.
    { unfold ScheduleBuilder.add_course, ScheduleBuilder._detect_conflicts_with.
      rewrite H2. simpl. rewrite H1. simpl. by rewrite decide_False. }
    unfold schedule_of_two. rewrite Hadd1. simpl. rewrite Hadd2. simpl.
    split; [by eexists|]. split.
    + exists (ScheduleBuilder.event_conflicts events1 events2). split; [|done].
      unfold ScheduleBuilder.get_all_conflicts. simpl.
      by apply DayConflictsFacts.two_courses_all_conflicts.
    + assert (CourseIndex._check_conflict a b
              = Ok (Some (Conflict.mk (Course.id a) (Course.id b)
                            (Course.code a) (Course.code b)
                            "F, M, W" "10:00-11:00"))) as Hcheck.
      { unfold CourseIndex._check_conflict. rewrite Ha. simpl. rewrite Hb.
        by vm_compute. }
      eexists. simpl. rewrite Hcheck. simpl. done.
  - intros self a b conflicts c Hinv Ha Hb Hdis Hget Hc [H1 H2].
    destruct (ConflictScanFacts.all_conflicts_from_elem _ _ Hget c Hc)
      as (a' & b' & Hord & Hbetween).
    apply ConflictScanFacts.conflict_between_spec in Hbetween
      as (Hid1 & Hid2 & m1 & m2 & Hm1 & Hm2 & Hd1 & Hd2).
    destruct (ConflictScanFacts.ordered_pair_elem_of _ _ _ Hord) as [Ha' Hb'].
    destruct Hinv as [_ Hnd].
    assert (a' = a) as ->
      by (eapply (ConflictScanFacts.NoDup_fmap_inj Course.id); [exact Hnd|done|done|congruence]).
    assert (b' = b) as ->
      by (eapply (ConflictScanFacts.NoDup_fmap_inj Course.id); [exact Hnd|done|done|congruence]).
    by eapply Hdis.
  - intros self a b conflicts c Hinv Ha Hdis Hadd Hc Hid.
    unfold ScheduleBuilder.add_course in Hadd.
    destruct (ScheduleBuilder._detect_conflicts_with self b) as [cs|] eqn:Hdet;
      [|discriminate].
    simpl in Hadd. injection Hadd as ->.
    destruct (ConflictScanFacts.detect_conflicts_with_elem _ _ _ Hdet c Hc)
      as (a' & Ha' & Hbetween).
    apply ConflictScanFacts.conflict_between_spec in Hbetween
      as (Hid1 & Hid2 & m1 & m2 & Hm1 & Hm2 & Hd1 & Hd2).
    destruct Hinv as [_ Hnd].
    assert (a' = a) as ->
      by (eapply (ConflictScanFacts.NoDup_fmap_inj Course.id); [exact Hnd|done|done|congruence]).
    by eapply Hdis.
  - intros a b Hdis.
    assert (CourseIndex._check_conflict a b = Ok None) as Hcheck
      by (apply IndexConflicts.check_from_disjoint; intros; by apply Hdis).
    split; [done|]. simpl. by rewrite Hcheck.
Qed.

(** ** Conflicts are between different sections, except on one path *)

Module DistinctSectionsFacts.
Import DistinctSections.
Import ConflictScan ConflictScanFacts.

Lemma ordered_pair_lookup {A} (a b : A) l :
  ordered_pair a b l ->
  exists i j, (i < j)%nat /\ l !! i = Some a /\ l !! j = Some b.
Proof.
  intros (l1 & l2 & -> & Hb).
  apply list_elem_of_lookup in Hb as [k Hk].
  exists (length l1), (length l1 + S k)%nat. split; [lia|]. split.
  - by rewrite list_lookup_middle.
  - rewrite lookup_app_r by lia.
    replace (length l1 + S k - length l1)%nat with (S k) by lia. done.
Qed.

(** In a list without duplicates a pair is scanned in one order only. *)
Lemma ordered_pair_once {A} (a b : A) l :
  NoDup l -> ordered_pair a b l -> ordered_pair b a l -> False.
Proof.
  intros Hnd (i & j & Hij & Hi & Hj)%ordered_pair_lookup
             (i' & j' & Hij' & Hi' & Hj')%ordered_pair_lookup.
  pose proof (NoDup_lookup _ _ _ _ Hnd Hi Hj').
  pose proof (NoDup_lookup _ _ _ _ Hnd Hj Hi'). lia.
Qed.

(** The conflicts of [get_all_conflicts] are between two courses with
    different ids, and no pair of courses is reported in both orders. *)
Lemma get_all_conflicts_distinct self conflicts :
  ScheduleInvariant.one_course_per_id self ->
  ScheduleBuilder.get_all_conflicts self = Ok conflicts ->
  (forall c, c ∈ conflicts ->
     ScheduleEvent.course_id (ScheduleConflict.event1 c)
     <> ScheduleEvent.course_id (ScheduleConflict.event2 c))
  /\ (forall c c', c ∈ conflicts -> c' ∈ conflicts ->
        ~ (ScheduleEvent.course_id (ScheduleConflict.event1 c)
           = ScheduleEvent.course_id (ScheduleConflict.event2 c')
           /\ ScheduleEvent.course_id (ScheduleConflict.event2 c)
              = ScheduleEvent.course_id (ScheduleConflict.event1 c'))).
Proof.
  intros [_ Hnd] Hget. split.
  - intros c Hc.
    destruct (all_conflicts_from_elem _ _ Hget c Hc) as (a & b & Hord & Hbetween).
    apply conflict_between_spec in Hbetween as (-> & -> & _).
    by eapply (ordered_pair_NoDup Course.id).
  - intros c c' Hc Hc' [H1 H2].
    destruct (all_conflicts_from_elem _ _ Hget c Hc) as (a & b & Hord & Hbetween).
    destruct (all_conflicts_from_elem _ _ Hget c' Hc') as (a' & b' & Hord' & Hbetween').
    apply conflict_between_spec in Hbetween as (Ha & Hb & _).
    apply conflict_between_spec in Hbetween' as (Ha' & Hb' & _).
    destruct (ordered_pair_elem_of _ _ _ Hord) as [Hain Hbin].
    destruct (ordered_pair_elem_of _ _ _ Hord') as [Hain' Hbin'].
    assert (a = b') as ->
      by (eapply (NoDup_fmap_inj Course.id); [exact Hnd|done|done|congruence]).
    assert (b = a') as ->
      by (eapply (NoDup_fmap_inj Course.id); [exact Hnd|done|done|congruence]).
    eapply ordered_pair_once; [|exact Hord|exact Hord'].
    by eapply NoDup_fmap_1.
Qed.

(** The conflicts of [detect_conflicts] on a list of courses with different
    ids are between two different courses. *)
Lemma detect_conflicts_distinct courses conflicts :
  NoDup (Course.id <$> courses) ->
  CourseIndex.detect_conflicts courses = Ok conflicts ->
  forall c, c ∈ conflicts -> Conflict.course1_id c <> Conflict.course2_id c.
Proof.
  intros Hnd Hdet c Hc.
  destruct (IndexConflicts.detect_conflicts_elem _ _ Hdet c Hc)
    as (a & b & Hord & Hcheck).
  apply IndexConflicts.check_conflict_ids in Hcheck as [-> ->].
  by eapply (ordered_pair_NoDup Course.id).
Qed.

(** The conflicts that [add_course] returns for a course that is not in
    the schedule yet are with other courses. *)
Lemma add_course_distinct_when_new self course conflicts :
  ScheduleInvariant.one_course_per_id self ->
  PyDict.mem (ScheduleBuilder.courses self) (Course.id course) = false ->
  (ScheduleBuilder.add_course self course).1 = Ok conflicts ->
  forall c, c ∈ conflicts ->
    ScheduleEvent.course_id (ScheduleConflict.event1 c)
    <> ScheduleEvent.course_id (ScheduleConflict.event2 c).
Proof.
  intros [Hkeyed _] Hmem Hadd c Hc.
  unfold ScheduleBuilder.add_course in Hadd.
  destruct (ScheduleBuilder._detect_conflicts_with self course) as [cs|] eqn:Hdet;
    [|discriminate].
  simpl in Hadd. injection Hadd as ->.
  destruct (detect_conflicts_with_elem _ _ _ Hdet c Hc) as (b & Hb & Hbetween).
  apply conflict_between_spec in Hbetween as (-> & -> & _).
  intros Heq.
  assert (PyDict.mem (ScheduleBuilder.courses self) (Course.id course) = true) as Hin;
    [|congruence].
  apply mem_true_keys. rewrite <- (ScheduleInvariantFacts.keyed_keys _ Hkeyed), Heq.
  by apply list_elem_of_fmap_2.
Qed.

End DistinctSectionsFacts.

(** C2. Where the code departs from the specification: adding to the
    schedule a section that is already in it reports that section as
    conflicting with itself, once for each of its days, and
    [detect_conflicts] on a list that names a section twice reports it as
    conflicting with itself. ([get_all_conflicts] never does:
    [DistinctSectionsFacts.get_all_conflicts_distinct].) *)
Theorem add_course_again_reports_self_conflict :
  let self := (ScheduleBuilder.add_course ScheduleBuilder.new DistinctSections.mwf_section).2 in
  (exists conflicts,
      (ScheduleBuilder.add_course self DistinctSections.mwf_section).1 = Ok conflicts
      /\ DayConflicts.describe <$> conflicts =
         [("Monday", 60, "CAS-CS-111-A1-Fall2026", "CAS-CS-111-A1-Fall2026");
          ("Wednesday", 60, "CAS-CS-111-A1-Fall2026", "CAS-CS-111-A1-Fall2026");
          ("Friday", 60, "CAS-CS-111-A1-Fall2026", "CAS-CS-111-A1-Fall2026")])
  /\ CourseIndex.detect_conflicts [DistinctSections.mwf_section; DistinctSections.mwf_section]
     = Ok [Conflict.mk "CAS-CS-111-A1-Fall2026" "CAS-CS-111-A1-Fall2026"
             "CAS CS 111" "CAS CS 111" "F, M, W" "10:00-11:00"].
Proof.
  split.
  - eexists. split; [by vm_compute|]. by vm_compute.
  - by vm_compute.
Qed.

(** ** Where the time parser cannot raise *)

Module TimeParsingFacts.
Import TimeParsing.









End TimeParsingFacts.

(** C5. Where the code departs from the specification: a time string with
    a colon whose parts are not integers raises instead of degrading to
    zero minutes, in the parser and so in the expansion of a course into
    events and in the conflict check of the index. *)
Theorem parse_time_raises_on_malformed_colon_time :
  parsing.parse_time_to_minutes "a:b" = Raise ValueError
  /\ parsing.parse_time_to_minutes "12:" = Raise IndexError
  /\ parsing.parse_time_to_minutes "10:3o" = Raise ValueError
  /\ ScheduleBuilder._course_to_events malformed_time_course "temp"
     = Raise ValueError
  /\ (ScheduleBuilder.add_course ScheduleBuilder.new malformed_time_course).1
     = Raise ValueError
  /\ CourseIndex.detect_conflicts [malformed_time_course; DistinctSections.mwf_section]
     = Raise ValueError.
Proof. repeat split; by vm_compute. Qed.

(** ** The bitmap filter index *)

Module BitmapsFacts.
Import Bitmaps.
Import BitmapIndex.

Implicit Types (indices : gmap string (gmap string (gset Z))).

Lemma add_to_nonempty field value i indices :
  bitmaps_nonempty indices -> bitmaps_nonempty (add_to field value i indices).
Proof.
  intros Hne f index v bitmap. unfold add_to.
  destruct (decide (field = f)) as [<-|Hf].
  - rewrite lookup_insert_eq. intros [= <-].
    destruct (decide (value = v)) as [<-|Hv].
    + rewrite lookup_insert_eq. intros [= <-]. set_solver.
    + rewrite lookup_insert_ne by done.
      destruct (indices !! field) as [m|] eqn:Hm; simpl.
      * by apply (Hne field m).
      * by rewrite lookup_empty.
  - rewrite lookup_insert_ne by done. apply Hne.
Qed.

Lemma fold_add_to_nonempty field i (values : list string) indices :
  bitmaps_nonempty indices ->
  bitmaps_nonempty
    (fold_left (fun indices value => add_to field value i indices) values indices).
Proof.
  revert indices. induction values as [|v values IH]; intros indices H; simpl; [done|].
  by apply IH, add_to_nonempty.
Qed.

Lemma index_course_nonempty indices ic :
  bitmaps_nonempty indices -> bitmaps_nonempty (index_course indices ic).
Proof.
  intros H. destruct ic as [i course]. unfold index_course.
  apply fold_add_to_nonempty.
  destruct (PyStr.truthy (Course.status course));
    repeat apply add_to_nonempty; done.
Qed.

Lemma build_nonempty courses : bitmaps_nonempty (indices (build courses)).
Proof.
  unfold build. simpl. generalize (PyList.enumerate courses) as l.
  assert (bitmaps_nonempty empty_indices) as H0.
  { intros f index v bitmap Hf Hv. unfold empty_indices in Hf.
    repeat (apply lookup_insert_Some in Hf as [[_ <-]|[_ Hf]];
            [by rewrite lookup_empty in Hv|]).
    by rewrite lookup_empty in Hf. }
  revert H0. generalize empty_indices as indices.
  intros indices H0 l. revert indices H0.
  induction l as [|ic l IH]; intros indices H0; simpl; [done|].
  by apply IH, index_course_nonempty.
Qed.

(** The union collected for a field, in closed form. *)
Lemma field_matches_from (index : gmap string (gset Z)) values acc :
  fold_left (fun acc value =>
               match index !! value with
               | Some bitmap => acc ∪ bitmap
               | None => acc
               end) values acc
  = acc ∪ field_matches index values.
Proof.
  unfold field_matches. revert acc.
  induction values as [|v values IH]; intros acc; simpl; [set_solver|].
  rewrite IH. rewrite (IH (match index !! v with Some bitmap => ∅ ∪ bitmap | None => ∅ end)).
  destruct (index !! v); set_solver.
Qed.

Lemma field_matches_cons (index : gmap string (gset Z)) v values :
  field_matches index (v :: values)
  = default ∅ (index !! v) ∪ field_matches index values.
Proof.
  unfold field_matches at 1. simpl. rewrite field_matches_from.
  destruct (index !! v); simpl; set_solver.
Qed.

Lemma field_matches_app (index : gmap string (gset Z)) vs1 vs2 :
  field_matches index (vs1 ++ vs2)
  = field_matches index vs1 ∪ field_matches index vs2.
Proof.
  induction vs1 as [|v vs1 IH]; simpl.
  - unfold field_matches at 2. simpl. set_solver.
  - rewrite !field_matches_cons, IH. set_solver.
Qed.

(** Values that the index does not know contribute nothing. *)
Lemma field_matches_absent (index : gmap string (gset Z)) values :
  (forall v, v ∈ values -> index !! v = None) -> field_matches index values = ∅.
Proof.
  induction values as [|v values IH]; intros H; [done|].
  rewrite field_matches_cons, (H v) by (by left). simpl.
  rewrite IH; [set_solver|]. intros v' Hv'. apply H. by right.
Qed.

Lemma filter_step_union self fv (r1 r2 : gset Z) :
  filter_step self (r1 ∪ r2) fv = filter_step self r1 fv ∪ filter_step self r2 fv.
Proof.
  destruct fv as [field values]. unfold filter_step.
  destruct (indices self !! field); [|done].
  destruct (falsy values); [done|].
  case_bool_decide; [done | set_solver].
Qed.

Lemma fold_filter_step_union self filters (r1 r2 : gset Z) :
  fold_left (filter_step self) filters (r1 ∪ r2)
  = fold_left (filter_step self) filters r1 ∪ fold_left (filter_step self) filters r2.
Proof.
  revert r1 r2. induction filters as [|fv filters IH]; intros r1 r2; simpl; [done|].
  by rewrite filter_step_union, IH.
Qed.

Lemma get_values_elem_of self field value :
  value ∈ get_values self field <->
  exists index, indices self !! field = Some index /\ is_Some (index !! value).
Proof.
  unfold get_values. destruct (indices self !! field) as [index|].
  - rewrite sorted_elem_of, elem_of_elements, elem_of_dom. naive_solver.
  - split; [by intros ?%elem_of_nil | by intros (? & ? & ?)].
Qed.

(** The loop of [filter], split at one keyword argument. *)
Lemma filter_fold_middle self before fv after (all : gset Z) :
  fold_left (filter_step self) (before ++ fv :: after) all
  = fold_left (filter_step self) after
      (filter_step self (fold_left (filter_step self) before all) fv).
Proof. by rewrite fold_left_app. Qed.

Lemma filter_Some self filters (all : gset Z) :
  all_ids self = Some all ->
  filter self filters = Ok (fold_left (filter_step self) filters all).
Proof. intros H. unfold filter. by rewrite H. Qed.

Lemma filter_None self filters :
  all_ids self = None -> filter self filters = Raise AttributeError.
Proof. intros H. unfold filter. by rewrite H. Qed.

End BitmapsFacts.

(** C6. A keyword argument of [filter] whose requested values are all
    absent from the index (or whose field the index does not have) does not
    constrain the result: the filter returns what it returns without that
    argument, and on a built index that is not an error; in particular a
    filter on absent values alone returns every position. Likewise an absent
    value listed next to others changes nothing. *)
Theorem filter_skips_absent_values :
  (forall (self : BitmapIndex.t) (before after : list (string * BitmapIndex.filter_value))
          (field : string) (values : BitmapIndex.filter_value),
      (forall index value,
          BitmapIndex.indices self !! field = Some index ->
          value ∈ BitmapIndex.to_list values -> index !! value = None) ->
      BitmapIndex.filter self (before ++ (field, values) :: after)
      = BitmapIndex.filter self (before ++ after))
  /\ (forall (courses : list Course.t) (field : string) (values : BitmapIndex.filter_value),
         (forall index value,
             BitmapIndex.indices (BitmapIndex.build courses) !! field = Some index ->
             value ∈ BitmapIndex.to_list values -> index !! value = None) ->
         BitmapIndex.filter (BitmapIndex.build courses) [(field, values)]
         = Ok (list_to_set (Z.of_nat <$> seq 0 (length courses))))
  /\ (forall (self : BitmapIndex.t) (before after : list (string * BitmapIndex.filter_value))
             (field : string) (values1 values2 : list string) (absent : string),
         (forall index, BitmapIndex.indices self !! field = Some index ->
                        index !! absent = None) ->
         BitmapIndex.filter self
           (before ++ (field, BitmapIndex.FList (values1 ++ absent :: values2)) :: after)
         = BitmapIndex.filter self
             (before ++ (field, BitmapIndex.FList (values1 ++ values2)) :: after)).
Proof.
  assert (forall (self : BitmapIndex.t) field values result,
             (forall index value,
                 BitmapIndex.indices self !! field = Some index ->
                 value ∈ BitmapIndex.to_list values -> index !! value = None) ->
             BitmapIndex.filter_step self result (field, values) = result) as Hskip.
  { intros self field values result Habs. unfold BitmapIndex.filter_step.
    destruct (BitmapIndex.indices self !! field) as [index|]; [|done].
    destruct (BitmapIndex.falsy values); [done|].
    rewrite BitmapsFacts.field_matches_absent by (intros v Hv; by eapply Habs).
    by rewrite bool_decide_eq_true_2. }
  split; [|split].
  - intros self before after field values Habs.
    destruct (BitmapIndex.all_ids self) as [all|] eqn:Hall;
      [|by rewrite !BitmapsFacts.filter_None].
    rewrite !(BitmapsFacts.filter_Some _ _ all) by done.
    rewrite BitmapsFacts.filter_fold_middle, Hskip by done.
    by rewrite fold_left_app.
  - intros courses field values Habs.
    rewrite (BitmapsFacts.filter_Some _ _ (list_to_set (Z.of_nat <$> seq 0 (length courses))))
      by done.
    change (fold_left ?f [?fv] ?a) with (f a fv). by rewrite Hskip.
  - intros self before after field values1 values2 absent Habs.
    destruct (BitmapIndex.all_ids self) as [all|] eqn:Hall;
      [|by rewrite !BitmapsFacts.filter_None].
    rewrite !(BitmapsFacts.filter_Some _ _ all) by done.
    rewrite !BitmapsFacts.filter_fold_middle. f_equal. f_equal.
    unfold BitmapIndex.filter_step.
    destruct (BitmapIndex.indices self !! field) as [index|] eqn:Hidx; [|done].
    simpl BitmapIndex.to_list.
    assert (BitmapIndex.field_matches index (values1 ++ absent :: values2)
            = BitmapIndex.field_matches index (values1 ++ values2)) as Heq.
    { rewrite !BitmapsFacts.field_matches_app, BitmapsFacts.field_matches_cons.
      rewrite (Habs index) by done. simpl. set_solver. }
    rewrite Heq.
    destruct values1 as [|v1 values1]; simpl; [|done].
    destruct values2 as [|v2 values2]; simpl; [|done].
    by rewrite bool_decide_eq_true_2.
Qed.

(** C7. On a built index, for two values [x] and [y] that the index has for
    a field, filtering on the list of both returns the union of what
    filtering on each returns, whatever the other keyword arguments of the
    call are (none, in the simplest case). *)
Theorem filter_two_values_is_union
    (courses : list Course.t) (field x y : string)
    (before after : list (string * BitmapIndex.filter_value)) :
  x ∈ BitmapIndex.get_values (BitmapIndex.build courses) field ->
  y ∈ BitmapIndex.get_values (BitmapIndex.build courses) field ->
  exists both only_x only_y : gset Z,
    BitmapIndex.filter (BitmapIndex.build courses)
      (before ++ (field, BitmapIndex.FList [x; y]) :: after) = Ok both
    /\ BitmapIndex.filter (BitmapIndex.build courses)
         (before ++ (field, BitmapIndex.FList [x]) :: after) = Ok only_x
    /\ BitmapIndex.filter (BitmapIndex.build courses)
         (before ++ (field, BitmapIndex.FList [y]) :: after) = Ok only_y
    /\ both = only_x ∪ only_y.
Proof.
  intros Hx Hy.
  apply BitmapsFacts.get_values_elem_of in Hx as (index & Hidx & bx & Hbx).
  apply BitmapsFacts.get_values_elem_of in Hy as (index' & Hidx' & by_ & Hby).
  rewrite Hidx in Hidx'. injection Hidx' as <-.
  pose proof (BitmapsFacts.build_nonempty courses _ _ _ _ Hidx Hbx) as Hnx.
  pose proof (BitmapsFacts.build_nonempty courses _ _ _ _ Hidx Hby) as Hny.
  set (all := list_to_set (Z.of_nat <$> seq 0 (length courses)) : gset Z).
  rewrite !(BitmapsFacts.filter_Some _ _ all) by done.
  eexists _, _, _.
  split; [done|]. split; [done|]. split; [done|].
  rewrite !BitmapsFacts.filter_fold_middle.
  rewrite <- BitmapsFacts.fold_filter_step_union. f_equal.
  unfold BitmapIndex.filter_step. rewrite Hidx.
  simpl BitmapIndex.falsy. simpl BitmapIndex.to_list. cbv iota.
  rewrite !BitmapsFacts.field_matches_cons, Hbx, Hby. simpl.
  assert (BitmapIndex.field_matches index [] = ∅) as -> by done.
  repeat case_bool_decide; set_solver.
Qed.

(** ** The trigram index *)

Module TrigramsFacts.
Import Trigrams.
Import TrigramIndex.

Lemma add_postings_lookup doc_id (m : gmap string (gset Z)) (l : list string) trigram :
  default ∅ (foldr (add_posting doc_id) m l !! trigram)
  = default ∅ (m !! trigram) ∪ (if decide (trigram ∈ l) then {[doc_id]} else ∅).
Proof.
  induction l as [|x l IH]; cbn [foldr].
  - destruct (decide (trigram ∈ [])) as [H%elem_of_nil|]; [done|set_solver].
  - unfold add_posting at 1.
    destruct (decide (x = trigram)) as [->|Hne].
    + rewrite lookup_insert_eq. simpl. rewrite IH.
      rewrite (decide_True (P := trigram ∈ trigram :: l)) by (by left).
      case_decide; set_solver.
    + rewrite lookup_insert_ne by done. rewrite IH.
      destruct (decide (trigram ∈ l)) as [Hin|Hnin].
      * by rewrite decide_True by (by right).
      * rewrite decide_False; [done|].
        intros [?|?]%elem_of_cons; [congruence|done].
Qed.

Lemma postings_add self doc_id text trigram :
  postings (add self doc_id text) trigram
  = postings self trigram
    ∪ (if decide (trigram ∈ _extract_trigrams (_normalize text))
       then {[doc_id]} else ∅).
Proof.
  unfold postings, add. simpl. rewrite add_postings_lookup.
  f_equal. repeat case_decide; try done; exfalso.
  - by apply elem_of_elements in H.
  - by apply elem_of_elements in H0.
Qed.

Lemma consistent_new : consistent new.
Proof.
  intros trigram doc_id. unfold postings, new. simpl. rewrite lookup_empty. simpl.
  split; [set_solver|]. intros (stored & H & _). by rewrite lookup_empty in H.
Qed.

Lemma consistent_add self doc_id text :
  consistent self -> id_to_text self !! doc_id = None ->
  consistent (add self doc_id text).
Proof.
  intros Hc Hfresh trigram d. rewrite postings_add.
  rewrite elem_of_union, (Hc trigram d). unfold add at 1. simpl.
  destruct (decide (d = doc_id)) as [->|Hne].
  - rewrite lookup_insert_eq. split.
    + intros [(stored & Hs & _)|Hin]; [congruence|].
      case_decide; [|set_solver]. by eexists.
    + intros (stored & [= <-] & Ht). right. rewrite decide_True by done. set_solver.
  - rewrite lookup_insert_ne by done. split.
    + intros [H|Hin]; [done|]. case_decide; set_solver.
    + intros H. by left.
Qed.

Lemma id_to_text_add_all docs doc_id :
  is_Some (id_to_text (add_all docs) !! doc_id) <-> doc_id ∈ docs.*1.
Proof.
  unfold add_all.
  assert (forall self,
             is_Some (id_to_text
                        (fold_left (fun self '(doc_id, text) => add self doc_id text)
                                   docs self) !! doc_id)
             <-> is_Some (id_to_text self !! doc_id) \/ doc_id ∈ docs.*1) as H.
  { induction docs as [|[d text] docs IH]; intros self; simpl.
    - split; [by left|]. intros [H|H]; [done|by apply elem_of_nil in H].
    - rewrite IH. unfold add at 1. simpl.
      rewrite lookup_insert_is_Some, elem_of_cons.
      change (list_fmap _ _ fst docs) with (docs.*1).
      destruct (decide (d = doc_id)); intuition congruence. }
  rewrite H. unfold new. simpl. rewrite lookup_empty.
  split; [|by right]. intros [[? ?]|?]; done.
Qed.

Lemma consistent_add_all docs : NoDup docs.*1 -> consistent (add_all docs).
Proof.
  induction docs as [|[d text] docs IH] using rev_ind; intros Hnd.
  - apply consistent_new.
  - unfold add_all. rewrite fold_left_app. simpl.
    rewrite fmap_app in Hnd. apply NoDup_app in Hnd as (Hnd & Hfresh & _).
    apply consistent_add; [by apply IH|].
    apply eq_None_not_Some. intros Hin%id_to_text_add_all.
    apply (Hfresh d Hin). simpl. by left.
Qed.

(** The tally of [get_candidates]. *)
Lemma bump_all_lookup (ds : list Z) (m : gmap Z Z) d :
  NoDup ds ->
  foldr bump m ds !! d
  = if decide (d ∈ ds) then Some (default 0 (m !! d) + 1) else m !! d.
Proof.
  induction 1 as [|x ds Hx Hnd IH]; cbn [foldr].
  - by destruct (decide (d ∈ [])) as [H%elem_of_nil|].
  - unfold bump at 1. destruct (decide (x = d)) as [->|Hne].
    + rewrite lookup_insert_eq, IH, (decide_False (P := d ∈ ds)) by done.
      by rewrite decide_True by (by left).
    + rewrite lookup_insert_ne, IH by done.
      destruct (decide (d ∈ ds)).
      * by rewrite decide_True by (by right).
      * rewrite decide_False; [done|]. intros [?|?]%elem_of_cons; [congruence|done].
Qed.

Lemma count_matches_lookup self (l : list string) d :
  count_matches self l !! d
  = if decide (tally self l d = 0) then None else Some (tally self l d).
Proof.
  unfold tally. induction l as [|x l IH]; simpl; [by rewrite lookup_empty|].
  rewrite bump_all_lookup by apply NoDup_elements.
  fold (postings self x). fold (count_matches self l). rewrite IH.
  destruct (decide (d ∈ postings self x)) as [Hin|Hnin].
  - rewrite decide_True by (by apply elem_of_elements).
    rewrite bool_decide_eq_true_2 by done. simpl length.
    repeat case_decide; simpl; try lia; f_equal; lia.
  - rewrite decide_False by (by rewrite elem_of_elements).
    by rewrite bool_decide_eq_false_2 by done.
Qed.

Lemma filter_elements_size (Q T : gset string) :
  length (List.filter (fun x => bool_decide (x ∈ T)) (elements Q)) = size (Q ∩ T).
Proof.
  unfold size, set_size. simpl. apply Permutation_length.
  apply NoDup_Permutation.
  - apply NoDup_ListNoDup, List.NoDup_filter, NoDup_ListNoDup, NoDup_elements.
  - apply NoDup_elements.
  - intros x. rewrite elem_of_elements, elem_of_intersection.
    rewrite list_elem_of_In, filter_In, <- list_elem_of_In, elem_of_elements.
    by rewrite bool_decide_eq_true.
Qed.

Lemma tally_shared self query d stored :
  consistent self -> id_to_text self !! d = Some stored ->
  tally self (elements (_extract_trigrams query)) d = shared query stored.
Proof.
  intros Hc Hs. unfold tally, shared. f_equal.
  rewrite <- filter_elements_size. f_equal.
  apply filter_ext. intros x. apply bool_decide_ext.
  rewrite (Hc x d). split.
  - intros (stored' & Hs' & Hx). congruence.
  - intros Hx. by exists stored.
Qed.

Lemma tally_unknown self l d :
  consistent self -> id_to_text self !! d = None -> tally self l d = 0.
Proof.
  intros Hc Hs. unfold tally.
  induction l as [|x l IH]; simpl; [done|].
  rewrite bool_decide_eq_false_2; [done|].
  rewrite (Hc x d). intros (stored & Hs' & _). congruence.
Qed.

Lemma extract_trigrams_empty text : _extract_trigrams text = ∅ <-> text = "".
Proof.
  split; [|by intros ->].
  unfold _extract_trigrams. destruct (String.length text <? 3)%nat eqn:Hlen.
  - destruct text; [done|]. simpl. intros H. set_solver.
  - apply Nat.ltb_ge in Hlen.
    destruct (String.length text - 2)%nat as [|n] eqn:Hn; [lia|].
    simpl. intros H. set_solver.
Qed.

Lemma extract_trigrams_short text :
  text <> "" -> (String.length text < 3)%nat -> _extract_trigrams text = {[ text ]}.
Proof.
  intros Hne Hlen. unfold _extract_trigrams.
  apply Nat.ltb_lt in Hlen. rewrite Hlen. by destruct text.
Qed.

Lemma stored_text_add_all docs d text :
  NoDup docs.*1 -> (d, text) ∈ docs ->
  id_to_text (add_all docs) !! d = Some (_normalize text).
Proof.
  induction docs as [|[d' text'] docs IH] using rev_ind; intros Hnd Hin.
  - by apply elem_of_nil in Hin.
  - unfold add_all. rewrite fold_left_app. simpl.
    rewrite fmap_app in Hnd. apply NoDup_app in Hnd as (Hnd & Hfresh & _).
    apply elem_of_app in Hin as [Hin|Hin].
    + rewrite lookup_insert_ne; [by apply IH|].
      intros <-. apply (Hfresh d'); [|by left].
      by apply (list_elem_of_fmap_2 fst _ (d', text)).
    + apply list_elem_of_singleton in Hin. injection Hin as -> ->.
      by rewrite lookup_insert_eq.
Qed.

(** What [get_candidates] returns when the query has shingles. *)
Lemma get_candidates_elem_of self query min_matches d :
  _extract_trigrams (_normalize query) <> ∅ ->
  d ∈ get_candidates self query min_matches <->
  let n := tally self (elements (_extract_trigrams (_normalize query))) d in
  n <> 0 /\ min_matches <= n.
Proof.
  intros Hne. unfold get_candidates.
  rewrite bool_decide_eq_false_2 by done.
  rewrite elem_of_dom. unfold is_Some.
  setoid_rewrite map_lookup_filter_Some. setoid_rewrite count_matches_lookup.
  simpl. case_decide; split.
  - intros (x & [=] & _).
  - intros [? _]. done.
  - intros (x & [= <-] & Hle). done.
  - intros [_ Hle]. eexists. done.
Qed.

(** On an index where each id was added once, a threshold of at least 1
    selects the ids whose stored text shares that many shingles with the
    query. *)
Lemma add_all_returns_ids_sharing docs query min_matches :
  NoDup docs.*1 -> 1 <= min_matches -> _normalize query <> "" ->
  returns_ids_sharing (add_all docs) query min_matches.
Proof.
  intros Hnd Hmin Hq d.
  pose proof (consistent_add_all docs Hnd) as Hc.
  rewrite get_candidates_elem_of by (by rewrite extract_trigrams_empty).
  simpl.
  destruct (id_to_text (add_all docs) !! d) as [stored|] eqn:Hs.
  - rewrite (tally_shared _ _ _ stored) by done. split.
    + intros [_ Hle]. by exists stored.
    + intros (stored' & [= <-] & Hle). split; [lia | done].
  - rewrite tally_unknown by done. split.
    + intros [? _]. done.
    + intros (stored' & [=] & _).
Qed.

Lemma enumerate_NoDup {A} (l : list A) : NoDup (PyList.enumerate l).*1.
Proof.
  unfold PyList.enumerate. rewrite fst_zip by (by rewrite length_fmap, length_seq).
  apply NoDup_fmap; [apply _ | apply NoDup_seq].
Qed.

(** The trigram index of a course index holds each position once, and the
    threshold that [_get_query_candidates] passes is at least 1: a query of
    three characters or more returns the positions whose search text
    shares enough shingles with it. *)
Lemma query_candidates_share_shingles courses search_texts query :
  (3 <= String.length query)%nat -> _normalize query <> "" ->
  returns_ids_sharing
    (CourseIndex.trigram_index (CourseIndex._build_indices courses search_texts))
    query (Z.max 1 (PyStr.len query / 4))
  /\ CourseIndex._get_query_candidates
       (CourseIndex._build_indices courses search_texts) query
     = get_candidates
         (CourseIndex.trigram_index (CourseIndex._build_indices courses search_texts))
         query (Z.max 1 (PyStr.len query / 4)).
Proof.
  intros Hlen Hq. split.
  - apply (add_all_returns_ids_sharing (PyList.enumerate search_texts));
      [apply enumerate_NoDup | lia | done].
  - unfold CourseIndex._get_query_candidates.
    apply Nat.ltb_ge in Hlen. by rewrite Hlen.
Qed.

End TrigramsFacts.

(** The specified result of [get_candidates] fails for a threshold of zero, where an
    indexed document that shares no shingle with the query is left out, and
    on an index where an id was added twice, where the document is still
    found under the shingles of the text that was replaced. *)
Lemma get_candidates_counterexample :
  ~ Trigrams.returns_ids_sharing
      (TrigramIndex.add TrigramIndex.new 0 "abc") "xyz" 0
  /\ ~ Trigrams.returns_ids_sharing
        (TrigramIndex.add (TrigramIndex.add TrigramIndex.new 0 "abc") 0 "xyz")
        "abc" 1.
Proof.
  split; intros H; specialize (H 0); destruct H as [H1 H2].
  - assert (0 ∈ TrigramIndex.get_candidates
                  (TrigramIndex.add TrigramIndex.new 0 "abc") "xyz" 0) as Hin.
    { apply H2. exists "abc". split; [by vm_compute|]. by vm_compute. }
    revert Hin. apply (bool_decide_unpack (0 ∉ _)). by vm_compute.
  - destruct H1 as (stored & Hs & Hle).
    { apply (bool_decide_unpack (0 ∈ _)). by vm_compute. }
    assert (stored = "xyz") as -> by (vm_compute in Hs; congruence).
    vm_compute in Hle. by apply Hle.
Qed.

(** C8 (amended). When the normalized query has no shingles, which is when
    it is empty, [get_candidates] returns every indexed id. Otherwise, on an
    index built by adding each id once and for a threshold of at least 1, it
    returns exactly the indexed ids whose stored text, the normalized text
    that was added, shares at least [min_matches] distinct shingles with
    the normalized query. A non-empty string shorter than 3 characters has
    one shingle, itself. *)
Theorem get_candidates_returns_ids_sharing_shingles :
  (forall (self : TrigramIndex.t) (query : string) (min_matches : Z),
      TrigramIndex._normalize query = "" ->
      TrigramIndex.get_candidates self query min_matches
      = dom (TrigramIndex.id_to_text self))
  /\ (forall (docs : list (Z * string)) (query : string) (min_matches : Z),
         NoDup docs.*1 ->
         1 <= min_matches ->
         TrigramIndex._normalize query <> "" ->
         Trigrams.returns_ids_sharing (Trigrams.add_all docs) query min_matches)
  /\ (forall (docs : list (Z * string)) (d : Z) (text : string),
         NoDup docs.*1 -> (d, text) ∈ docs ->
         TrigramIndex.id_to_text (Trigrams.add_all docs) !! d
         = Some (TrigramIndex._normalize text))
  /\ (forall text : string,
         text <> "" -> (String.length text < 3)%nat ->
         TrigramIndex._extract_trigrams text = {[ text ]})
  /\ (forall text : string,
         TrigramIndex._extract_trigrams text = ∅ <-> text = "").
Proof.
  split; [|split; [|split; [|split]]].
  - intros self query min_matches Hq. unfold TrigramIndex.get_candidates.
    rewrite Hq. done.
  - intros docs query min_matches Hnd Hmin Hq.
    by apply TrigramsFacts.add_all_returns_ids_sharing.
  - intros docs d text Hnd Hin. by apply TrigramsFacts.stored_text_add_all.
  - apply TrigramsFacts.extract_trigrams_short.
  - apply TrigramsFacts.extract_trigrams_empty.
Qed.

(** ** Grouping of sections *)

Module GroupingFacts.
Import Grouping.
Import CourseIndex.

Lemma lecture_primary c :
  Course.section_type c = "Lecture" -> is_primary c = true /\ is_secondary c = false.
Proof. unfold is_primary, is_secondary. intros ->. by vm_compute. Qed.

Lemma discussion_secondary c :
  Course.section_type c = "Discussion" -> is_primary c = false /\ is_secondary c = true.
Proof. unfold is_primary, is_secondary. intros ->. by vm_compute. Qed.

Lemma partition_go (courses : list Course.t) code term acc :
  Forall (fun c => Course.code c = code /\ Course.term c = term) courses ->
  fold_left (fun by_code_term course =>
               let key := (Course.code course, Course.term course) in
               PyDict.set by_code_term key
                 (default [] (PyDict.get by_code_term key) ++ [course]))
            courses [((code, term), acc)]
  = [((code, term), acc ++ courses)].
Proof.
  intros Hall. revert acc.
  induction Hall as [|c courses [Hc Ht] Hall IH]; intros acc; simpl.
  - by rewrite app_nil_r.
  - rewrite Hc, Ht. rewrite !decide_True by done. simpl.
    rewrite IH. by rewrite <- app_assoc.
Qed.

(** Sections with one code and one term form one partition. *)
Lemma partition_same_key (courses : list Course.t) code term :
  Forall (fun c => Course.code c = code /\ Course.term c = term) courses ->
  courses <> [] ->
  partition_by_code_term courses = [((code, term), courses)].
Proof.
  intros Hall Hne. unfold partition_by_code_term.
  destruct Hall as [|c courses [Hc Ht] Hall]; [done|].
  simpl. rewrite Hc, Ht. by rewrite partition_go.
Qed.

Lemma related_ltb_D1_A2 (x y : RelatedSection.t) :
  RelatedSection.section x = "D1" -> RelatedSection.section_type x = "Discussion" ->
  RelatedSection.section y = "A2" -> RelatedSection.section_type y = "Discussion" ->
  related_ltb x y = false.
Proof. unfold related_ltb. intros -> -> -> ->. by vm_compute. Qed.

Lemma related_ltb_A2_D1 (x y : RelatedSection.t) :
  RelatedSection.section x = "A2" -> RelatedSection.section_type x = "Discussion" ->
  RelatedSection.section y = "D1" -> RelatedSection.section_type y = "Discussion" ->
  related_ltb x y = true.
Proof. unfold related_ltb. intros -> -> -> ->. by vm_compute. Qed.

Lemma prefix_A1 : _get_section_prefix "A1" = "A".
Proof. by vm_compute. Qed.

Lemma prefix_B1 : _get_section_prefix "B1" = "B".
Proof. by vm_compute. Qed.

Lemma prefix_A2 : _get_section_prefix "A2" = "A".
Proof. by vm_compute. Qed.

Lemma prefix_D1 : _get_section_prefix "D1" = "D".
Proof. by vm_compute. Qed.

Ltac dict_steps :=
  repeat first
    [ progress cbn [fold_left PyDict.get PyDict.set default negb andb
                    PyStr.truthy app fmap list_fmap]
    | progress unfold PyDict.mem, dict_append
    | rewrite decide_True by reflexivity
    | rewrite decide_False by (assumption || discriminate) ].

Section example.

Context (a1 b1 a2 d1 : Course.t).

Hypothesis Ha1 : Course.section a1 = "A1".

Hypothesis Hta1 : Course.section_type a1 = "Lecture".

Hypothesis Hb1 : Course.section b1 = "B1".

Hypothesis Htb1 : Course.section_type b1 = "Lecture".

Hypothesis Ha2 : Course.section a2 = "A2".

Hypothesis Hta2 : Course.section_type a2 = "Discussion".

Hypothesis Hd1 : Course.section d1 = "D1".

Hypothesis Htd1 : Course.section_type d1 = "Discussion".

Hypothesis Hne : Course.id a1 <> Course.id b1.

Lemma a1_primary : is_primary a1 = true /\ is_secondary a1 = false.
Proof. by apply lecture_primary. Qed.

Lemma b1_primary : is_primary b1 = true /\ is_secondary b1 = false.
Proof. by apply lecture_primary. Qed.

Lemma a2_secondary : is_primary a2 = false /\ is_secondary a2 = true.
Proof. by apply discussion_secondary. Qed.

Lemma d1_secondary : is_primary d1 = false /\ is_secondary d1 = true.
Proof. by apply discussion_secondary. Qed.

Lemma d1_not_before_a2 : related_ltb (to_related d1) (to_related a2) = false.
Proof. by apply related_ltb_D1_A2. Qed.

Lemma a2_before_d1 : related_ltb (to_related a2) (to_related d1) = true.
Proof. by apply related_ltb_A2_D1. Qed.

Lemma ids_differ : Course.id b1 <> Course.id a1.
Proof. congruence. Qed.

(** Evaluation of [group_partition] on a list of the four sections. *)
Ltac eval_group_partition :=
  unfold group_partition, group_A, group_B; cbn [List.filter];
  fold (is_primary a1); fold (is_secondary a1);
  fold (is_primary b1); fold (is_secondary b1);
  fold (is_primary a2); fold (is_secondary a2);
  fold (is_primary d1); fold (is_secondary d1);
  rewrite ?(proj1 a1_primary), ?(proj2 a1_primary), ?(proj1 b1_primary),
    ?(proj2 b1_primary), ?(proj1 a2_secondary), ?(proj2 a2_secondary),
    ?(proj1 d1_secondary), ?(proj2 d1_secondary);
  cbn [fold_left];
  repeat (progress (rewrite ?Ha1, ?Hb1, ?Ha2, ?Hd1, ?prefix_A1, ?prefix_B1,
                      ?prefix_A2, ?prefix_D1);
          dict_steps);
  cbn [PyList.sorted PyList.insert_sorted id];
  rewrite ?d1_not_before_a2, ?a2_before_d1; auto.

Lemma group_partition_example :
  group_partition [a1; b1; a2; d1] = [group_A a1 a2 d1; group_B b1 d1]
  /\ forall group,
      group ∈ orders [a1; b1; a2; d1] ->
      group_partition group = [group_A a1 a2 d1; group_B b1 d1]
      \/ group_partition group = [group_B b1 d1; group_A a1 a2 d1].
Proof.
  pose proof ids_differ as Hne'.
  split; [eval_group_partition|].
  intros group.
  cbn [orders insert_everywhere flat_map fmap list_fmap app].
  intros Hin.
  repeat (apply elem_of_cons in Hin as [->|Hin]); [..|by apply elem_of_nil in Hin];
    eval_group_partition.
Qed.

End example.

End GroupingFacts.

(** C9. A (code, term) partition holds the lectures A1 and B1, the
    discussion A2, whose prefix is that of A1, and the discussion D1, whose
    prefix is that of no lecture. Whatever the order of the four sections,
    [group_sections] returns exactly two groups, one for A1 and one for B1,
    in the order of the two lectures: the related sections of A1 are A2 and
    D1, and the related sections of B1 are D1 alone. *)
Theorem group_sections_shares_unmatched_secondary
    (a1 b1 a2 d1 : Course.t) (courses : list Course.t) :
  Course.section a1 = "A1" -> Course.section_type a1 = "Lecture" ->
  Course.section b1 = "B1" -> Course.section_type b1 = "Lecture" ->
  Course.section a2 = "A2" -> Course.section_type a2 = "Discussion" ->
  Course.section d1 = "D1" -> Course.section_type d1 = "Discussion" ->
  Course.code b1 = Course.code a1 -> Course.term b1 = Course.term a1 ->
  Course.code a2 = Course.code a1 -> Course.term a2 = Course.term a1 ->
  Course.code d1 = Course.code a1 -> Course.term d1 = Course.term a1 ->
  Course.id a1 <> Course.id b1 ->
  courses ≡ₚ [a1; b1; a2; d1] ->
  let group_A :=
    GroupedCourse.from_course a1
      [CourseIndex.to_related a2; CourseIndex.to_related d1] in
  let group_B :=
    GroupedCourse.from_course b1 [CourseIndex.to_related d1] in
  CourseIndex.group_sections [a1; b1; a2; d1] = [group_A; group_B]
  /\ (CourseIndex.group_sections courses = [group_A; group_B]
      \/ CourseIndex.group_sections courses = [group_B; group_A]).
Proof.
  intros Ha1 Hta1 Hb1 Htb1 Ha2 Hta2 Hd1 Htd1 Hcb Htb Hca Hta Hcd Htd Hne Hperm.
  destruct (GroupingFacts.group_partition_example a1 b1 a2 d1) as [Hfixed Hany]; try done.
  assert (Forall (fun c => Course.code c = Course.code a1
                           /\ Course.term c = Course.term a1) [a1; b1; a2; d1]) as Hall
    by (repeat constructor; done).
  assert (forall l, l ≡ₚ [a1; b1; a2; d1] ->
            CourseIndex.group_sections l = CourseIndex.group_partition l) as Hone.
  { intros l Hl. unfold CourseIndex.group_sections.
    rewrite (GroupingFacts.partition_same_key l (Course.code a1) (Course.term a1)).
    - simpl. by rewrite app_nil_r.
    - by rewrite Hl.
    - intros ->. by apply Permutation_nil_l in Hl. }
  simpl. split.
  - by rewrite Hone.
  - rewrite Hone by done. by apply Hany, orders_complete.
Qed.

(** ** The properties at work on a small catalogue *)

Lemma get_events_columns_do_not_overlap_witness :
  exists e1 e2,
    ScheduleBuilder.get_events Demo.schedule
    = (Ok Demo.schedule_events, Demo.schedule)
    /\ Demo.schedule_events !! 0%nat = Some e1
    /\ Demo.schedule_events !! 2%nat = Some e2
    /\ ScheduleEvent.day e1 = ScheduleEvent.day e2
    /\ ScheduleEvent.column e1 = ScheduleEvent.column e2
    /\ ~ (ScheduleEvent.start_minutes e1 < ScheduleEvent.end_minutes e2
          /\ ScheduleEvent.start_minutes e2 < ScheduleEvent.end_minutes e1).
Proof.
  eexists _, _.
  split; [vm_compute; reflexivity|].
  split; [vm_compute; reflexivity|].
  split; [vm_compute; reflexivity|].
  split; [vm_compute; reflexivity|].
  split; [vm_compute; reflexivity|].
  apply (get_events_columns_do_not_overlap
           Demo.schedule Demo.schedule Demo.schedule_events 0 2);
    [vm_compute; reflexivity | lia | vm_compute; reflexivity
     | vm_compute; reflexivity | vm_compute; reflexivity | vm_compute; reflexivity].
Defined.

Lemma assign_columns_greedy_and_constant_total_witness :
  Demo.monday_events ≡ₚ [Demo.monday_1200; Demo.monday_1230; Demo.monday_1330]
  /\ ScheduleBuilder._assign_columns Demo.monday_events
     = [ScheduleEvent.set_total_columns 2 (ScheduleEvent.set_column 0 Demo.monday_1200);
        ScheduleEvent.set_total_columns 2 (ScheduleEvent.set_column 1 Demo.monday_1230);
        ScheduleEvent.set_total_columns 2 (ScheduleEvent.set_column 0 Demo.monday_1330)]
  /\ ScheduleEvent.set_total_columns 2 (ScheduleEvent.set_column 1 Demo.monday_1230)
     ∈ ScheduleBuilder._assign_columns Demo.monday_events
  /\ ScheduleEvent.total_columns
       (ScheduleEvent.set_total_columns 2 (ScheduleEvent.set_column 1 Demo.monday_1230))
     = Z.of_nat (length (Columns.columns_opened Demo.monday_events)).
Proof.
  destruct assign_columns_greedy_and_constant_total as [Hexample Htotal].
  assert (Demo.monday_events
            ≡ₚ [Demo.monday_1200; Demo.monday_1230; Demo.monday_1330]) as Hperm
    by apply (Permutation_cons_append [Demo.monday_1200; Demo.monday_1230]).
  assert (ScheduleBuilder._assign_columns Demo.monday_events
          = [ScheduleEvent.set_total_columns 2 (ScheduleEvent.set_column 0 Demo.monday_1200);
             ScheduleEvent.set_total_columns 2 (ScheduleEvent.set_column 1 Demo.monday_1230);
             ScheduleEvent.set_total_columns 2 (ScheduleEvent.set_column 0 Demo.monday_1330)])
    as Hlayout
    by (apply (Hexample Demo.monday_1200 Demo.monday_1230 Demo.monday_1330);
        [reflexivity.. | exact Hperm]).
  assert (ScheduleEvent.set_total_columns 2 (ScheduleEvent.set_column 1 Demo.monday_1230)
          ∈ ScheduleBuilder._assign_columns Demo.monday_events) as Hin
    by (rewrite Hlayout; right; left).
  split; [exact Hperm|]. split; [exact Hlayout|]. split; [exact Hin|].
  apply (Htotal Demo.monday_events _ Hin).
Defined.

(** The number of columns is one constant for the day: the lone afternoon
    event is stamped with the two columns that the morning needed. *)
Lemma total_columns_is_per_day :
  (fun e => (ScheduleEvent.start_minutes e, ScheduleEvent.column e,
             ScheduleEvent.total_columns e))
    <$> ScheduleBuilder._assign_columns Demo.two_clusters
  = [(540, 0, 2); (570, 1, 2); (840, 0, 2)].
Proof. by vm_compute. Qed.

Lemma schedule_one_course_per_id_witness :
  ScheduleInvariant.one_course_per_id Demo.schedule
  /\ PyDict.mem (ScheduleBuilder.courses Demo.schedule) (Course.id Demo.ma225) = true
  /\ ScheduleInvariant.one_course_per_id
       (ScheduleBuilder.add_course Demo.schedule Demo.ma225).2
  /\ ScheduleBuilder.course_count
       (ScheduleBuilder.add_course Demo.schedule Demo.ma225).2
     = ScheduleBuilder.course_count Demo.schedule
  /\ ScheduleInvariant.one_course_per_id
       (ScheduleBuilder.remove_course Demo.schedule "MA225-A1").2
  /\ ScheduleInvariant.one_course_per_id (ScheduleBuilder.clear Demo.schedule).
Proof.
  destruct schedule_one_course_per_id as [Hnew Hstep].
  assert (ScheduleInvariant.one_course_per_id Demo.schedule) as Hinv.
  { pose proof (proj1 (Hstep _ Hnew) Demo.cs111) as H1.
    pose proof (proj1 (Hstep _ H1) Demo.ma225) as H2.
    pose proof (proj1 (Hstep _ H2) Demo.ph100) as H3.
    exact (proj1 (Hstep _ H3) Demo.wr120). }
  destruct (Hstep Demo.schedule Hinv) as (Hadd & Hreplace & Hremove & Hclear).
  split; [exact Hinv|]. split; [vm_compute; reflexivity|].
  split; [apply Hadd|]. split; [|split; [apply Hremove | exact Hclear]].
  destruct (ScheduleBuilder.add_course Demo.schedule Demo.ma225)
    as [r self'] eqn:Hadd2.
  assert (exists conflicts, r = Ok conflicts) as [conflicts ->].
  { assert (r = (ScheduleBuilder.add_course Demo.schedule Demo.ma225).1) as ->
      by (by rewrite Hadd2).
    eexists. vm_compute. reflexivity. }
  apply (Hreplace Demo.ma225 conflicts self' Hadd2). vm_compute. reflexivity.
Defined.

Lemma monday_and_tuth_share_no_day :
  DayConflicts.disjoint_day_names Demo.cs111 Demo.wr120
  /\ DayConflicts.disjoint_day_names Demo.ma225 Demo.wr120
  /\ DayConflicts.disjoint_day_sets Demo.cs111 Demo.wr120.
Proof.
  assert (parsing.parse_days_to_full_names "M" = ["Monday"]) as HM
    by (vm_compute; reflexivity).
  assert (parsing.parse_days_to_full_names "TuTh" = ["Tuesday"; "Thursday"]) as HT
    by (vm_compute; reflexivity).
  split; [|split].
  - intros m1 m2 d ->%list_elem_of_singleton ->%list_elem_of_singleton.
    simpl. rewrite HM, HT.
    intros ->%list_elem_of_singleton [?|[?|?]%elem_of_cons]%elem_of_cons;
      [discriminate | discriminate | by apply elem_of_nil in H].
  - intros m1 m2 d ->%list_elem_of_singleton ->%list_elem_of_singleton.
    simpl. rewrite HM, HT.
    intros ->%list_elem_of_singleton [?|[?|?]%elem_of_cons]%elem_of_cons;
      [discriminate | discriminate | by apply elem_of_nil in H].
  - intros m1 m2 ->%list_elem_of_singleton ->%list_elem_of_singleton.
    vm_compute. reflexivity.
Qed.

Lemma demo_schedule_ok : ScheduleInvariant.one_course_per_id Demo.schedule.
Proof. repeat apply ScheduleInvariantFacts.add_course_ok. apply ScheduleInvariantFacts.new_ok. Qed.

Lemma mwf_conflict_and_disjoint_days_witness :
  (exists conflicts,
      ScheduleBuilder.get_all_conflicts
        (schedule_of_two Demo.mwf_1000 Demo.mwf_1030) = Ok conflicts
      /\ DayConflicts.describe <$> conflicts =
         [("Monday", 30, "CS112-A1", "CS131-A1");
          ("Wednesday", 30, "CS112-A1", "CS131-A1");
          ("Friday", 30, "CS112-A1", "CS131-A1")])
  /\ (first_conflict Demo.schedule_conflicts ∈ Demo.schedule_conflicts
      /\ ~ (ScheduleEvent.course_id
              (ScheduleConflict.event1 (first_conflict Demo.schedule_conflicts))
            = "CS111-A1"
            /\ ScheduleEvent.course_id
                 (ScheduleConflict.event2 (first_conflict Demo.schedule_conflicts))
               = "WR120-A1"))
  /\ (first_conflict monday_tuth_added ∈ monday_tuth_added
      /\ ScheduleEvent.course_id
           (ScheduleConflict.event2 (first_conflict monday_tuth_added))
         <> "WR120-A1")
  /\ CourseIndex.detect_conflicts [Demo.cs111; Demo.wr120] = Ok [].
Proof.
  destruct mwf_conflict_and_disjoint_days as (Hmwf & Hall & Hadd & Hindex).
  destruct monday_and_tuth_share_no_day as (Hd1 & Hd2 & Hd3).
  split; [|split; [|split]].
  - destruct (Hmwf Demo.mwf_1000 Demo.mwf_1030 "CAS 313" "CAS 314")
      as (_ & Hconflicts & _); [reflexivity | reflexivity | discriminate |].
    exact Hconflicts.
  - split; [vm_compute; left|].
    apply (Hall Demo.schedule Demo.cs111 Demo.wr120 Demo.schedule_conflicts).
    + exact demo_schedule_ok.
    + vm_compute. left.
    + vm_compute. do 3 right. left.
    + exact Hd1.
    + vm_compute. reflexivity.
    + vm_compute. left.
  - split; [vm_compute; left|].
    apply (Hadd monday_tuth_schedule Demo.wr120 Demo.ma225 monday_tuth_added).
    + apply ScheduleInvariantFacts.add_course_ok, ScheduleInvariantFacts.add_course_ok,
        ScheduleInvariantFacts.new_ok.
    + vm_compute. right. left.
    + exact Hd2.
    + vm_compute. reflexivity.
    + vm_compute. left.
  - apply (Hindex Demo.cs111 Demo.wr120 Hd3).
Defined.

Lemma fake_subject_absent index value :
  BitmapIndex.indices catalogue_index !! "subject" = Some index ->
  value ∈ BitmapIndex.to_list (BitmapIndex.FList ["FAKE"]) ->
  index !! value = None.
Proof.
  intros Hindex ->%list_elem_of_singleton.
  vm_compute in Hindex. injection Hindex as <-. vm_compute. reflexivity.
Qed.

Lemma filter_skips_absent_values_witness :
  BitmapIndex.filter catalogue_index
    [("subject", BitmapIndex.FList ["FAKE"])]
  = Ok (list_to_set (Z.of_nat <$> seq 0 (length Demo.catalogue)))
  /\ BitmapIndex.filter catalogue_index
       [("term", BitmapIndex.FStr "Fall 2026");
        ("subject", BitmapIndex.FList ["FAKE"]);
        ("status", BitmapIndex.FStr "Open")]
     = BitmapIndex.filter catalogue_index
         [("term", BitmapIndex.FStr "Fall 2026");
          ("status", BitmapIndex.FStr "Open")]
  /\ BitmapIndex.filter catalogue_index
       [("subject", BitmapIndex.FList ["CS"; "FAKE"; "MA"])]
     = BitmapIndex.filter catalogue_index
         [("subject", BitmapIndex.FList ["CS"; "MA"])].
Proof.
  destruct filter_skips_absent_values as (Hskip & Hbuilt & Hvalue).
  split; [|split].
  - apply (Hbuilt Demo.catalogue "subject" (BitmapIndex.FList ["FAKE"])).
    exact fake_subject_absent.
  - apply (Hskip catalogue_index [("term", BitmapIndex.FStr "Fall 2026")]
             [("status", BitmapIndex.FStr "Open")] "subject"
             (BitmapIndex.FList ["FAKE"])).
    exact fake_subject_absent.
  - apply (Hvalue catalogue_index [] [] "subject" ["CS"] ["MA"] "FAKE").
    intros index Hindex.
    apply (fake_subject_absent index "FAKE" Hindex). left.
Defined.

Lemma filter_two_values_is_union_witness :
  "CS" ∈ BitmapIndex.get_values catalogue_index "subject"
  /\ "MA" ∈ BitmapIndex.get_values catalogue_index "subject"
  /\ exists both only_x only_y : gset Z,
      BitmapIndex.filter catalogue_index
        [("subject", BitmapIndex.FList ["CS"; "MA"])] = Ok both
      /\ BitmapIndex.filter catalogue_index
           [("subject", BitmapIndex.FList ["CS"])] = Ok only_x
      /\ BitmapIndex.filter catalogue_index
           [("subject", BitmapIndex.FList ["MA"])] = Ok only_y
      /\ both = only_x ∪ only_y.
Proof.
  assert ("CS" ∈ BitmapIndex.get_values catalogue_index "subject") as Hx
    by (vm_compute; left).
  assert ("MA" ∈ BitmapIndex.get_values catalogue_index "subject") as Hy
    by (vm_compute; right; left).
  split; [exact Hx|]. split; [exact Hy|].
  apply (filter_two_values_is_union Demo.catalogue "subject" "CS" "MA" [] [] Hx Hy).
Defined.

(** Where the union law stops: next to a value that the index does not
    have, which is skipped when it stands alone. *)
Lemma filter_union_needs_indexed_values :
  exists both only_x only_y : gset Z,
    BitmapIndex.filter catalogue_index
      [("subject", BitmapIndex.FList ["CS"; "FAKE"])] = Ok both
    /\ BitmapIndex.filter catalogue_index
         [("subject", BitmapIndex.FList ["CS"])] = Ok only_x
    /\ BitmapIndex.filter catalogue_index
         [("subject", BitmapIndex.FList ["FAKE"])] = Ok only_y
    /\ both = {[ 0 ]} /\ only_x = {[ 0 ]}
    /\ only_y = list_to_set [0; 1; 2; 3]
    /\ both <> only_x ∪ only_y.
Proof.
  eexists _, _, _.
  split; [reflexivity|]. split; [reflexivity|]. split; [reflexivity|].
  split; [by vm_compute|]. split; [by vm_compute|]. split; [by vm_compute|].
  apply (bool_decide_unpack _). by vm_compute.
Qed.

Lemma get_candidates_returns_ids_sharing_shingles_witness :
  TrigramIndex.get_candidates (Trigrams.add_all catalogue_texts) "   " 1
  = dom (TrigramIndex.id_to_text (Trigrams.add_all catalogue_texts))
  /\ (1 ∈ TrigramIndex.get_candidates (Trigrams.add_all catalogue_texts)
            "Calculus" 2
      <-> exists stored,
          TrigramIndex.id_to_text (Trigrams.add_all catalogue_texts) !! 1
          = Some stored
          /\ 2 <= Trigrams.shared (TrigramIndex._normalize "Calculus") stored)
  /\ TrigramIndex.id_to_text (Trigrams.add_all catalogue_texts) !! 0
     = Some (TrigramIndex._normalize "CAS CS 111  Introduction to Computer Science")
  /\ TrigramIndex._extract_trigrams "cs" = {[ "cs" ]}.
Proof.
  destruct get_candidates_returns_ids_sharing_shingles
    as (Hall & Hshared & Hstored & Hshort & _).
  assert (NoDup catalogue_texts.*1) as Hnd
    by (apply (bool_decide_unpack _); vm_compute; reflexivity).
  split; [|split; [|split]].
  - apply (Hall (Trigrams.add_all catalogue_texts) "   " 1).
    vm_compute. reflexivity.
  - apply (Hshared catalogue_texts "Calculus" 2 Hnd); [lia|].
    vm_compute. discriminate.
  - apply (Hstored catalogue_texts 0 _ Hnd). left.
  - apply (Hshort "cs"); [discriminate | simpl; lia].
Defined.

Lemma group_sections_shares_unmatched_secondary_witness :
  [Demo.lecture_B1; Demo.lecture_A1; Demo.discussion_A2; Demo.discussion_D1]
    ≡ₚ [Demo.lecture_A1; Demo.lecture_B1; Demo.discussion_A2; Demo.discussion_D1]
  /\ CourseIndex.group_sections
       [Demo.lecture_A1; Demo.lecture_B1; Demo.discussion_A2; Demo.discussion_D1]
     = [GroupedCourse.from_course Demo.lecture_A1
          [CourseIndex.to_related Demo.discussion_A2;
           CourseIndex.to_related Demo.discussion_D1];
        GroupedCourse.from_course Demo.lecture_B1
          [CourseIndex.to_related Demo.discussion_D1]]
  /\ CourseIndex.group_sections
       [Demo.lecture_B1; Demo.lecture_A1; Demo.discussion_A2; Demo.discussion_D1]
     = [GroupedCourse.from_course Demo.lecture_B1
          [CourseIndex.to_related Demo.discussion_D1];
        GroupedCourse.from_course Demo.lecture_A1
          [CourseIndex.to_related Demo.discussion_A2;
           CourseIndex.to_related Demo.discussion_D1]].
Proof.
  assert ([Demo.lecture_B1; Demo.lecture_A1; Demo.discussion_A2; Demo.discussion_D1]
            ≡ₚ [Demo.lecture_A1; Demo.lecture_B1; Demo.discussion_A2;
                Demo.discussion_D1]) as Hperm by apply perm_swap.
  destruct (group_sections_shares_unmatched_secondary
              Demo.lecture_A1 Demo.lecture_B1 Demo.discussion_A2 Demo.discussion_D1
              [Demo.lecture_B1; Demo.lecture_A1; Demo.discussion_A2;
               Demo.discussion_D1])
    as [Hfixed Hany]; try reflexivity; [discriminate | exact Hperm |].
  split; [exact Hperm|]. split; [exact Hfixed|].
  destruct Hany as [Hab|Hba]; [|exact Hba].
  exfalso. vm_compute in Hab. discriminate.
Defined.

(* ===================================================================== *)
(** * Part IV. Further properties *)
(* ===================================================================== *)

(** ** More on lists, loops and dictionaries *)

Lemma flat_map_perm {A B} (f g : A -> list B) l :
  (forall x, f x ≡ₚ g x) -> flat_map f l ≡ₚ flat_map g l.
Proof.
  intros Hfg. induction l as [|x l IH]; simpl; [done|]. by rewrite Hfg, IH.
Qed.

Lemma fmap_flat_map {A B C} (h : B -> C) (f : A -> list B) l :
  h <$> flat_map f l = flat_map (fun x => h <$> f x) l.
Proof.
  induction l as [|x l IH]; simpl; [done|]. by rewrite fmap_app, IH.
Qed.

Lemma filter_all {A} (P : A -> Prop) `{forall x, Decision (P x)} (l : list A) :
  Forall P l -> filter P l = l.
Proof.
  induction 1 as [|x l Hx _ IH]; [done|]. by rewrite filter_cons_True, IH.
Qed.

Lemma foldM_ext {A B} (body1 body2 : B -> A -> result B) l acc :
  (forall acc x, body1 acc x = body2 acc x) ->
  foldM body1 acc l = foldM body2 acc l.
Proof.
  intros Hext. revert acc. induction l as [|x l IH]; intros acc; simpl; [done|].
  rewrite Hext. destruct (body2 acc x); simpl; [apply IH | done].
Qed.

Lemma flat_map_ext_in {A B} (f g : A -> list B) l :
  (forall x, x ∈ l -> f x = g x) -> flat_map f l = flat_map g l.
Proof.
  induction l as [|x l IH]; intros Hfg; simpl; [done|].
  rewrite Hfg by left. rewrite IH; [done|]. intros y Hy. apply Hfg. by right.
Qed.

Lemma elem_of_concat {A} (x : A) (ls : list (list A)) :
  x ∈ concat ls <-> exists l, x ∈ l /\ l ∈ ls.
Proof.
  induction ls as [|l0 ls IH]; simpl.
  - split; [by intros ?%elem_of_nil | by intros (l & _ & ?%elem_of_nil)].
  - rewrite elem_of_app, IH. split.
    + intros [Hx|(l & Hx & Hl)]; [exists l0; split; [done | left]|].
      exists l. split; [done | by right].
    + intros (l & Hx & [->|Hl]%elem_of_cons); [by left|]. right. by exists l.
Qed.

Lemma flat_map_app_perm {A B} (f g : A -> list B) l :
  flat_map (fun x => f x ++ g x) l ≡ₚ flat_map f l ++ flat_map g l.
Proof.
  induction l as [|x l IH]; simpl; [done|].
  rewrite IH. rewrite <- !app_assoc. apply Permutation_app_head.
  rewrite !app_assoc. apply Permutation_app_tail, Permutation_app_comm.
Qed.

Lemma flat_map_swap {A B C} (G : A -> B -> list C) l1 l2 :
  flat_map (fun a => flat_map (fun b => G a b) l2) l1
  ≡ₚ flat_map (fun b => flat_map (fun a => G a b) l1) l2.
Proof.
  induction l1 as [|a l1 IH]; simpl.
  - induction l2 as [|b l2 IH2]; simpl; done.
  - rewrite IH. by rewrite flat_map_app_perm.
Qed.

Lemma Forall2_snoc {A B} (P : A -> B -> Prop) l1 l2 x y :
  Forall2 P l1 l2 -> P x y -> Forall2 P (l1 ++ [x]) (l2 ++ [y]).
Proof. intros H Hxy. apply Forall2_app; [done | by constructor]. Qed.

Section PyDict_more_facts.
Context {K V : Type} `{EqDecision K}.
Implicit Types (d : list (K * V)) (k : K) (v : V).

Lemma get_None_keys d k : PyDict.get d k = None <-> k ∉ PyDict.keys d.
Proof.
  unfold PyDict.keys. induction d as [|[k' v'] d IH]; simpl.
  - split; [intros _; apply not_elem_of_nil | done].
  - rewrite not_elem_of_cons. destruct (decide (k' = k)) as [->|Hne].
    + split; [done | intros [? _]; done].
    + rewrite IH. split; [intros ?; split; [congruence | done] | intros [_ ?]; done].
Qed.

Lemma del_set_absent d k v :
  PyDict.get d k = None -> PyDict.del (PyDict.set d k v) k = d.
Proof.
  induction d as [|[k' v'] d IH]; simpl.
  - intros _. by rewrite decide_True.
  - destruct (decide (k' = k)) as [->|Hne]; [done|].
    intros Hd. simpl. rewrite decide_False by done. by rewrite IH.
Qed.

Lemma get_del_eq d k : PyDict.wf d -> PyDict.get (PyDict.del d k) k = None.
Proof.
  unfold PyDict.wf, PyDict.keys.
  induction d as [|[k' v'] d IH]; simpl; [done|].
  intros [Hk Hd]%NoDup_cons.
  destruct (decide (k' = k)) as [->|Hne].
  - by apply get_None_keys.
  - simpl. rewrite decide_False by done. by apply IH.
Qed.

Lemma get_del_ne d k k' : k <> k' -> PyDict.get (PyDict.del d k) k' = PyDict.get d k'.
Proof.
  intros Hne. induction d as [|[k0 v0] d IH]; simpl; [done|].
  destruct (decide (k0 = k)) as [->|Hne0].
  - by rewrite decide_False.
  - simpl. by rewrite IH.
Qed.

Lemma length_del_present d k :
  is_Some (PyDict.get d k) -> S (length (PyDict.del d k)) = length d.
Proof.
  induction d as [|[k0 v0] d IH]; simpl.
  - by intros [? ?].
  - destruct (decide (k0 = k)) as [->|Hne0]; [done|].
    intros H. simpl. by rewrite IH.
Qed.

Lemma set_split_present d k v v0 :
  PyDict.get d k = Some v0 ->
  exists d1 d2, d = d1 ++ (k, v0) :: d2 /\ PyDict.set d k v = d1 ++ (k, v) :: d2.
Proof.
  induction d as [|[k' v'] d IH]; simpl; [done|].
  destruct (decide (k' = k)) as [->|Hne].
  - intros [= ->]. by exists [], d.
  - intros Hd. destruct (IH Hd) as (d1 & d2 & -> & ->).
    by exists ((k', v') :: d1), d2.
Qed.

Lemma set_absent d k v :
  PyDict.get d k = None -> PyDict.set d k v = d ++ [(k, v)].
Proof.
  induction d as [|[k' v'] d IH]; simpl; [done|].
  destruct (decide (k' = k)) as [->|Hne]; [done|].
  intros Hd. by rewrite IH.
Qed.

End PyDict_more_facts.

(** ** The layout of the events *)

Module LayoutFacts.
Import ScheduleBuilder Columns Events Layout ColumnsFacts EventsFacts.

Lemma unplaced_set_column c e : unplaced (ScheduleEvent.set_column c e) = unplaced e.
Proof. done. Qed.

Lemma unplaced_set_total n e : unplaced (ScheduleEvent.set_total_columns n e) = unplaced e.
Proof. done. Qed.

Lemma place_unplaced columns event :
  unplaced (place columns event).2 = unplaced event.
Proof. unfold place. by destruct (first_free _ _ _). Qed.

Lemma place_all_unplaced events :
  forall columns, unplaced <$> (place_all columns events).2 = unplaced <$> events.
Proof.
  induction events as [|e events IH]; intros columns; simpl; [done|].
  pose proof (place_unplaced columns e) as He.
  destruct (place columns e) as [columns1 e1].
  specialize (IH columns1).
  destruct (place_all columns1 events) as [columns2 events2]. cbn [snd] in *.
  rewrite !fmap_cons. by rewrite He, IH.
Qed.

Lemma assign_columns_unplaced events :
  unplaced <$> _assign_columns events ≡ₚ unplaced <$> events.
Proof.
  rewrite assign_columns_unfold, <- list_fmap_compose.
  erewrite list_fmap_ext; [|intros i x _; apply unplaced_set_total].
  rewrite place_all_unplaced. by rewrite sorted_perm.
Qed.

(** Columns in range *)
Lemma place_column_lt columns event :
  (0 <= column_of (place columns event).2 < Z.of_nat (length (place columns event).1)).
Proof.
  unfold place.
  destruct (first_free 0 columns (start_of event)) as [k|] eqn:Hff; simpl.
  - apply first_free_Some in Hff as (x & _ & Hx & _).
    rewrite Nat.sub_0_r in Hx. apply lookup_lt_Some in Hx.
    rewrite length_insert. lia.
  - rewrite length_app. simpl. lia.
Qed.

Lemma place_all_column_lt events :
  forall columns,
    Forall (fun e => 0 <= column_of e < Z.of_nat (length (place_all columns events).1))
           (place_all columns events).2.
Proof.
  induction events as [|e events IH]; intros columns; simpl; [constructor|].
  pose proof (place_column_lt columns e) as He.
  destruct (place columns e) as [columns1 e1].
  specialize (IH columns1).
  pose proof (place_all_columns events columns1) as [Hlen _].
  destruct (place_all columns1 events) as [columns2 events2]. simpl in *.
  constructor; [lia | done].
Qed.

Lemma first_free_lowest i columns start :
  match first_free i columns start with
  | Some k => forall j x, (j < k - i)%nat -> columns !! j = Some x -> start < x
  | None => forall j x, columns !! j = Some x -> start < x
  end.
Proof.
  revert i. induction columns as [|c columns IH]; intros i; simpl; [done|].
  destruct (start >=? c) eqn:Hc.
  - intros j x Hj. lia.
  - specialize (IH (S i)). destruct (first_free (S i) columns start) as [k|] eqn:Hff.
    + intros [|j] x Hj; simpl.
      * intros [= <-]. lia.
      * apply IH. apply first_free_Some in Hff as (_ & Hle & _). lia.
    + intros [|j] x; simpl; [intros [= <-]; lia | apply IH].
Qed.

Lemma place_occupied columns placed event :
  occupied columns placed ->
  occupied (place columns event).1 ((place columns event).2 :: placed)
  /\ forall k, 0 <= k < column_of (place columns event).2 ->
       exists p, p ∈ placed /\ column_of p = k /\ start_of event < end_of p.
Proof.
  intros Hocc. pose proof (first_free_lowest 0 columns (start_of event)) as Hlow.
  unfold place.
  destruct (first_free 0 columns (start_of event)) as [i|] eqn:Hff; simpl.
  - apply first_free_Some in Hff as (x0 & _ & Hx0 & _). rewrite Nat.sub_0_r in Hx0.
    split.
    + intros k x Hk. destruct (decide (i = k)) as [<-|Hne].
      * rewrite list_lookup_insert_eq in Hk by (by eapply lookup_lt_Some).
        injection Hk as <-. eexists. split; [left|]. done.
      * rewrite list_lookup_insert_ne in Hk by done.
        destruct (Hocc k x Hk) as (p & Hp & Hpc & Hpe).
        exists p. split; [by right | done].
    + intros k Hk.
      assert (Z.to_nat k < i)%nat as Hlt by lia.
      destruct (lookup_lt_is_Some_2 columns (Z.to_nat k)) as [x Hx].
      { apply lookup_lt_Some in Hx0. lia. }
      destruct (Hocc _ x Hx) as (p & Hp & Hpc & Hpe).
      exists p. split; [done|]. split; [lia|].
      rewrite Hpe. eapply Hlow; [|exact Hx]. lia.
  - split.
    + intros k x Hk. apply lookup_app_Some in Hk as [Hk|[Hlen Hk]].
      * destruct (Hocc k x Hk) as (p & Hp & Hpc & Hpe).
        exists p. split; [by right | done].
      * destruct (k - length columns)%nat as [|n] eqn:Hn; simpl in Hk; [|done].
        injection Hk as <-. eexists. split; [left|]. simpl.
        split; [|done]. f_equal. lia.
    + intros k Hk.
      destruct (lookup_lt_is_Some_2 columns (Z.to_nat k)) as [x Hx]; [lia|].
      destruct (Hocc _ x Hx) as (p & Hp & Hpc & Hpe).
      exists p. split; [done|]. split; [lia|].
      rewrite Hpe. eapply Hlow. exact Hx.
Qed.

Lemma place_all_lowest events :
  forall columns placed,
    occupied columns placed ->
    Forall (fun e => forall p, p ∈ placed -> start_of p <= start_of e) events ->
    StronglySorted start_le events ->
    forall e k, e ∈ (place_all columns events).2 -> 0 <= k < column_of e ->
      exists p, (p ∈ placed \/ p ∈ (place_all columns events).2)
                /\ column_of p = k /\ under_way_at_start p e.
Proof.
  induction events as [|e0 events IH]; intros columns placed Hocc Hlo Hsorted e k;
    simpl.
  - intros He. by apply elem_of_nil in He.
  - pose proof (place_occupied columns placed e0 Hocc) as [Hocc1 Hlow].
    pose proof (place_fields columns e0) as (Hs1 & He1 & _).
    destruct (place columns e0) as [columns1 e1]. simpl in *.
    apply Forall_cons in Hlo as [Hlo0 Hlo].
    apply StronglySorted_inv in Hsorted as [Hsorted Hhd].
    specialize (IH columns1 (e1 :: placed) Hocc1).
    destruct (place_all columns1 events) as [columns2 events2]. simpl in *.
    intros [->|He]%elem_of_cons Hk.
    + destruct (Hlow k Hk) as (p & Hp & Hpc & Hpe).
      exists p. split; [by left|]. split; [done|].
      split; [rewrite Hs1; by apply Hlo0 | by rewrite Hs1].
    + destruct (IH) with (e := e) (k := k) as (p & Hp & Hpc & Hpu); try done.
      * apply Forall_forall. intros x Hx p [->|Hp]%elem_of_cons.
        -- rewrite Hs1. rewrite Forall_forall in Hhd. by apply Hhd.
        -- rewrite Forall_forall in Hlo. by apply Hlo.
      * exists p. split; [|done].
        destruct Hp as [[->|Hp]%elem_of_cons|Hp];
          [right; left | by left | right; by right].
Qed.

Lemma code_to_name_DAY_ORDER code name :
  name ∈ parsing.code_to_name code -> name ∈ parsing.DAY_ORDER.
Proof.
  unfold parsing.code_to_name.
  destruct (PyDict.get parsing.DAY_CODES code) as [n|] eqn:Hget.
  - intros ->%list_elem_of_singleton.
    apply get_Some_elem_of in Hget.
    unfold parsing.DAY_CODES in Hget.
    repeat (apply elem_of_cons in Hget as [[= _ ->]|Hget];
            [unfold parsing.DAY_ORDER; set_solver|]).
    by apply elem_of_nil in Hget.
  - repeat (case_match; [intros ->%list_elem_of_singleton;
                          unfold parsing.DAY_ORDER; set_solver|]).
    intros Hnil. by apply elem_of_nil in Hnil.
Qed.

Lemma full_names_DAY_ORDER days_str name :
  name ∈ parsing.parse_days_to_full_names days_str -> name ∈ parsing.DAY_ORDER.
Proof.
  unfold parsing.parse_days_to_full_names.
  intros (code & _ & Hname)%list_elem_of_In%in_flat_map.
  apply list_elem_of_In in Hname. by eapply code_to_name_DAY_ORDER.
Qed.

Lemma meeting_to_events_fresh course color events m events' :
  meeting_to_events course color events m = Ok events' ->
  Forall (fresh_event course color) events ->
  Forall (fresh_event course color) events'.
Proof.
  unfold meeting_to_events.
  destruct (negb (PyStr.truthy (Meeting.days m))
            || String.eqb (PyStr.upper (Meeting.days m)) "TBA"); [by intros [= <-]|].
  intros H Hev. inv_bind H. inv_bind H.
  destruct ((v =? 0) && (v0 =? 0)); injection H as <-; [done|].
  apply Forall_app. split; [done|].
  unfold meeting_events. apply Forall_fmap, Forall_forall.
  intros d Hd. repeat split; simpl.
  by eapply full_names_DAY_ORDER.
Qed.

Lemma course_to_events_fresh course color events :
  _course_to_events course color = Ok events ->
  Forall (fresh_event course color) events.
Proof.
  unfold _course_to_events. intros H.
  eapply (foldM_invariant (Forall (fresh_event course color))); [| |exact H].
  - intros acc m acc' _ Hacc Hstep. by eapply meeting_to_events_fresh.
  - constructor.
Qed.

Lemma unplaced_fresh course color e : fresh_event course color e -> unplaced e = e.
Proof. intros (_ & _ & Hc & Ht & _). destruct e. simpl in *. by subst. Qed.

Lemma unplaced_fresh_list course color events :
  Forall (fresh_event course color) events -> unplaced <$> events = events.
Proof.
  induction 1 as [|e events He _ IH]; [done|].
  rewrite fmap_cons, IH. f_equal. by eapply unplaced_fresh.
Qed.

Lemma group_by_day_snoc all e :
  group_by_day (all ++ [e])
  = PyDict.set (group_by_day all) (day_of e)
      (default [] (PyDict.get (group_by_day all) (day_of e)) ++ [e]).
Proof. unfold group_by_day. by rewrite fold_left_app. Qed.

Lemma group_by_day_get all d :
  PyDict.get (group_by_day all) d
  = match on_day d all with [] => None | l => Some l end.
Proof.
  unfold on_day. induction all as [|e all IH] using rev_ind; [done|].
  rewrite group_by_day_snoc, filter_app.
  destruct (decide (day_of e = d)) as [<-|Hne].
  - rewrite get_set_eq, IH. rewrite (filter_cons_True _ e []) by done.
    rewrite filter_nil.
    by destruct (filter _ all).
  - rewrite get_set_ne, IH by done. rewrite (filter_cons_False _ e []) by done.
    by rewrite filter_nil, app_nil_r.
Qed.

Lemma day_layout_on_day all d : day_layout all d = _assign_columns (on_day d all).
Proof.
  unfold day_layout. rewrite group_by_day_get. by destruct (on_day d all).
Qed.

Lemma on_days_split (days : list string) d (l : list ScheduleEvent.t) :
  d ∉ days ->
  filter (fun e => day_of e ∈ d :: days) l
  ≡ₚ on_day d l ++ filter (fun e => day_of e ∈ days) l.
Proof.
  intros Hd. unfold on_day. induction l as [|e l IH]; [done|].
  destruct (decide (day_of e = d)) as [He|He].
  - rewrite (filter_cons_True (fun e => day_of e ∈ d :: days)) by (rewrite He; left).
    rewrite (filter_cons_True (fun e => day_of e = d)) by done.
    rewrite (filter_cons_False (fun e => day_of e ∈ days)) by (by rewrite He).
    simpl. by rewrite IH.
  - rewrite (filter_cons_False (fun e => day_of e = d)) by done.
    destruct (decide (day_of e ∈ days)) as [Hin|Hin].
    + rewrite (filter_cons_True (fun e => day_of e ∈ d :: days)) by (by right).
      rewrite (filter_cons_True (fun e => day_of e ∈ days)) by done.
      rewrite IH. by rewrite Permutation_middle.
    + rewrite (filter_cons_False (fun e => day_of e ∈ d :: days))
        by (by intros [?|?]%elem_of_cons).
      by rewrite (filter_cons_False (fun e => day_of e ∈ days)) by done.
Qed.

Lemma flat_map_on_day (days : list string) (l : list ScheduleEvent.t) :
  NoDup days ->
  flat_map (fun d => on_day d l) days ≡ₚ filter (fun e => day_of e ∈ days) l.
Proof.
  induction 1 as [|d days Hd _ IH]; simpl.
  - induction l as [|e l IHl]; [done|].
    by rewrite filter_cons_False by apply not_elem_of_nil.
  - by rewrite on_days_split, IH.
Qed.

Lemma layout_unplaced all :
  Forall (fun e => day_of e ∈ parsing.DAY_ORDER) all ->
  unplaced <$> flat_map (day_layout all) parsing.DAY_ORDER ≡ₚ unplaced <$> all.
Proof.
  intros Hdays. rewrite fmap_flat_map.
  rewrite (flat_map_perm _ (fun d => on_day d (unplaced <$> all))).
  - rewrite flat_map_on_day by apply DAY_ORDER_NoDup.
    rewrite filter_all; [done|]. apply Forall_fmap.
    eapply Forall_impl; [exact Hdays | done].
  - intros d. rewrite day_layout_on_day, assign_columns_unplaced.
    unfold on_day. clear Hdays. induction all as [|e all IH]; [done|].
    rewrite fmap_cons.
    destruct (decide (day_of e = d)) as [He|He].
    + rewrite !filter_cons_True by done. rewrite fmap_cons. by rewrite IH.
    + by rewrite !filter_cons_False by done.
Qed.

(** The loop that hands out the colours. *)
Lemma assign_colors_get (keys : list string) course_colors self :
  NoDup keys ->
  let '(course_colors', self') :=
    fold_left (fun '(course_colors, self) course_id =>
                 let '(color, self) := _get_next_color self in
                 (PyDict.set course_colors course_id color, self))
              keys (course_colors, self) in
  (forall k, k ∉ keys -> PyDict.get course_colors' k = PyDict.get course_colors k)
  /\ (forall i k, keys !! i = Some k ->
        PyDict.get course_colors' k = Some (color_at self i)).
Proof.
  revert course_colors self.
  induction keys as [|key keys IH]; intros course_colors self Hnd; simpl.
  - split; [done|]. intros i k Hi. done.
  - apply NoDup_cons in Hnd as [Hkey Hnd].
    specialize (IH (PyDict.set course_colors key
                      (nth (Z.to_nat (_color_index self mod Z.of_nat (length COLORS)))
                           COLORS ""))
                   (mk (courses self) (_color_index self + 1)) Hnd).
    destruct (fold_left _ keys _) as [course_colors' self'].
    destruct IH as [Hout Hin]. split.
    + intros k [Hne Hk]%not_elem_of_cons. rewrite Hout by done.
      by rewrite get_set_ne.
    + intros [|i] k Hi; simpl in Hi.
      * injection Hi as <-. rewrite Hout by done. rewrite get_set_eq.
        unfold color_at. by rewrite Z.add_0_r.
      * rewrite (Hin i k Hi). unfold color_at. cbn [_color_index].
        by replace (_color_index self + 1 + Z.of_nat i)
          with (_color_index self + Z.of_nat (S i)) by lia.
Qed.

Lemma get_events_unfold self events self' :
  get_events self = (Ok events, self') ->
  self' = mk (courses self) 0
  /\ exists all_events,
      foldM (fun all_events course =>
               events ← colored_events (assign_colors self).1 course;
               Ok (all_events ++ events))
            [] (PyDict.values (courses self)) = Ok all_events
      /\ events = flat_map (day_layout all_events) parsing.DAY_ORDER.
Proof.
  rewrite (foldM_ext _
             (fun all_events course =>
                color ← of_option KeyError
                          (PyDict.get (assign_colors self).1 (Course.id course));
                events ← _course_to_events course color;
                Ok (all_events ++ events)));
    [|intros acc x; unfold colored_events;
      by destruct (of_option _ _)].
  unfold get_events.
  pose proof (EventsReturn.assign_colors_from (PyDict.keys (courses self)) [] self)
    as Hcolors.
  unfold assign_colors.
  destruct (fold_left _ (PyDict.keys (courses self)) _) as [course_colors self1].
  destruct Hcolors as [Hcourses _]. simpl. rewrite Hcourses.
  destruct (foldM _ _ _) as [all_events|]; [|done].
  intros [= <- <-]. split; [done|]. by exists all_events.
Qed.

Section tabulate.
Context {V : Type}.
Implicit Types (f g : string -> V) (keys : list string).

Lemma get_tabulate keys f d :
  d ∈ keys -> PyDict.get ((fun d => (d, f d)) <$> keys) d = Some (f d).
Proof.
  induction keys as [|k keys IH]; [by intros ?%elem_of_nil|].
  rewrite fmap_cons. simpl. destruct (decide (k = d)) as [->|Hne]; [done|].
  intros [?|Hd]%elem_of_cons; [congruence | by apply IH].
Qed.

Lemma tabulate_ext keys f g :
  (forall d, d ∈ keys -> f d = g d) ->
  (fun d => (d, f d)) <$> keys = (fun d => (d, g d)) <$> keys.
Proof.
  intros Hfg. apply list_fmap_ext. intros i d Hd. f_equal.
  apply Hfg. by eapply list_elem_of_lookup_2.
Qed.

Lemma set_tabulate keys f d v :
  NoDup keys -> d ∈ keys ->
  PyDict.set ((fun d => (d, f d)) <$> keys) d v
  = (fun d' => (d', if decide (d' = d) then v else f d')) <$> keys.
Proof.
  induction 1 as [|k keys Hk Hnd IH]; [by intros ?%elem_of_nil|].
  rewrite !fmap_cons. simpl. destruct (decide (k = d)) as [->|Hne].
  - intros _. f_equal. apply tabulate_ext. intros d' Hd'.
    rewrite decide_False; [done|]. by intros ->.
  - intros [?|Hd]%elem_of_cons; [congruence|]. by rewrite IH.
Qed.

End tabulate.

Lemma on_day_app d l1 l2 : on_day d (l1 ++ l2) = on_day d l1 ++ on_day d l2.
Proof. apply filter_app. Qed.

Lemma on_day_same d l : Forall (fun e => day_of e = d) l -> on_day d l = l.
Proof. apply filter_all. Qed.

Lemma on_day_other d d' l :
  d <> d' -> Forall (fun e => day_of e = d') l -> on_day d l = [].
Proof.
  intros Hne. induction 1 as [|e l He _ IH]; [done|].
  unfold on_day in *. rewrite filter_cons_False by congruence. done.
Qed.

Lemma on_day_flat_map (g : string -> list ScheduleEvent.t) days d :
  NoDup days -> (forall d, Forall (fun e => day_of e = d) (g d)) ->
  on_day d (flat_map g days) = if decide (d ∈ days) then g d else [].
Proof.
  intros Hnd Hg. induction Hnd as [|d' days Hd' _ IH]; cbn [flat_map].
  - by destruct (decide (d ∈ [])) as [?%elem_of_nil|].
  - rewrite on_day_app, IH. destruct (decide (d = d')) as [->|Hne].
    + rewrite on_day_same by done. rewrite decide_False by done.
      rewrite decide_True by left. by rewrite app_nil_r.
    + rewrite (on_day_other d d') by done. cbn [app].
      destruct (decide (d ∈ days)) as [Hin|Hin].
      * by rewrite decide_True by (by right).
      * rewrite decide_False; [done|]. by intros [?|?]%elem_of_cons.
Qed.

Lemma by_day_loop events :
  forall seen,
    Forall (fun e => day_of e ∈ parsing.DAY_ORDER) events ->
    foldM (fun by_day event =>
             bucket ← of_option KeyError (PyDict.get by_day (day_of event));
             Ok (PyDict.set by_day (day_of event) (bucket ++ [event])))
          ((fun day => (day, on_day day seen)) <$> parsing.DAY_ORDER) events
    = Ok ((fun day => (day, on_day day (seen ++ events))) <$> parsing.DAY_ORDER).
Proof.
  induction events as [|e events IH]; intros seen Hdays.
  - simpl. by rewrite app_nil_r.
  - apply Forall_cons in Hdays as [He Hdays].
    cbn [foldM]. rewrite get_tabulate by done.
    change (of_option KeyError (Some ?x) ≫= ?f) with (f x). cbv beta.
    change (Ok ?x ≫= ?f) with (f x). cbv beta.
    rewrite set_tabulate by (done || apply DAY_ORDER_NoDup).
    rewrite (tabulate_ext _ _ (fun day => on_day day (seen ++ [e]))).
    + rewrite IH by done. by rewrite <- app_assoc.
    + intros d Hd. rewrite on_day_app.
      destruct (decide (d = day_of e)) as [->|Hne].
      * f_equal. unfold on_day. by rewrite filter_cons_True.
      * unfold on_day. rewrite (filter_cons_False _ e []) by congruence.
        by rewrite filter_nil, app_nil_r.
Qed.

Lemma layout_days all :
  Forall (fun e => day_of e ∈ parsing.DAY_ORDER)
         (flat_map (day_layout all) parsing.DAY_ORDER).
Proof.
  apply Forall_forall. intros e (d & Hd & He)%list_elem_of_In%in_flat_map.
  apply list_elem_of_In in Hd, He.
  pose proof (day_layout_day all d) as Hall. rewrite Forall_forall in Hall.
  by rewrite (Hall e He).
Qed.

End LayoutFacts.

(** ** Overlaps *)

Module OverlapFacts.
Import ScheduleBuilder Overlap ConflictScan ConflictScanFacts MeetingEventsFacts.

Lemma timed_events course color events e :
  timed course -> _course_to_events course color = Ok events -> e ∈ events ->
  ScheduleEvent.start_minutes e < ScheduleEvent.end_minutes e.
Proof.
  intros Htimed Hev He.
  destruct (course_to_events_spec _ _ _ Hev e He) as (m & Hm & Hem).
  destruct Hem as (_ & _ & Hs & Hend & Hnz & _).
  destruct (Htimed m _ _ Hm Hs Hend) as [?|?]; [done | tauto].
Qed.

Lemma conflict_between_proper a b c :
  timed a -> timed b -> conflict_between a b c -> proper c.
Proof.
  intros Ha Hb (events1 & events2 & H1 & H2 & Hc).
  apply event_conflicts_elem in Hc as (e1 & e2 & He1 & He2 & Hov & ->).
  apply overlaps_true in Hov as (Hday & Hs1 & Hs2).
  pose proof (timed_events _ _ _ _ Ha H1 He1).
  pose proof (timed_events _ _ _ _ Hb H2 He2).
  unfold proper, ScheduleConflict.overlap_duration, ScheduleEvent.duration_minutes.
  simpl. repeat split; try done; lia.
Qed.

(** Mirrors *)
Lemma overlaps_sym e1 e2 : ScheduleEvent.overlaps e1 e2 = ScheduleEvent.overlaps e2 e1.
Proof.
  unfold ScheduleEvent.overlaps.
  rewrite (String.eqb_sym (ScheduleEvent.day e2)).
  destruct (String.eqb _ _); simpl; [apply andb_comm | done].
Qed.

Lemma mirror_conflict e1 e2 :
  mirror <$> (if ScheduleEvent.overlaps e1 e2 then [make_conflict e1 e2] else [])
  = if ScheduleEvent.overlaps e2 e1 then [make_conflict e2 e1] else [].
Proof.
  rewrite (overlaps_sym e2 e1).
  destruct (ScheduleEvent.overlaps e1 e2) eqn:Hov; [|done].
  apply overlaps_true in Hov as (Hday & _).
  unfold mirror, make_conflict. simpl. by rewrite Hday, Z.max_comm, Z.min_comm.
Qed.

Lemma event_conflicts_mirror events1 events2 :
  mirror <$> event_conflicts events1 events2 ≡ₚ event_conflicts events2 events1.
Proof.
  unfold event_conflicts. rewrite fmap_flat_map.
  erewrite (flat_map_ext_in _ _ events1).
  2:{ intros e1 _. rewrite fmap_flat_map. apply flat_map_ext_in.
      intros e2 _. apply mirror_conflict. }
  apply (flat_map_swap
           (fun e1 e2 => if ScheduleEvent.overlaps e2 e1 then [make_conflict e2 e1] else [])).
Qed.

Lemma among_snoc events new_events :
  among (events ++ [new_events])
  ≡ₚ among events ++ (mirror <$> flat_map (event_conflicts new_events) events).
Proof.
  induction events as [|events1 rest IH]; simpl; [done|].
  rewrite IH, flat_map_app, fmap_app. simpl. rewrite app_nil_r.
  rewrite event_conflicts_mirror.
  rewrite <- !app_assoc. apply Permutation_app_head.
  rewrite !app_assoc. apply Permutation_app_tail, Permutation_app_comm.
Qed.

(** The loops on courses whose events are known *)
Lemma conflicts_against_Ok (g : list ScheduleEvent.t -> list ScheduleConflict.t)
    rest events acc :
  Forall2 (fun course ev => _course_to_events course "temp" = Ok ev) rest events ->
  foldM (fun conflicts course2 =>
           events2 ← _course_to_events course2 "temp";
           Ok (conflicts ++ g events2))
        acc rest = Ok (acc ++ flat_map g events).
Proof.
  intros H. revert acc. induction H as [|c ev rest events Hc _ IH]; intros acc; simpl.
  - by rewrite app_nil_r.
  - rewrite Hc. simpl. rewrite IH. by rewrite <- app_assoc.
Qed.

Lemma all_conflicts_from_Ok course_list events :
  Forall2 (fun course ev => _course_to_events course "temp" = Ok ev) course_list events ->
  all_conflicts_from course_list = Ok (among events).
Proof.
  induction 1 as [|c ev rest events Hc Hrest IH]; simpl; [done|].
  rewrite Hc. simpl.
  rewrite (conflicts_against_Ok (event_conflicts ev) rest events []) by done.
  simpl. by rewrite IH.
Qed.

Lemma all_conflicts_from_parsed course_list conflicts :
  all_conflicts_from course_list = Ok conflicts ->
  exists events,
    Forall2 (fun course ev => _course_to_events course "temp" = Ok ev) course_list events.
Proof.
  revert conflicts. induction course_list as [|c rest IH]; intros conflicts H; simpl in H.
  - by exists [].
  - inv_bind H. inv_bind H. inv_bind H.
    destruct (IH _ Hv1) as [events Hevents].
    exists (v :: events). by constructor.
Qed.

End OverlapFacts.

(** ** The schedule *)

Section schedule_properties.
Import ScheduleBuilder.

(** X1. Adding a course whose id the schedule does not hold and then removing
    that id gives back the schedule as it was: [get_course] finds the course
    in between, and [remove_course] answers [True]. *)
Theorem add_then_remove_course_restores self course conflicts self' :
  get_course self (Course.id course) = None ->
  add_course self course = (Ok conflicts, self') ->
  get_course self' (Course.id course) = Some course
  /\ remove_course self' (Course.id course) = (true, self).
Proof.
  unfold add_course, get_course, remove_course. intros Hnew Hadd.
  destruct (_detect_conflicts_with self course); [|done].
  injection Hadd as _ <-. simpl. split; [apply get_set_eq|].
  unfold PyDict.mem. rewrite get_set_eq. rewrite del_set_absent by done.
  by destruct self.
Qed.

(** X2. On a schedule with one course per id, [remove_course] answers [True]
    exactly when [get_course] finds the id; afterwards the id is not found,
    every other id is found as before, and the number of courses went down by
    one when the answer is [True] and is unchanged otherwise. *)
Theorem remove_course_forgets_one_course self course_id :
  ScheduleInvariant.one_course_per_id self ->
  ((remove_course self course_id).1 = true <-> is_Some (get_course self course_id))
  /\ get_course (remove_course self course_id).2 course_id = None
  /\ (forall other, other <> course_id ->
        get_course (remove_course self course_id).2 other = get_course self other)
  /\ course_count (remove_course self course_id).2
     = course_count self - (if (remove_course self course_id).1 then 1 else 0).
Proof.
  intros Hinv%ScheduleInvariantFacts.to_wf.
  unfold remove_course, get_course, course_count, PyDict.mem.
  destruct (PyDict.get (courses self) course_id) as [c|] eqn:Hget; simpl.
  - split; [by split; eauto|]. split; [by apply get_del_eq|].
    split; [intros other Hne; by apply get_del_ne|].
    rewrite <- (length_del_present (courses self) course_id) by (rewrite Hget; eauto). lia.
  - split; [split; [done | by intros [? ?]]|]. split; [done|]. split; [done|]. lia.
Qed.

Lemma total_credits_app (d1 d2 : list (string * Course.t)) i :
  total_credits (mk (d1 ++ d2) i) = total_credits (mk d1 i) + total_credits (mk d2 i).
Proof.
  unfold total_credits, PyDict.values. cbn [courses].
  rewrite !fmap_app.
  generalize (Course.credits <$> d1.*2) (Course.credits <$> d2.*2).
  intros l1 l2. induction l1 as [|x l1 IH]; simpl; lia.
Qed.

(** X3. When [add_course] returns, the total of the credits grows by the
    credits of the course less the credits of the course it replaces, if it
    replaces one; the number of courses grows by one only for a new id. *)
Theorem add_course_updates_totals self course conflicts self' :
  add_course self course = (Ok conflicts, self') ->
  total_credits self'
  = total_credits self + Course.credits course
    - match get_course self (Course.id course) with
      | Some old => Course.credits old
      | None => 0
      end
  /\ course_count self'
     = course_count self
       + (match get_course self (Course.id course) with Some _ => 0 | None => 1 end).
Proof.
  unfold add_course, get_course. intros Hadd.
  destruct (_detect_conflicts_with self course); [|done].
  injection Hadd as _ <-.
  destruct self as [d i]. simpl.
  destruct (PyDict.get d (Course.id course)) as [old|] eqn:Hget.
  - destruct (set_split_present d _ course old Hget) as (d1 & d2 & -> & ->).
    split.
    + rewrite !total_credits_app.
      change ((Course.id course, course) :: d2) with ([(Course.id course, course)] ++ d2).
      change ((Course.id course, old) :: d2) with ([(Course.id course, old)] ++ d2).
      rewrite !total_credits_app. unfold total_credits. simpl. lia.
    + unfold course_count. simpl. rewrite !length_app. simpl. lia.
  - rewrite set_absent by done. split.
    + rewrite total_credits_app. unfold total_credits. simpl. lia.
    + unfold course_count. simpl. rewrite length_app. simpl. lia.
Qed.

(** X4. Every event laid out by [_assign_columns] sits in a column between
    0 and its [total_columns], the latter excluded. *)
Theorem assign_columns_column_in_range events e :
  e ∈ _assign_columns events ->
  0 <= ScheduleEvent.column e < ScheduleEvent.total_columns e.
Proof.
  rewrite ColumnsFacts.assign_columns_unfold. unfold Columns.columns_opened.
  intros (e' & -> & He)%list_elem_of_fmap. simpl.
  pose proof (LayoutFacts.place_all_column_lt (PyList.sorted key_ltb events) []) as Hall.
  rewrite Forall_forall in Hall. specialize (Hall e' He).
  destruct ((place_all [] (PyList.sorted key_ltb events)).1); simpl in *; lia.
Qed.

(** X5. [_assign_columns] gives every event the lowest free column: each
    column below the column of an event holds an event of the same layout
    that is under way when that event starts. *)
Theorem assign_columns_takes_lowest_free_column events e k :
  e ∈ _assign_columns events ->
  0 <= k < ScheduleEvent.column e ->
  exists p, p ∈ _assign_columns events
            /\ ScheduleEvent.column p = k
            /\ Layout.under_way_at_start p e.
Proof.
  rewrite ColumnsFacts.assign_columns_unfold.
  intros (e' & -> & He)%list_elem_of_fmap Hk. simpl in Hk.
  assert (Layout.occupied [] []) as Hocc by (intros j x Hj; done).
  assert (Forall (fun e => forall p, p ∈ [] -> Columns.start_of p <= Columns.start_of e)
                 (PyList.sorted key_ltb events)) as Hlo.
  { apply Forall_forall. intros x _ p Hp. by apply elem_of_nil in Hp. }
  destruct (LayoutFacts.place_all_lowest (PyList.sorted key_ltb events) [] []
              Hocc Hlo (ColumnsFacts.sorted_by_start events) e' k He Hk)
    as (p & Hp & Hpc & Hpu).
  - destruct Hp as [Hp|Hp]; [by apply elem_of_nil in Hp|].
    exists (ScheduleEvent.set_total_columns
              (total_cols (Columns.columns_opened events)) p).
    split; [by apply list_elem_of_fmap_2 | done].
Qed.

(** X6. Whether it returns or raises, [get_events] leaves the courses of
    the schedule as they are and the colour index at 0. *)
Theorem get_events_keeps_courses_and_resets_colors self :
  (get_events self).2 = mk (courses self) 0.
Proof.
  unfold get_events.
  pose proof (EventsReturn.assign_colors_from (PyDict.keys (courses self)) [] self)
    as Hcolors.
  unfold assign_colors.
  destruct (fold_left _ (PyDict.keys (courses self)) _) as [course_colors self1].
  destruct Hcolors as [Hcourses _]. simpl. rewrite Hcourses.
  by destruct (foldM _ _ _).
Qed.

(** X7. [get_events] neither drops nor repeats an event: up to the order,
    the column and the number of columns, the events it returns are the
    events of the courses of the schedule, each course taken once. *)
Theorem get_events_returns_every_event_once self events self' :
  get_events self = (Ok events, self') ->
  exists parts,
    Forall2 (fun course part =>
               exists color, _course_to_events course color = Ok part)
            (PyDict.values (courses self)) parts
    /\ Layout.unplaced <$> events ≡ₚ concat parts.
Proof.
  intros (_ & all_events & Hall & ->)%LayoutFacts.get_events_unfold.
  apply foldM_app_Ok in Hall as (parts & Hparts & ->).
  change ([] ++ concat parts) with (concat parts).
  exists parts. split.
  - eapply Forall2_impl; [exact Hparts|]. intros course part H.
    unfold Layout.colored_events in H. inv_bind H. by exists v.
  - assert (Forall (fun e => exists course color, Layout.fresh_event course color e)
                   (concat parts)) as Hfresh.
    { apply Forall_concat. eapply Forall2_Forall_r; [exact Hparts|].
      apply Forall_forall. intros course _ part H.
      unfold Layout.colored_events in H. inv_bind H.
      apply LayoutFacts.course_to_events_fresh in H.
      eapply Forall_impl; [exact H|]. intros e He. by exists course, v. }
    rewrite LayoutFacts.layout_unplaced.
    + clear Hparts. induction Hfresh as [|e l (course & color & He) _ IH]; [done|].
      rewrite fmap_cons, IH. by erewrite LayoutFacts.unplaced_fresh.
    + eapply Forall_impl; [exact Hfresh|]. intros e (course & color & He). apply He.
Qed.

(** X8. When [get_events] returns, [get_events_by_day] returns as well (no
    event has a day outside [DAY_ORDER]): the dictionary has the seven days
    in order, the events of [get_events] that fall on a day under that day,
    and the buckets put one after the other are the list of [get_events]. *)
Theorem get_events_by_day_splits_get_events self events self' :
  get_events self = (Ok events, self') ->
  get_events_by_day self
  = (Ok ((fun day => (day, Layout.on_day day events)) <$> parsing.DAY_ORDER), self')
  /\ flat_map (fun day => Layout.on_day day events) parsing.DAY_ORDER = events.
Proof.
  intros Hget. unfold get_events_by_day. rewrite Hget.
  apply EventsFacts.get_events_layout in Hget as [all ->].
  split.
  - f_equal.
    change (fold_left _ parsing.DAY_ORDER [])
      with ((fun day => (day, Layout.on_day day [])) <$> parsing.DAY_ORDER).
    cbn [mbind result_bind].
    apply (LayoutFacts.by_day_loop _ []), LayoutFacts.layout_days.
  - rewrite (flat_map_ext_in _ (Events.day_layout all)); [done|].
    intros d Hd.
    rewrite LayoutFacts.on_day_flat_map
      by (apply EventsFacts.DAY_ORDER_NoDup || apply EventsFacts.day_layout_day).
    by rewrite decide_True.
Qed.

(** X9. On a schedule with one course per id, every event returned by
    [get_events] has the colour of the position of its course in the
    schedule: the palette entry at the colour index plus the position,
    modulo the length of the palette. *)
Theorem get_events_colors_courses_by_position self events self' e :
  ScheduleInvariant.one_course_per_id self ->
  get_events self = (Ok events, self') ->
  e ∈ events ->
  exists i, PyDict.keys (courses self) !! i = Some (ScheduleEvent.course_id e)
            /\ ScheduleEvent.color e = Some (Layout.color_at self i).
Proof.
  intros Hinv (_ & all_events & Hall & ->)%LayoutFacts.get_events_unfold He.
  pose proof (ScheduleInvariantFacts.to_wf _ Hinv) as Hwf.
  destruct Hinv as [Hkeyed _].
  apply foldM_app_Ok in Hall as (parts & Hparts & ->).
  change ([] ++ concat parts) with (concat parts) in He.
  assert (Forall (fun p => exists i course color,
                      PyDict.values (courses self) !! i = Some course
                      /\ PyDict.get (assign_colors self).1 (Course.id course) = Some color
                      /\ Forall (Layout.fresh_event course color) p) parts) as Hfresh.
  { apply Forall_forall. intros part Hpart.
    apply list_elem_of_lookup in Hpart as [i Hi].
    destruct (Forall2_lookup_r _ _ _ _ _ Hparts Hi) as (course & Hcourse & Hev).
    unfold Layout.colored_events in Hev.
    destruct (PyDict.get _ _) as [color|] eqn:Hcolor; [|done]. simpl in Hev.
    exists i, course, color. split; [done|]. split; [done|].
    by apply LayoutFacts.course_to_events_fresh. }
  assert (Forall (fun e => ScheduleEvent.day e ∈ parsing.DAY_ORDER) (concat parts))
    as Hdays.
  { apply Forall_concat. eapply Forall_impl; [exact Hfresh|].
    intros part (i & course & color & _ & _ & Hp).
    eapply Forall_impl; [exact Hp|]. intros x Hx. apply Hx. }
  assert (Layout.unplaced <$> concat parts = concat parts) as Hsame.
  { clear -Hfresh. induction Hfresh as [|p parts (i & c & col & _ & _ & Hp) _ IH]; [done|].
    simpl. rewrite fmap_app, IH. f_equal.
    by eapply LayoutFacts.unplaced_fresh_list. }
  apply (list_elem_of_fmap_2 Layout.unplaced) in He.
  rewrite LayoutFacts.layout_unplaced, Hsame in He by done.
  apply elem_of_concat in He as (part & He & Hpart).
  rewrite Forall_forall in Hfresh.
  destruct (Hfresh part Hpart) as (i & course & color & Hi & Hcolor & Hp).
  rewrite Forall_forall in Hp. destruct (Hp _ He) as (Hid & Hcol & _).
  change (ScheduleEvent.course_id e = Course.id course) in Hid.
  change (ScheduleEvent.color e = Some color) in Hcol.
  exists i.
  assert (PyDict.keys (courses self) !! i = Some (Course.id course)) as Hkey.
  { rewrite <- (ScheduleInvariantFacts.keyed_keys _ Hkeyed).
    by rewrite list_lookup_fmap, Hi. }
  split; [by rewrite Hid|]. rewrite Hcol. f_equal.
  pose proof (LayoutFacts.assign_colors_get (PyDict.keys (courses self)) [] self Hwf)
    as Hassign.
  unfold assign_colors in Hcolor.
  destruct (fold_left _ (PyDict.keys (courses self)) _) as [course_colors self1].
  destruct Hassign as [_ Hin]. simpl in Hcolor.
  rewrite (Hin i _ Hkey) in Hcolor. by injection Hcolor as <-.
Qed.

(** X10. When every meeting of the schedule is untimed or ends after it
    starts, every conflict of [get_all_conflicts] is on the day of both its
    events, runs from the later start to the earlier end, and lasts more
    than zero minutes and no longer than either event. *)
Theorem get_all_conflicts_overlaps_are_proper self conflicts c :
  (forall course, course ∈ PyDict.values (courses self) -> Overlap.timed course) ->
  get_all_conflicts self = Ok conflicts ->
  c ∈ conflicts ->
  Overlap.proper c.
Proof.
  intros Htimed Hall Hc.
  destruct (ConflictScanFacts.all_conflicts_from_elem _ _ Hall c Hc)
    as (a & b & Hord & Hab).
  apply ConflictScanFacts.ordered_pair_elem_of in Hord as [Ha Hb].
  eapply OverlapFacts.conflict_between_proper; [| |exact Hab]; by apply Htimed.
Qed.

(** X11. Adding a course with a new id adds to the conflicts of the schedule
    exactly the conflicts that [add_course] returns, seen from the other
    course: [get_all_conflicts] after the addition is, up to the order, what
    it was before followed by the mirrored returned conflicts. *)
Theorem add_course_conflicts_join_all_conflicts self course added self' before :
  get_course self (Course.id course) = None ->
  add_course self course = (Ok added, self') ->
  get_all_conflicts self = Ok before ->
  exists after,
    get_all_conflicts self' = Ok after
    /\ after ≡ₚ before ++ (Overlap.mirror <$> added).
Proof.
  unfold get_course, add_course, get_all_conflicts. intros Hnew Hadd Hbefore.
  destruct (_detect_conflicts_with self course) as [added'|] eqn:Hdetect; [|done].
  injection Hadd as -> <-. cbn [courses].
  rewrite set_absent by done.
  unfold PyDict.values in *. rewrite fmap_app. cbn [fmap list_fmap snd].
  destruct (OverlapFacts.all_conflicts_from_parsed _ _ Hbefore) as [events Hevents].
  rewrite (OverlapFacts.all_conflicts_from_Ok _ _ Hevents) in Hbefore.
  injection Hbefore as <-.
  unfold _detect_conflicts_with in Hdetect. inv_bind Hdetect.
  unfold PyDict.values in Hdetect.
  rewrite (OverlapFacts.conflicts_against_Ok (event_conflicts v) _ events []) in Hdetect
    by done.
  injection Hdetect as <-.
  exists (Overlap.among (events ++ [v])). split.
  - apply OverlapFacts.all_conflicts_from_Ok. by apply Forall2_snoc.
  - apply OverlapFacts.among_snoc.
Qed.

End schedule_properties.

(** *** The schedule properties on the small catalogue *)

Lemma add_then_remove_course_restores_witness :
  ScheduleBuilder.get_course schedule_with_mwf "CS112-A1" = Some Demo.mwf_1000
  /\ ScheduleBuilder.remove_course schedule_with_mwf "CS112-A1"
     = (true, Demo.schedule).
Proof.
  apply (add_then_remove_course_restores Demo.schedule Demo.mwf_1000 []).
  - vm_compute. reflexivity.
  - vm_compute. reflexivity.
Defined.

Lemma remove_course_forgets_one_course_witness :
  ((ScheduleBuilder.remove_course Demo.schedule "MA225-A1").1 = true
   <-> is_Some (ScheduleBuilder.get_course Demo.schedule "MA225-A1"))
  /\ ScheduleBuilder.get_course
       (ScheduleBuilder.remove_course Demo.schedule "MA225-A1").2 "MA225-A1" = None
  /\ ScheduleBuilder.get_course
       (ScheduleBuilder.remove_course Demo.schedule "MA225-A1").2 "CS111-A1"
     = ScheduleBuilder.get_course Demo.schedule "CS111-A1"
  /\ ScheduleBuilder.course_count
       (ScheduleBuilder.remove_course Demo.schedule "MA225-A1").2
     = ScheduleBuilder.course_count Demo.schedule
       - (if (ScheduleBuilder.remove_course Demo.schedule "MA225-A1").1
          then 1 else 0).
Proof.
  destruct (remove_course_forgets_one_course Demo.schedule "MA225-A1"
              demo_schedule_ok) as (Hanswer & Hgone & Hother & Hcount).
  split; [exact Hanswer|]. split; [exact Hgone|]. split; [|exact Hcount].
  apply Hother. discriminate.
Defined.

Lemma add_course_updates_totals_witness :
  ScheduleBuilder.total_credits schedule_with_mwf
  = ScheduleBuilder.total_credits Demo.schedule + Course.credits Demo.mwf_1000
    - match ScheduleBuilder.get_course Demo.schedule (Course.id Demo.mwf_1000) with
      | Some old => Course.credits old
      | None => 0
      end
  /\ ScheduleBuilder.course_count schedule_with_mwf
     = ScheduleBuilder.course_count Demo.schedule
       + match ScheduleBuilder.get_course Demo.schedule (Course.id Demo.mwf_1000) with
         | Some _ => 0
         | None => 1
         end.
Proof.
  apply (add_course_updates_totals Demo.schedule Demo.mwf_1000 []).
  vm_compute. reflexivity.
Defined.

Lemma assign_columns_column_in_range_witness :
  0 <= ScheduleEvent.column
         (ScheduleEvent.set_total_columns 2 (ScheduleEvent.set_column 1 Demo.monday_1230))
    < ScheduleEvent.total_columns
        (ScheduleEvent.set_total_columns 2 (ScheduleEvent.set_column 1 Demo.monday_1230)).
Proof.
  apply (assign_columns_column_in_range Demo.monday_events).
  vm_compute. right. left.
Defined.

Lemma assign_columns_takes_lowest_free_column_witness :
  exists p,
    p ∈ ScheduleBuilder._assign_columns Demo.monday_events
    /\ ScheduleEvent.column p = 0
    /\ Layout.under_way_at_start p
         (ScheduleEvent.set_total_columns 2 (ScheduleEvent.set_column 1 Demo.monday_1230)).
Proof.
  apply (assign_columns_takes_lowest_free_column Demo.monday_events).
  - vm_compute. right. left.
  - vm_compute. split; [discriminate | reflexivity].
Defined.

Lemma get_events_returns_every_event_once_witness :
  exists parts,
    Forall2 (fun course part =>
               exists color, ScheduleBuilder._course_to_events course color = Ok part)
            (PyDict.values (ScheduleBuilder.courses Demo.schedule)) parts
    /\ Layout.unplaced <$> Demo.schedule_events ≡ₚ concat parts.
Proof.
  apply (get_events_returns_every_event_once Demo.schedule Demo.schedule_events
           Demo.schedule).
  vm_compute. reflexivity.
Defined.

Lemma get_events_by_day_splits_get_events_witness :
  ScheduleBuilder.get_events_by_day Demo.schedule
  = (Ok ((fun day => (day, Layout.on_day day Demo.schedule_events))
           <$> parsing.DAY_ORDER), Demo.schedule)
  /\ flat_map (fun day => Layout.on_day day Demo.schedule_events) parsing.DAY_ORDER
     = Demo.schedule_events.
Proof.
  apply (get_events_by_day_splits_get_events Demo.schedule Demo.schedule_events
           Demo.schedule).
  vm_compute. reflexivity.
Defined.

Lemma get_events_colors_courses_by_position_witness :
  exists i,
    PyDict.keys (ScheduleBuilder.courses Demo.schedule) !! i
    = Some (ScheduleEvent.course_id (List.hd empty_event Demo.schedule_events))
    /\ ScheduleEvent.color (List.hd empty_event Demo.schedule_events)
       = Some (Layout.color_at Demo.schedule i).
Proof.
  apply (get_events_colors_courses_by_position Demo.schedule Demo.schedule_events
           Demo.schedule).
  - exact demo_schedule_ok.
  - vm_compute. reflexivity.
  - vm_compute. left.
Defined.

Lemma demo_schedule_timed course :
  course ∈ PyDict.values (ScheduleBuilder.courses Demo.schedule) ->
  Overlap.timed course.
Proof.
  intros Hcourse. vm_compute in Hcourse.
  repeat (apply elem_of_cons in Hcourse as [->|Hcourse];
          [intros m s e ->%list_elem_of_singleton Hs He;
           vm_compute in Hs, He; injection Hs as <-; injection He as <-;
           left; reflexivity|]).
  by apply elem_of_nil in Hcourse.
Qed.

Lemma get_all_conflicts_overlaps_are_proper_witness :
  Overlap.proper (first_conflict Demo.schedule_conflicts).
Proof.
  apply (get_all_conflicts_overlaps_are_proper Demo.schedule Demo.schedule_conflicts).
  - exact demo_schedule_timed.
  - vm_compute. reflexivity.
  - vm_compute. left.
Defined.

Lemma add_course_conflicts_join_all_conflicts_witness :
  exists after,
    ScheduleBuilder.get_all_conflicts
      (ScheduleBuilder.add_course monday_tuth_schedule Demo.ma225).2 = Ok after
    /\ after ≡ₚ [] ++ (Overlap.mirror <$> monday_tuth_added).
Proof.
  apply (add_course_conflicts_join_all_conflicts monday_tuth_schedule Demo.ma225).
  - vm_compute. reflexivity.
  - vm_compute. reflexivity.
  - vm_compute. reflexivity.
Defined.

(** ** Times and days *)

Module ClockFacts.
Import parsing Clock.

Lemma reads_true time_str minutes :
  reads time_str minutes = true <-> parse_time_to_minutes time_str = Ok minutes.
Proof.
  unfold reads. destruct (parse_time_to_minutes time_str) as [v|e].
  - rewrite Z.eqb_eq. split; [by intros -> | by intros [= ->]].
  - split; discriminate.
Qed.

Lemma all_times_spec f lo_h n_h lo_m n_m h m :
  all_times f (seqZ lo_h n_h) (seqZ lo_m n_m) = true ->
  lo_h <= h < lo_h + n_h -> lo_m <= m < lo_m + n_m -> f h m = true.
Proof.
  unfold all_times. rewrite forallb_forall. intros Hall Hh Hm.
  specialize (Hall h). rewrite forallb_forall in Hall. apply Hall.
  - apply list_elem_of_In, elem_of_seqZ. lia.
  - apply list_elem_of_In, elem_of_seqZ. lia.
Qed.

Lemma all_24 : all_times reads_24 (seqZ 0 24) (seqZ 0 60) = true.
Proof. vm_compute. reflexivity. Qed.

Lemma all_12 : all_times reads_12 (seqZ 1 12) (seqZ 0 60) = true.
Proof. vm_compute. reflexivity. Qed.

End ClockFacts.

Module DayCodesFacts.
Import parsing Clock.

Lemma two_letter_codes_known codes result days_upper :
  Forall (fun c => c ∈ day_codes) codes ->
  Forall (fun c => c ∈ day_codes) result ->
  Forall (fun c => c ∈ day_codes) (two_letter_codes codes result days_upper).1.
Proof.
  intros Hcodes. revert result days_upper.
  induction Hcodes as [|code codes Hcode _ IH]; intros result days_upper Hres; simpl;
    [done|].
  destruct (PyStr.contains code days_upper); apply IH; [|done].
  apply Forall_app. split; [done | by constructor].
Qed.

Lemma single_letter_codes_known result days_upper :
  Forall (fun c => c ∈ day_codes) result ->
  Forall (fun c => c ∈ day_codes) (single_letter_codes result days_upper).
Proof.
  revert result. induction days_upper as [|char rest IH]; intros result Hres; simpl;
    [done|].
  apply IH.
  repeat (case_match; [apply Forall_app; split; [done|]; constructor; [|done];
                       unfold day_codes; set_solver|]).
  done.
Qed.

Lemma codes_known days_str :
  Forall (fun c => c ∈ day_codes) (parse_days_to_codes days_str).
Proof.
  unfold parse_days_to_codes.
  pose proof (two_letter_codes_known ["TU"; "TH"; "SA"; "SU"; "MO"; "WE"; "FR"] []
                (PyStr.upper days_str)) as Htwo.
  destruct (two_letter_codes _ [] (PyStr.upper days_str)) as [result days_upper].
  apply single_letter_codes_known, Htwo; [|constructor].
  unfold day_codes. repeat (constructor; [set_solver|]). constructor.
Qed.

Lemma known_code_one_name code :
  code ∈ day_codes -> length (code_to_name code) = 1%nat.
Proof.
  unfold day_codes. intros Hcode.
  repeat (apply elem_of_cons in Hcode as [->|Hcode]; [reflexivity|]).
  by apply elem_of_nil in Hcode.
Qed.

Lemma flat_map_length_one {A B} (f : A -> list B) l :
  Forall (fun x => length (f x) = 1%nat) l -> length (flat_map f l) = length l.
Proof.
  induction 1 as [|x l Hx _ IH]; simpl; [done|]. by rewrite length_app, Hx, IH.
Qed.

End DayCodesFacts.

Module NoColon.
Import parsing TimeParsing TimeParsingFacts.











End NoColon.

Section time_properties.
Import parsing Clock.

(** X12. Whatever the day string, [parse_days_to_codes] returns only codes
    among TU, TH, SA, SU, MO, WE, FR, M, W and F, and
    [parse_days_to_full_names] turns each of them into one day name of
    [DAY_ORDER]: no code is dropped and no other name appears. *)
Theorem parse_days_names_every_code days_str :
  (forall code, code ∈ parse_days_to_codes days_str -> code ∈ day_codes)
  /\ length (parse_days_to_full_names days_str)
     = length (parse_days_to_codes days_str)
  /\ (forall name, name ∈ parse_days_to_full_names days_str -> name ∈ DAY_ORDER).
Proof.
  pose proof (DayCodesFacts.codes_known days_str) as Hknown.
  split; [|split].
  - by apply Forall_forall.
  - unfold parse_days_to_full_names. apply DayCodesFacts.flat_map_length_one.
    eapply Forall_impl; [exact Hknown|]. apply DayCodesFacts.known_code_one_name.
  - intros name. apply LayoutFacts.full_names_DAY_ORDER.
Qed.

(** X13. [parse_time_to_minutes] reads every time of the 24-hour clock: for
    an hour below 24 and a minute below 60 it returns 60 times the hour plus
    the minute on "H:MM", on "HH:MM" and on the four digits "HHMM", and 60
    times the hour on the hour alone. *)
Theorem parse_time_reads_the_24_hour_clock h m :
  0 <= h < 24 -> 0 <= m < 60 ->
  parse_time_to_minutes (decimal h +:+ ":" +:+ two_digits m) = Ok (h * 60 + m)
  /\ parse_time_to_minutes (two_digits h +:+ ":" +:+ two_digits m) = Ok (h * 60 + m)
  /\ parse_time_to_minutes (two_digits h +:+ two_digits m) = Ok (h * 60 + m)
  /\ parse_time_to_minutes (decimal h) = Ok (h * 60).
Proof.
  intros Hh Hm.
  pose proof (ClockFacts.all_times_spec _ 0 24 0 60 h m ClockFacts.all_24) as H.
  unfold reads_24 in H. rewrite !andb_true_iff, !ClockFacts.reads_true in H.
  destruct H as [[[? ?] ?] ?]; [lia | lia | done].
Qed.

(** X14. [parse_time_to_minutes] reads every time of the 12-hour clock: with
    AM the hour 12 counts as 0, with PM every hour but 12 counts 12 more;
    the mark may be in lower case and may follow the minutes directly. *)
Theorem parse_time_reads_the_12_hour_clock h m :
  1 <= h <= 12 -> 0 <= m < 60 ->
  parse_time_to_minutes (decimal h +:+ ":" +:+ two_digits m +:+ " AM")
  = Ok (h mod 12 * 60 + m)
  /\ parse_time_to_minutes (decimal h +:+ ":" +:+ two_digits m +:+ " PM")
     = Ok ((h mod 12 + 12) * 60 + m)
  /\ parse_time_to_minutes (decimal h +:+ ":" +:+ two_digits m +:+ "am")
     = Ok (h mod 12 * 60 + m)
  /\ parse_time_to_minutes (decimal h +:+ ":" +:+ two_digits m +:+ "pm")
     = Ok ((h mod 12 + 12) * 60 + m).
Proof.
  intros Hh Hm.
  pose proof (ClockFacts.all_times_spec _ 1 12 0 60 h m ClockFacts.all_12) as H.
  unfold reads_12 in H. rewrite !andb_true_iff, !ClockFacts.reads_true in H.
  destruct H as [[[? ?] ?] ?]; [lia | lia | done].
Qed.

(** X15. [parse_time_to_hours_minutes] returns the minutes of
    [parse_time_to_minutes] split at 60: the minute is between 0 and 59 and
    the pair gives back the minutes; on the times of the 24-hour clock and on
    AM and PM times it returns the hour in 24-hour format and the minute. *)
Theorem parse_time_to_hours_minutes_splits_the_minutes :
  (forall time_str hour minute,
      parse_time_to_hours_minutes time_str = Ok (hour, minute) ->
      0 <= minute < 60
      /\ parse_time_to_minutes time_str = Ok (hour * 60 + minute))
  /\ (forall h m,
         0 <= h < 24 -> 0 <= m < 60 ->
         parse_time_to_hours_minutes (decimal h +:+ ":" +:+ two_digits m) = Ok (h, m))
  /\ (forall h m,
         1 <= h <= 12 -> 0 <= m < 60 ->
         parse_time_to_hours_minutes (decimal h +:+ ":" +:+ two_digits m +:+ " AM")
         = Ok (h mod 12, m)
         /\ parse_time_to_hours_minutes (decimal h +:+ ":" +:+ two_digits m +:+ " PM")
            = Ok (h mod 12 + 12, m)).
Proof.
  unfold parse_time_to_hours_minutes. split; [|split].
  - intros time_str hour minute H. inv_bind H. injection H as <- <-.
    split; [by apply Z.mod_pos_bound|]. rewrite Hv. f_equal.
    rewrite (Z.div_mod v 60) at 1 by lia. lia.
  - intros h m Hh Hm.
    destruct (parse_time_reads_the_24_hour_clock h m Hh Hm) as [-> _]. simpl.
    f_equal. f_equal.
    + rewrite Z.div_add_l by lia. rewrite Z.div_small by lia. lia.
    + rewrite Z.add_comm, Z.mod_add by lia. by apply Z.mod_small.
  - intros h m Hh Hm.
    destruct (parse_time_reads_the_12_hour_clock h m Hh Hm) as (-> & -> & _). simpl.
    pose proof (Z.mod_pos_bound h 12 ltac:(lia)).
    split; f_equal; f_equal.
    + rewrite Z.div_add_l by lia. rewrite Z.div_small by lia. lia.
    + rewrite Z.add_comm, Z.mod_add by lia. by apply Z.mod_small.
    + rewrite Z.div_add_l by lia. rewrite Z.div_small by lia. lia.
    + rewrite Z.add_comm, Z.mod_add by lia. by apply Z.mod_small.
Qed.


End time_properties.

(** *** The properties of the parsers on sample strings *)

Lemma parse_days_names_every_code_witness :
  "WE" ∈ Clock.day_codes
  /\ length (parsing.parse_days_to_full_names "MoWeFr")
     = length (parsing.parse_days_to_codes "MoWeFr")
  /\ "Wednesday" ∈ parsing.DAY_ORDER.
Proof.
  destruct (parse_days_names_every_code "MoWeFr") as (Hcodes & Hlength & Hnames).
  split; [|split; [exact Hlength|]].
  - apply Hcodes. vm_compute. right. left.
  - apply Hnames. vm_compute. right. left.
Defined.

Lemma parse_time_reads_the_24_hour_clock_witness :
  parsing.parse_time_to_minutes "9:05" = Ok 545
  /\ parsing.parse_time_to_minutes "09:05" = Ok 545
  /\ parsing.parse_time_to_minutes "0905" = Ok 545
  /\ parsing.parse_time_to_minutes "9" = Ok 540.
Proof. apply (parse_time_reads_the_24_hour_clock 9 5); lia. Defined.

Lemma parse_time_reads_the_12_hour_clock_witness :
  parsing.parse_time_to_minutes "12:30 AM" = Ok 30
  /\ parsing.parse_time_to_minutes "12:30 PM" = Ok 750
  /\ parsing.parse_time_to_minutes "12:30am" = Ok 30
  /\ parsing.parse_time_to_minutes "12:30pm" = Ok 750.
Proof. apply (parse_time_reads_the_12_hour_clock 12 30); lia. Defined.

Lemma parse_time_to_hours_minutes_splits_the_minutes_witness :
  (0 <= 30 < 60 /\ parsing.parse_time_to_minutes "1430" = Ok (14 * 60 + 30))
  /\ parsing.parse_time_to_hours_minutes "14:30" = Ok (14, 30)
  /\ parsing.parse_time_to_hours_minutes "9:30 AM" = Ok (9, 30)
  /\ parsing.parse_time_to_hours_minutes "2:30 PM" = Ok (14, 30).
Proof.
  destruct parse_time_to_hours_minutes_splits_the_minutes as (Hsplit & H24 & H12).
  split; [|split; [|split]].
  - apply (Hsplit "1430" 14 30). vm_compute. reflexivity.
  - apply (H24 14 30); lia.
  - apply (H12 9 30); lia.
  - apply (H12 2 30); lia.
Defined.


(** ** The bitmap index *)

Module FieldsFacts.
Import BitmapIndex Bitmaps BitmapsFacts Fields.
Implicit Types (indices : gmap string (gmap string (gset Z))).

Lemma posting_add_to field value i indices f v :
  posting (add_to field value i indices) f v
  = posting indices f v ∪ (if decide (field = f /\ value = v) then {[i]} else ∅).
Proof.
  unfold posting, add_to.
  destruct (decide (field = f)) as [<-|Hf].
  - rewrite lookup_insert_eq. simpl.
    destruct (decide (value = v)) as [<-|Hv].
    + rewrite lookup_insert_eq. simpl. by rewrite decide_True.
    + rewrite lookup_insert_ne by done. rewrite decide_False by tauto. set_solver.
  - rewrite lookup_insert_ne by done. rewrite decide_False by tauto. set_solver.
Qed.

Lemma posting_fold_add_to field i (values : list string) indices f v :
  posting (fold_left (fun indices value => add_to field value i indices) values indices)
          f v
  = posting indices f v ∪ (if decide (field = f /\ v ∈ values) then {[i]} else ∅).
Proof.
  revert indices. induction values as [|v0 values IH]; intros indices; simpl.
  - rewrite decide_False; [set_solver|]. intros [_ ?%elem_of_nil]. done.
  - rewrite IH, posting_add_to.
    destruct (decide (field = f /\ v0 = v)) as [[-> ->]|Hne].
    + rewrite (decide_True (P := f = f /\ v ∈ v :: values)) by (split; [done | left]).
      case_decide; set_solver.
    + destruct (decide (field = f /\ v ∈ values)) as [[-> Hin]|Hnin].
      * rewrite decide_True by (split; [done | by right]). set_solver.
      * rewrite decide_False; [set_solver|].
        intros [-> [->|?]%elem_of_cons]; tauto.
Qed.

Lemma elem_of_if_singleton (P : Prop) `{Decision P} (i x : Z) :
  x ∈ (if decide P then ({[i]} : gset Z) else ∅) <-> P /\ x = i.
Proof. case_decide; set_solver. Qed.

Lemma posting_index_course indices i course f v :
  posting (index_course indices (i, course)) f v
  = posting indices f v ∪ (if decide (v ∈ field_values f course) then {[i]} else ∅).
Proof.
  unfold index_course. rewrite posting_fold_add_to.
  assert (forall indices',
    posting (if PyStr.truthy (Course.status course)
             then add_to "status" (Course.status course) i indices'
             else indices') f v
    = posting indices' f v
      ∪ (if decide ("status" = f /\ PyStr.truthy (Course.status course) = true
                    /\ Course.status course = v) then {[i]} else ∅)) as Hstatus.
  { intros indices'. destruct (PyStr.truthy (Course.status course)).
    - rewrite posting_add_to. apply set_eq. intros x.
      rewrite !elem_of_union, !elem_of_if_singleton. tauto.
    - rewrite decide_False; [set_solver|]. intros (_ & ? & _). done. }
  rewrite Hstatus, !posting_add_to. apply set_eq. intros x.
  rewrite !elem_of_union, !elem_of_if_singleton.
  unfold field_values.
  destruct (String.eqb_spec f "subject") as [->|Hs].
  { rewrite list_elem_of_singleton. intuition (try discriminate; congruence). }
  destruct (String.eqb_spec f "term") as [->|Ht].
  { rewrite list_elem_of_singleton. intuition (try discriminate; congruence). }
  destruct (String.eqb_spec f "college") as [->|Hc].
  { rewrite list_elem_of_singleton. intuition (try discriminate; congruence). }
  destruct (String.eqb_spec f "status") as [->|Hst].
  { destruct (PyStr.truthy (Course.status course)).
    - rewrite list_elem_of_singleton. intuition (try discriminate; congruence).
    - rewrite elem_of_nil. intuition (try discriminate; congruence). }
  destruct (String.eqb_spec f "hub") as [->|Hh].
  { intuition (try discriminate; congruence). }
  rewrite elem_of_nil. intuition (try discriminate; congruence).
Qed.

Lemma posting_fold_index_course (l : list (Z * Course.t)) indices f v i :
  i ∈ posting (fold_left index_course l indices) f v
  <-> i ∈ posting indices f v
      \/ exists course, (i, course) ∈ l /\ v ∈ field_values f course.
Proof.
  revert indices. induction l as [|[j c] l IH]; intros indices; cbn [fold_left].
  - split; [by left | intros [?|(c & ?%elem_of_nil & _)]; done].
  - rewrite IH, posting_index_course. split.
    + intros [[Hi|Hi]%elem_of_union|(c' & Hc' & Hv)].
      * by left.
      * case_decide; [|set_solver]. apply elem_of_singleton in Hi as ->.
        right. exists c. split; [left | done].
      * right. exists c'. split; [by right | done].
    + intros [Hi|(c' & [[= -> ->]|Hc']%elem_of_cons & Hv)].
      * left. set_solver.
      * left. rewrite decide_True by done. set_solver.
      * right. by exists c'.
Qed.

Lemma elem_of_enumerate {A} (l : list A) i (x : A) :
  (i, x) ∈ PyList.enumerate l <-> exists n : nat, i = Z.of_nat n /\ l !! n = Some x.
Proof.
  unfold PyList.enumerate. rewrite list_elem_of_lookup. split.
  - intros (n & Hn). apply lookup_zip_with_Some in Hn as (i' & x' & [= <- <-] & Hi & Hx).
    rewrite list_lookup_fmap in Hi.
    destruct (seq 0 (length l) !! n) as [m|] eqn:Hm; [|done].
    apply lookup_seq in Hm as [-> _]. injection Hi as <-. by exists n.
  - intros (n & -> & Hx). exists n. apply lookup_zip_with_Some.
    exists (Z.of_nat n), x. split; [done|]. split; [|done].
    rewrite list_lookup_fmap, lookup_seq_lt; [done|]. by eapply lookup_lt_Some.
Qed.

Lemma posting_empty_indices f v : posting empty_indices f v = ∅.
Proof.
  unfold posting. destruct (empty_indices !! f) as [m|] eqn:Hf; [|done].
  unfold empty_indices in Hf. simpl.
  repeat (apply lookup_insert_Some in Hf as [[_ <-]|[_ Hf]];
          [by rewrite lookup_empty|]).
  by rewrite lookup_empty in Hf.
Qed.

Lemma posting_build courses f v i :
  i ∈ posting (indices (build courses)) f v <-> carries courses f v i.
Proof.
  unfold build. cbn [indices]. rewrite posting_fold_index_course, posting_empty_indices.
  unfold carries. split.
  - intros [?%elem_of_empty|(c & (n & -> & Hn)%elem_of_enumerate & Hv)]; [done|].
    by exists n, c.
  - intros (n & c & -> & Hn & Hv). right. exists c. split; [|done].
    apply elem_of_enumerate. by exists n.
Qed.

(** [build] knows the five fields and no other. *)
Lemma add_to_dom field value i indices :
  dom (add_to field value i indices) = {[field]} ∪ dom indices.
Proof. unfold add_to. by rewrite dom_insert_L. Qed.

Lemma index_course_dom indices ic :
  fields ⊆ elements (dom indices) -> dom (index_course indices ic) = dom indices.
Proof.
  intros Hsub. destruct ic as [i course]. unfold index_course.
  assert (forall f, f ∈ fields -> f ∈ dom indices) as Hin.
  { intros f Hf. apply elem_of_elements. by apply Hsub. }
  assert (forall (values : list string) indices',
            dom indices' = dom indices ->
            dom (fold_left (fun indices value => add_to "hub" value i indices)
                           values indices') = dom indices) as Hfold.
  { induction values as [|v values IH]; intros indices' Hd; simpl; [done|].
    apply IH. rewrite add_to_dom, Hd.
    assert ("hub" ∈ dom indices) by (apply Hin; unfold fields; set_solver).
    set_solver. }
  apply Hfold.
  assert ("subject" ∈ dom indices) by (apply Hin; unfold fields; set_solver).
  assert ("term" ∈ dom indices) by (apply Hin; unfold fields; set_solver).
  assert ("college" ∈ dom indices) by (apply Hin; unfold fields; set_solver).
  assert ("status" ∈ dom indices) by (apply Hin; unfold fields; set_solver).
  destruct (PyStr.truthy (Course.status course)); rewrite !add_to_dom; set_solver.
Qed.

Lemma build_dom courses :
  dom (indices (build courses)) = list_to_set fields.
Proof.
  unfold build. cbn [indices].
  assert (dom empty_indices = list_to_set fields) as H0.
  { unfold empty_indices, fields. rewrite !dom_insert_L, dom_empty_L. set_solver. }
  revert H0. generalize empty_indices as indices.
  generalize (PyList.enumerate courses) as l.
  induction l as [|ic l IH]; intros indices H0; simpl; [done|].
  apply IH. rewrite index_course_dom; [done|].
  intros f Hf. apply elem_of_elements. rewrite H0. by apply elem_of_list_to_set.
Qed.

Lemma build_field courses f :
  is_Some (indices (build courses) !! f) <-> f ∈ fields.
Proof.
  rewrite <- elem_of_dom, build_dom. apply elem_of_list_to_set.
Qed.

Lemma carries_field courses f v i : carries courses f v i -> f ∈ fields.
Proof.
  intros (n & c & _ & _ & Hv). unfold field_values in Hv. unfold fields.
  destruct (String.eqb_spec f "subject") as [->|?]; [set_solver|].
  destruct (String.eqb_spec f "term") as [->|?]; [set_solver|].
  destruct (String.eqb_spec f "college") as [->|?]; [set_solver|].
  destruct (String.eqb_spec f "status") as [->|?]; [set_solver|].
  destruct (String.eqb_spec f "hub") as [->|?]; [set_solver|].
  by apply elem_of_nil in Hv.
Qed.

(** What a lookup in the built index gives. *)
Lemma build_lookup courses f v i :
  (exists index bitmap,
      indices (build courses) !! f = Some index
      /\ index !! v = Some bitmap /\ i ∈ bitmap)
  <-> carries courses f v i.
Proof.
  rewrite <- posting_build. unfold posting. split.
  - intros (index & bitmap & -> & Hv & Hi). simpl. by rewrite Hv.
  - intros Hi.
    destruct (indices (build courses) !! f) as [index|]; simpl in Hi; [|set_solver].
    destruct (index !! v) as [bitmap|] eqn:Hv; simpl in Hi; [|set_solver].
    by exists index, bitmap.
Qed.

Lemma field_matches_elem_of (index : gmap string (gset Z)) values i :
  i ∈ field_matches index values
  <-> exists v, v ∈ values /\ i ∈ default ∅ (index !! v).
Proof.
  induction values as [|v values IH].
  - unfold field_matches. simpl. split; [set_solver | intros (v & ?%elem_of_nil & _); done].
  - rewrite field_matches_cons, elem_of_union, IH. split.
    + intros [Hi|(v' & Hv' & Hi)]; [exists v; split; [left | done]|].
      exists v'. split; [by right | done].
    + intros (v' & [->|Hv']%elem_of_cons & Hi); [by left|]. right. by exists v'.
Qed.

Lemma filter_step_build courses result fv i :
  i ∈ filter_step (build courses) result fv
  <-> i ∈ result /\ (constrains courses fv -> satisfies courses fv i).
Proof.
  destruct fv as [field values]. unfold filter_step, constrains, satisfies.
  cbn [fst snd].
  destruct (indices (build courses) !! field) as [index|] eqn:Hindex.
  - assert (forall j, j ∈ field_matches index (to_list values)
                      <-> exists value, value ∈ to_list values
                                        /\ carries courses field value j) as Hm.
    { intros j. rewrite field_matches_elem_of.
      split; intros (v & Hv & Hj); exists v; (split; [done|]).
      - apply posting_build. unfold posting. by rewrite Hindex.
      - apply posting_build in Hj. unfold posting in Hj. by rewrite Hindex in Hj. }
    destruct (falsy values); [split; [intros ?; split; [done | by intros [? _]] | tauto]|].
    case_bool_decide as Hempty.
    + split; [|tauto]. intros Hi. split; [done|].
      intros (_ & j & Hj). apply Hm in Hj. set_solver.
    + rewrite elem_of_intersection, Hm. split; [tauto|].
      intros [Hi Hsat]. split; [done|]. apply Hsat. split; [done|].
      apply set_choose_L in Hempty as [j Hj]. exists j. by apply Hm.
  - split; [|tauto]. intros Hi. split; [done|].
    intros (_ & j & v & _ & Hj%carries_field).
    apply (build_field courses) in Hj. rewrite Hindex in Hj. by destruct Hj.
Qed.

Lemma fold_filter_step_build courses filters result i :
  i ∈ fold_left (filter_step (build courses)) filters result
  <-> i ∈ result
      /\ forall fv, fv ∈ filters -> constrains courses fv -> satisfies courses fv i.
Proof.
  revert result. induction filters as [|fv filters IH]; intros result; simpl.
  - split; [intros ?; split; [done | by intros ? ?%elem_of_nil] | tauto].
  - rewrite IH, filter_step_build. split.
    + intros [[Hi Hfv] Hrest]. split; [done|].
      intros fv' [->|Hfv']%elem_of_cons; [done | by apply Hrest].
    + intros [Hi Hall]. split; [split; [done|]|].
      * apply Hall. left.
      * intros fv' Hfv'. apply Hall. by right.
Qed.

(** The steps of [filter] commute. *)
Lemma filter_step_comm self fv1 fv2 (result : gset Z) :
  filter_step self (filter_step self result fv1) fv2
  = filter_step self (filter_step self result fv2) fv1.
Proof.
  destruct fv1 as [f1 v1], fv2 as [f2 v2]. unfold filter_step.
  destruct (indices self !! f1), (indices self !! f2); try done.
  destruct (falsy v1), (falsy v2); try done.
  repeat case_bool_decide; set_solver.
Qed.

Lemma fold_filter_step_perm self filters filters' (result : gset Z) :
  filters ≡ₚ filters' ->
  fold_left (filter_step self) filters result
  = fold_left (filter_step self) filters' result.
Proof.
  intros Hperm. revert result.
  induction Hperm as [|fv l l' _ IH|fv1 fv2 l|l l' l'' _ IH1 _ IH2]; intros result; simpl.
  - done.
  - apply IH.
  - by rewrite filter_step_comm.
  - by rewrite IH1.
Qed.

Lemma filter_build courses filters :
  exists result,
    filter (build courses) filters = Ok result
    /\ forall i,
        i ∈ result
        <-> 0 <= i < Z.of_nat (length courses)
            /\ forall fv, fv ∈ filters ->
                 constrains courses fv -> satisfies courses fv i.
Proof.
  eexists. split; [by apply filter_Some|].
  intros i. rewrite fold_filter_step_build.
  rewrite elem_of_list_to_set, list_elem_of_fmap.
  split; intros [Hi Hall]; (split; [|done]).
  - destruct Hi as (n & -> & Hn%elem_of_seq). lia.
  - exists (Z.to_nat i). split; [lia|]. apply elem_of_seq. lia.
Qed.

End FieldsFacts.

Module StringOrderFacts.
Import StringOrder.

Lemma ascii_compare_N a b :
  Ascii.compare a b = N.compare (N_of_ascii a) (N_of_ascii b).
Proof. reflexivity. Qed.

Lemma ascii_compare_Eq a b : Ascii.compare a b = Eq <-> a = b.
Proof.
  split; [apply Ascii.compare_eq_iff|]. intros ->.
  rewrite ascii_compare_N. apply N.compare_refl.
Qed.

Lemma ascii_compare_Lt_trans a b c :
  Ascii.compare a b = Lt -> Ascii.compare b c = Lt -> Ascii.compare a c = Lt.
Proof.
  rewrite !ascii_compare_N, !N.compare_lt_iff. lia.
Qed.

Lemma compare_Lt_trans a :
  forall b c, String.compare a b = Lt -> String.compare b c = Lt ->
              String.compare a c = Lt.
Proof.
  induction a as [|x a IH]; intros [|y b] [|z c]; simpl; try done.
  destruct (Ascii.compare x y) eqn:Hxy; [|
    | done].
  - apply ascii_compare_Eq in Hxy as ->.
    destruct (Ascii.compare y z) eqn:Hyz; [apply IH | done | done].
  - intros _. destruct (Ascii.compare y z) eqn:Hyz; [| |done].
    + apply ascii_compare_Eq in Hyz as <-. by rewrite Hxy.
    + intros _. by rewrite (ascii_compare_Lt_trans x y z).
Qed.

Lemma compare_refl a : String.compare a a = Eq.
Proof.
  induction a as [|x a IH]; simpl; [done|].
  by rewrite (proj2 (ascii_compare_Eq x x) eq_refl).
Qed.

Lemma ltb_Lt a b : PyStr.ltb a b = true <-> String.compare a b = Lt.
Proof. unfold PyStr.ltb. destruct (String.compare a b); split; done. Qed.

Lemma lt_trans a b c : lt a b -> lt b c -> lt a c.
Proof. unfold lt. rewrite !ltb_Lt. apply compare_Lt_trans. Qed.

Lemma lt_irrefl a : ~ lt a a.
Proof. unfold lt. rewrite ltb_Lt, compare_refl. done. Qed.

Lemma le_cases a b : le a b <-> lt a b \/ a = b.
Proof.
  unfold le, lt, PyStr.ltb. rewrite (String.compare_antisym b a).
  destruct (String.compare a b) eqn:Hab; simpl.
  - apply String.compare_eq_iff in Hab. split; [by right | done].
  - split; [by left | done].
  - split; [done|]. intros [?| ->]; [done|]. by rewrite compare_refl in Hab.
Qed.

Lemma le_trans a b c : le a b -> le b c -> le a c.
Proof.
  rewrite !le_cases. intros [Hab| ->] [Hbc| ->]; eauto using lt_trans.
Qed.

Lemma not_ltb_le a b : PyStr.ltb a b = false -> le b a.
Proof. done. Qed.

Lemma ltb_le a b : PyStr.ltb a b = true -> le a b.
Proof. intros H. apply le_cases. by left. Qed.

Lemma sorted_le l : StronglySorted le (PyList.sorted PyStr.ltb l).
Proof. apply sorted_StronglySorted; [apply le_trans | apply ltb_le | apply not_ltb_le]. Qed.

Lemma sorted_lt l : NoDup l -> StronglySorted lt (PyList.sorted PyStr.ltb l).
Proof.
  intros Hnd. pose proof (sorted_le l) as Hle.
  assert (NoDup (PyList.sorted PyStr.ltb l)) as Hnd' by (by rewrite sorted_perm).
  induction Hle as [|a l' _ IH Ha]; [constructor|].
  apply NoDup_cons in Hnd' as [Hnotin Hnd'].
  constructor; [by apply IH|].
  apply Forall_forall. intros b Hb. rewrite Forall_forall in Ha.
  destruct (proj1 (le_cases a b) (Ha b Hb)) as [?| ->]; done.
Qed.

End StringOrderFacts.

Section bitmap_properties.
Import BitmapIndex Fields CourseIndex.

(** X17. After [build], the bitmap of a value of a field holds exactly the
    positions of the courses that carry the value for the field: the
    department for "subject", the term for "term", the college for
    "college", a non-empty status for "status" and each hub unit for "hub";
    no other field is indexed. *)
Theorem build_lists_the_courses_that_carry_a_value courses field value i :
  (exists index bitmap,
      indices (build courses) !! field = Some index
      /\ index !! value = Some bitmap /\ i ∈ bitmap)
  <-> carries courses field value i.
Proof. apply FieldsFacts.build_lookup. Qed.

(** X18. On a built index [filter] returns, and it returns the positions of
    the courses that satisfy every keyword argument that constrains: an
    argument constrains when its value is not empty and some course carries
    one of its values for its field, and a course satisfies it when it
    carries one of them. *)
Theorem filter_returns_the_courses_that_satisfy_every_filter courses filters :
  exists result,
    filter (build courses) filters = Ok result
    /\ forall i,
        i ∈ result
        <-> 0 <= i < Z.of_nat (length courses)
            /\ forall fv, fv ∈ filters ->
                 constrains courses fv -> satisfies courses fv i.
Proof. apply FieldsFacts.filter_build. Qed.

(** X19. The result of [filter] does not depend on the order of the keyword
    arguments. *)
Theorem filter_ignores_the_order_of_the_filters self filters filters' :
  filters ≡ₚ filters' -> filter self filters = filter self filters'.
Proof.
  intros Hperm. unfold filter. destruct (all_ids self) as [all|]; [|done]. simpl.
  f_equal. by apply FieldsFacts.fold_filter_step_perm.
Qed.

Lemma build_value_known courses field value :
  value ∈ get_values (build courses) field <-> exists i, carries courses field value i.
Proof.
  rewrite BitmapsFacts.get_values_elem_of. split.
  - intros (index & Hindex & bitmap & Hv).
    pose proof (BitmapsFacts.build_nonempty courses _ _ _ _ Hindex Hv) as Hne.
    apply set_choose_L in Hne as [i Hi]. exists i.
    apply FieldsFacts.build_lookup. by exists index, bitmap.
  - intros (i & (index & bitmap & ? & ? & _)%FieldsFacts.build_lookup).
    exists index. split; [done | by exists bitmap].
Qed.

(** X20. On a built index [get_values] lists the values that some course
    carries for the field, each once, in strictly increasing order. *)
Theorem get_values_lists_the_carried_values_in_order courses field :
  StronglySorted StringOrder.lt (get_values (build courses) field)
  /\ forall value,
      value ∈ get_values (build courses) field
      <-> exists i, carries courses field value i.
Proof.
  split; [|apply build_value_known].
  unfold get_values. destruct (indices (build courses) !! field); [|constructor].
  apply StringOrderFacts.sorted_lt, NoDup_elements.
Qed.

Lemma carried_by_a_course courses field value :
  (exists i, carries courses field value i)
  <-> exists course, course ∈ courses /\ value ∈ field_values field course.
Proof.
  split.
  - intros (i & n & course & _ & Hn & Hv). exists course.
    split; [by eapply list_elem_of_lookup_2 | done].
  - intros (course & [n Hn]%list_elem_of_lookup & Hv).
    by exists (Z.of_nat n), n, course.
Qed.

Lemma filter_ext_in {A} (f g : A -> bool) l :
  (forall x, x ∈ l -> f x = g x) -> List.filter f l = List.filter g l.
Proof.
  induction l as [|x l IH]; intros Hfg; simpl; [done|].
  rewrite Hfg by left. rewrite IH; [done|]. intros y Hy. apply Hfg. by right.
Qed.

(** X21. On the index of a list of courses, [get_subjects] lists the
    departments of the courses and [get_hub_units] their hub units, and
    [get_terms] is [DISPLAY_TERMS] without the terms that no course has, in
    the order of [DISPLAY_TERMS]: a term outside [DISPLAY_TERMS] is never
    listed. *)
Theorem catalogue_getters_list_what_the_courses_have courses search_texts :
  let self := _build_indices courses search_texts in
  (forall subject,
      subject ∈ get_subjects self
      <-> exists course, course ∈ courses /\ Course.department course = subject)
  /\ (forall hub,
         hub ∈ get_hub_units self
         <-> exists course, course ∈ courses /\ hub ∈ Course.hub_units course)
  /\ get_terms self
     = List.filter (fun term => bool_decide (term ∈ Course.term <$> courses))
                   config.DISPLAY_TERMS.
Proof.
  cbv zeta. unfold get_subjects, get_hub_units, get_terms, _build_indices.
  cbn [bitmap_index]. split; [|split].
  - intros subject. rewrite build_value_known, carried_by_a_course.
    split; intros (course & Hc & Hv); exists course; (split; [done|]).
    + by apply list_elem_of_singleton in Hv.
    + by apply list_elem_of_singleton.
  - intros hub. by rewrite build_value_known, carried_by_a_course.
  - apply filter_ext_in. intros term _. apply bool_decide_ext.
    rewrite elem_of_list_to_set, build_value_known, carried_by_a_course.
    rewrite list_elem_of_fmap.
    split; intros (course & H1 & H2); exists course.
    + apply list_elem_of_singleton in H2. done.
    + split; [done|]. by apply list_elem_of_singleton.
Qed.

End bitmap_properties.

(** *** The filter on the small catalogue *)

Lemma filter_ignores_the_order_of_the_filters_witness :
  BitmapIndex.filter catalogue_index
    [("term", BitmapIndex.FStr "Fall 2026");
     ("subject", BitmapIndex.FList ["CS"; "MA"])]
  = BitmapIndex.filter catalogue_index
      [("subject", BitmapIndex.FList ["CS"; "MA"]);
       ("term", BitmapIndex.FStr "Fall 2026")].
Proof.
  apply (filter_ignores_the_order_of_the_filters catalogue_index).
  apply perm_swap.
Defined.

(** ** Lookup, sort orders and search *)

Module SortingFacts.
Import CourseIndex Sorting.

Lemma by_id_fold (l : list Course.t) (m : gmap string Course.t) course_id :
  fold_left (fun by_id c => <[Course.id c := c]> by_id) l m !! course_id
  = match last (filter (fun c => Course.id c = course_id) l) with
    | Some c => Some c
    | None => m !! course_id
    end.
Proof.
  revert m. induction l as [|c l IH]; intros m; simpl; [done|].
  rewrite IH. destruct (decide (Course.id c = course_id)) as [Hc|Hc].
  - rewrite filter_cons_True by done.
    destruct (filter _ l) as [|c' l'] eqn:Hl.
    + cbn [last]. subst course_id. apply lookup_insert_eq.
    + change (last (c :: c' :: l')) with (last (c' :: l')).
      destruct (last (c' :: l')) eqn:Hlast; [done|].
      by apply last_None in Hlast.
  - rewrite filter_cons_False by done.
    destruct (last (filter _ l)); [done|]. by rewrite lookup_insert_ne.
Qed.

Lemma index_int_valid {A} (l : list A) i x :
  0 <= i -> l !! Z.to_nat i = Some x -> PyList.index_int l i = Ok x.
Proof.
  intros Hi Hx. unfold PyList.index_int. rewrite (proj2 (Z.leb_le 0 i)) by lia.
  unfold PyList.index. by rewrite Hx.
Qed.

(** mapM over valid positions *)
Lemma mapM_index_int (courses : list Course.t) positions :
  Forall (valid courses) positions ->
  exists out, mapM (PyList.index_int courses) positions = Ok out
              /\ courses_at courses positions out.
Proof.
  induction 1 as [|i positions Hi _ (out & Hout & Hat)]; cbn [mapM].
  - exists []. split; [done | constructor].
  - unfold valid in Hi.
    destruct (lookup_lt_is_Some_2 courses (Z.to_nat i)) as [c Hc]; [lia|].
    rewrite (index_int_valid courses i c) by (lia || done). rewrite Hout. simpl.
    exists (c :: out). split; [done|]. constructor; [|done]. split; [lia | done].
Qed.

Lemma courses_at_sorted (R : Course.t -> Course.t -> Prop) courses positions out :
  courses_at courses positions out ->
  StronglySorted (at_order courses R) positions ->
  StronglySorted R out.
Proof.
  induction 1 as [|i c positions out [_ Hc] Hat IH]; intros Hs; [constructor|].
  apply StronglySorted_inv in Hs as [Hs Hhd].
  constructor; [by apply IH|].
  clear IH Hs. induction Hat as [|j d positions out [_ Hd] _ IH]; [constructor|].
  apply Forall_cons in Hhd as [Hij Hhd].
  constructor; [by apply Hij | by apply IH].
Qed.


Section sorted_on.
Context {A : Type} (ltb : A -> A -> bool) (le : A -> A -> Prop) (P : A -> Prop).

Hypothesis le_trans : forall a b c, P a -> P b -> P c -> le a b -> le b c -> le a c.

Hypothesis ltb_le : forall a b, P a -> P b -> ltb a b = true -> le a b.

Hypothesis not_ltb_le : forall a b, P a -> P b -> ltb a b = false -> le b a.

Lemma insert_sorted_StronglySorted_on x l :
  P x -> Forall P l ->
  StronglySorted le l -> StronglySorted le (PyList.insert_sorted ltb x l).
Proof.
  intros Hx HP Hs. induction Hs as [|y l Hl IH Hy]; simpl.
  - constructor; constructor.
  - apply Forall_cons in HP as [HPy HP].
    destruct (ltb y x) eqn:Hyx.
    + constructor; [by apply IH|].
      rewrite insert_sorted_perm. constructor; [by apply ltb_le | done].
    + constructor; [by constructor|].
      constructor; [by apply not_ltb_le|].
      rewrite Forall_forall in Hy, HP. apply Forall_forall. intros z Hz.
      apply (le_trans x y z); try done; [by apply HP | by apply not_ltb_le | by apply Hy].
Qed.

Lemma sorted_StronglySorted_on l :
  Forall P l -> StronglySorted le (PyList.sorted ltb l).
Proof.
  induction 1 as [|x l Hx HP IH]; simpl; [constructor|].
  apply insert_sorted_StronglySorted_on; [done | by apply sorted_Forall | done].
Qed.

End sorted_on.

Lemma StronglySorted_sublist {A} (R : A -> A -> Prop) l1 l2 :
  sublist l1 l2 -> StronglySorted R l2 -> StronglySorted R l1.
Proof.
  intros Hsub Hs. revert l1 Hsub.
  induction Hs as [|x l2 Hs IH Hx]; intros l1 Hsub.
  - apply sublist_nil_r in Hsub as ->. constructor.
  - apply sublist_cons_r in Hsub as [Hsub|(l1' & -> & Hsub)]; [by apply IH|].
    constructor; [by apply IH|].
    rewrite Forall_forall in Hx. apply Forall_forall. intros y Hy.
    apply Hx. by eapply elem_of_sublist.
Qed.

Lemma StronglySorted_impl {A} (R S : A -> A -> Prop) l :
  (forall a b, R a b -> S a b) -> StronglySorted R l -> StronglySorted S l.
Proof.
  intros HRS. induction 1 as [|x l _ IH Hx]; constructor; [done|].
  eapply Forall_impl; [exact Hx | apply HRS].
Qed.

Lemma indices_valid (courses : list Course.t) :
  Forall (valid courses) (Z.of_nat <$> seq 0 (length courses)).
Proof.
  apply Forall_fmap, Forall_forall. intros n Hn%elem_of_seq. unfold valid. simpl. lia.
Qed.

Lemma indices_NoDup (n : nat) : NoDup (Z.of_nat <$> seq 0 n).
Proof. apply NoDup_fmap; [apply _ | apply NoDup_seq]. Qed.

Lemma indices_elem_of (courses : list Course.t) i :
  i ∈ Z.of_nat <$> seq 0 (length courses) <-> valid courses i.
Proof.
  rewrite list_elem_of_fmap. unfold valid. split.
  - intros (n & -> & Hn%elem_of_seq). lia.
  - intros Hi. exists (Z.to_nat i). split; [lia|]. apply elem_of_seq. lia.
Qed.

(** One sort order *)
Section one_order.
Context (courses : list Course.t) (ltb : Course.t -> Course.t -> bool)
        (le : Course.t -> Course.t -> Prop).

Hypothesis le_trans : forall a b c, le a b -> le b c -> le a c.

Hypothesis ltb_le : forall a b, ltb a b = true -> le a b.

Hypothesis not_ltb_le : forall a b, ltb a b = false -> le b a.

Lemma order_sorted :
  StronglySorted (at_order courses le)
    (PyList.sorted (at_ltb courses ltb) (Z.of_nat <$> seq 0 (length courses))).
Proof.
  apply (sorted_StronglySorted_on _ _ (valid courses)); [| | |apply indices_valid].
  - intros i j k _ Hj _ Hij Hjk a c Ha Hc. unfold valid in Hj.
    destruct (lookup_lt_is_Some_2 courses (Z.to_nat j)) as [b Hb]; [lia|].
    eapply le_trans; [by apply Hij | by apply Hjk].
  - intros i j _ _ Hlt a b Ha Hb. unfold at_ltb in Hlt. rewrite Ha, Hb in Hlt.
    by apply ltb_le.
  - intros i j _ _ Hlt b a Hb Ha. unfold at_ltb in Hlt. rewrite Ha, Hb in Hlt.
    by apply not_ltb_le.
Qed.

End one_order.

Lemma in_order_trans sort_by a b c :
  in_order sort_by a b -> in_order sort_by b c -> in_order sort_by a c.
Proof.
  unfold in_order.
  repeat (case_match; [apply StringOrderFacts.le_trans|]).
  case_match; [lia | done].
Qed.

Lemma sorted_by_get self sort_by order :
  PyDict.get (sorted_by self) sort_by = Some order ->
  order ≡ₚ Z.of_nat <$> seq 0 (length (courses self))
  /\ StronglySorted (at_order (courses self) (in_order sort_by)) order.
Proof.
  unfold sorted_by, _build_sort_indices. cbn [PyDict.get].
  destruct (decide ("code" = sort_by)) as [<-|_].
  { intros [= <-]. split; [apply sorted_perm|].
    apply order_sorted; unfold in_order, code_ltb; simpl.
    - intros a b c. apply StringOrderFacts.le_trans.
    - intros a b. apply StringOrderFacts.ltb_le.
    - intros a b. apply StringOrderFacts.not_ltb_le. }
  destruct (decide ("title" = sort_by)) as [<-|_].
  { intros [= <-]. split; [apply sorted_perm|].
    apply order_sorted; unfold in_order, title_ltb; simpl.
    - intros a b c. apply StringOrderFacts.le_trans.
    - intros a b. apply StringOrderFacts.ltb_le.
    - intros a b. apply StringOrderFacts.not_ltb_le. }
  destruct (decide ("professor" = sort_by)) as [<-|_].
  { intros [= <-]. split; [apply sorted_perm|].
    apply order_sorted; unfold in_order, professor_ltb; simpl.
    - intros a b c. apply StringOrderFacts.le_trans.
    - intros a b. apply StringOrderFacts.ltb_le.
    - intros a b. apply StringOrderFacts.not_ltb_le. }
  destruct (decide ("credits" = sort_by)) as [<-|_]; [|done].
  intros [= <-]. split; [apply sorted_perm|].
  apply order_sorted; unfold in_order, credits_ltb; simpl; intros; lia.
Qed.

Lemma sorted_by_get_None self sort_by a b :
  PyDict.get (sorted_by self) sort_by = None -> in_order sort_by a b.
Proof.
  unfold sorted_by, _build_sort_indices, in_order. cbn [PyDict.get].
  destruct (decide ("code" = sort_by)) as [<-|H1]; [done|].
  destruct (decide ("title" = sort_by)) as [<-|H2]; [done|].
  destruct (decide ("professor" = sort_by)) as [<-|H3]; [done|].
  destruct (decide ("credits" = sort_by)) as [<-|H4]; [done|].
  intros _.
  destruct (String.eqb_spec sort_by "code"); [congruence|].
  destruct (String.eqb_spec sort_by "title"); [congruence|].
  destruct (String.eqb_spec sort_by "professor"); [congruence|].
  destruct (String.eqb_spec sort_by "credits"); [congruence|].
  done.
Qed.

Lemma sorted_Z_lt (l : list Z) : NoDup l -> StronglySorted Z.lt (PyList.sorted Z.ltb l).
Proof.
  intros Hnd.
  assert (StronglySorted Z.le (PyList.sorted Z.ltb l)) as Hle.
  { apply sorted_StronglySorted; intros; lia. }
  assert (NoDup (PyList.sorted Z.ltb l)) as Hnd' by (by rewrite sorted_perm).
  induction Hle as [|a l' _ IH Ha]; [constructor|].
  apply NoDup_cons in Hnd' as [Hnotin Hnd'].
  constructor; [by apply IH|].
  apply Forall_forall. intros b Hb. rewrite Forall_forall in Ha.
  specialize (Ha b Hb). assert (a <> b) by (by intros ->). lia.
Qed.

Lemma StronglySorted_True {A} (R : A -> A -> Prop) (l : list A) :
  (forall a b, R a b) -> StronglySorted R l.
Proof.
  intros HR. induction l as [|x l IH]; constructor; [done|].
  apply Forall_forall. intros ??. apply HR.
Qed.

(** What [_get_sorted] reads *)
Lemma get_sorted_unfold self ids sort_by limit :
  _get_sorted self ids sort_by limit
  = mapM (PyList.index_int (courses self))
         (PyList.slice_to limit (sorted_ids self ids sort_by)).
Proof. done. Qed.

Lemma sorted_ids_spec self ids sort_by :
  NoDup (sorted_ids self ids sort_by)
  /\ (forall i, i ∈ sorted_ids self ids sort_by -> i ∈ ids)
  /\ StronglySorted (at_order (courses self) (in_order sort_by))
       (sorted_ids self ids sort_by)
  /\ (PyDict.get (sorted_by self) sort_by = None ->
      StronglySorted Z.lt (sorted_ids self ids sort_by))
  /\ (is_Some (PyDict.get (sorted_by self) sort_by) ->
      Forall (valid (courses self)) (sorted_ids self ids sort_by))
  /\ ((forall i, i ∈ ids -> valid (courses self) i) ->
      sorted_ids self ids sort_by ≡ₚ elements ids).
Proof.
  unfold sorted_ids.
  destruct (PyDict.get (sorted_by self) sort_by) as [order|] eqn:Hget.
  - apply sorted_by_get in Hget as [Hperm Hsorted].
    assert (NoDup order) as Hnd by (rewrite Hperm; apply indices_NoDup).
    split; [by apply NoDup_filter|].
    split; [by intros i [? _]%list_elem_of_filter|].
    split; [eapply StronglySorted_sublist; [apply sublist_filter | done]|].
    split; [done|].
    split.
    + intros _. apply Forall_forall. intros i [_ Hi]%list_elem_of_filter.
      rewrite Hperm in Hi. by apply indices_elem_of.
    + intros Hvalid. apply NoDup_Permutation.
      * by apply NoDup_filter.
      * apply NoDup_elements.
      * intros i. rewrite list_elem_of_filter, elem_of_elements, Hperm, indices_elem_of.
        split; [tauto|]. intros Hi. split; [done | by apply Hvalid].
  - split; [rewrite sorted_perm; apply NoDup_elements|].
    split; [intros i; by rewrite sorted_elem_of, elem_of_elements|].
    split; [apply StronglySorted_True; intros i j a b _ _;
            by apply (sorted_by_get_None self)|].
    split; [intros _; apply sorted_Z_lt, NoDup_elements|].
    split; [by intros [? ?]|].
    intros _. apply sorted_perm.
Qed.

Lemma slice_to_sublist {A} stop (l : list A) : sublist (PyList.slice_to stop l) l.
Proof. unfold PyList.slice_to. destruct (0 <=? stop); apply sublist_take. Qed.

Lemma slice_to_length {A} stop (l : list A) :
  Z.of_nat (length (PyList.slice_to stop l)) = limited stop (Z.of_nat (length l)).
Proof.
  unfold PyList.slice_to, limited.
  destruct (0 <=? stop) eqn:Hs; rewrite length_take; lia.
Qed.

Lemma slice_to_all {A} stop (l : list A) :
  Z.of_nat (length l) <= stop -> PyList.slice_to stop l = l.
Proof.
  intros Hs. unfold PyList.slice_to. rewrite (proj2 (Z.leb_le 0 stop)) by lia.
  apply take_ge. lia.
Qed.

Lemma courses_at_length courses positions out :
  courses_at courses positions out -> length out = length positions.
Proof. intros H. symmetry. by eapply Forall2_length. Qed.

Lemma courses_at_fun courses positions out :
  courses_at courses positions out ->
  mapM (PyList.index_int courses) positions = Ok out.
Proof.
  induction 1 as [|i c positions out [Hi Hc] _ IH]; [done|].
  cbn [mapM]. by rewrite (index_int_valid courses i c), IH.
Qed.

Lemma filter_none {A} (P : A -> Prop) `{forall x, Decision (P x)} (l : list A) :
  Forall (fun x => ~ P x) l -> filter P l = [].
Proof.
  induction 1 as [|x l Hx _ IH]; [done|]. by rewrite filter_cons_False.
Qed.

Lemma filter_unique_key {A B} `{EqDecision B} (f : A -> B) (x : A) (l : list A) :
  NoDup (f <$> l) -> x ∈ l -> filter (fun y => f y = f x) l = [x].
Proof.
  induction l as [|y l IH]; [by intros _ ?%elem_of_nil|].
  rewrite fmap_cons. intros [Hy Hnd]%NoDup_cons [->|Hx]%elem_of_cons.
  - rewrite filter_cons_True by done. f_equal. apply filter_none.
    apply Forall_forall. intros z Hz Heq. apply Hy. rewrite <- Heq.
    by apply list_elem_of_fmap_2.
  - rewrite filter_cons_False; [by apply IH|].
    intros Heq. apply Hy. rewrite Heq. by apply list_elem_of_fmap_2.
Qed.

Lemma get_sorted_content self ids sort_by limit :
  (forall i, i ∈ ids -> valid (courses self) i) ->
  exists positions out,
    _get_sorted self ids sort_by limit = Ok out
    /\ courses_at (courses self) positions out
    /\ NoDup positions
    /\ (forall i, i ∈ positions -> i ∈ ids)
    /\ Z.of_nat (length out) = limited limit (Z.of_nat (size ids))
    /\ (Z.of_nat (size ids) <= limit -> positions ≡ₚ elements ids)
    /\ (PyDict.get (sorted_by self) sort_by = None -> StronglySorted Z.lt positions).
Proof.
  intros Hvalid.
  destruct (sorted_ids_spec self ids sort_by)
    as (Hnd & Hin & _ & Hasc & _ & Hperm).
  specialize (Hperm Hvalid).
  set (positions := PyList.slice_to limit (sorted_ids self ids sort_by)).
  pose proof (slice_to_sublist limit (sorted_ids self ids sort_by)) as Hsub.
  fold positions in Hsub.
  assert (Forall (valid (courses self)) positions) as Hpos.
  { apply Forall_forall. intros i Hi. apply Hvalid, Hin. by eapply elem_of_sublist. }
  destruct (mapM_index_int _ _ Hpos) as (out & Hout & Hat).
  exists positions, out. rewrite get_sorted_unfold. fold positions.
  split; [done|]. split; [done|].
  split; [by eapply sublist_NoDup|].
  split; [intros i Hi; apply Hin; by eapply elem_of_sublist|].
  split.
  { rewrite (courses_at_length _ _ _ Hat). unfold positions.
    rewrite slice_to_length. f_equal. rewrite Hperm. unfold size, set_size. simpl.
    done. }
  split.
  - intros Hlimit. unfold positions. rewrite slice_to_all; [done|].
    rewrite Hperm. unfold size, set_size in Hlimit. simpl in Hlimit. done.
  - intros Hnone. eapply StronglySorted_sublist; [exact Hsub | by apply Hasc].
Qed.

Lemma get_sorted_order self ids sort_by limit out :
  _get_sorted self ids sort_by limit = Ok out ->
  StronglySorted (in_order sort_by) out.
Proof.
  rewrite get_sorted_unfold. intros Hout.
  destruct (sorted_ids_spec self ids sort_by)
    as (_ & _ & Hsorted & _ & Hvalid & _).
  destruct (PyDict.get (sorted_by self) sort_by) as [order|] eqn:Hget.
  - pose proof (slice_to_sublist limit (sorted_ids self ids sort_by)) as Hsub.
    assert (Forall (valid (courses self))
                   (PyList.slice_to limit (sorted_ids self ids sort_by))) as Hpos.
    { apply Forall_forall. intros i Hi.
      specialize (Hvalid ltac:(done)). rewrite Forall_forall in Hvalid.
      apply Hvalid. by eapply elem_of_sublist. }
    destruct (mapM_index_int _ _ Hpos) as (out' & Hout' & Hat).
    rewrite Hout in Hout'. injection Hout' as <-.
    eapply courses_at_sorted; [exact Hat|].
    by eapply StronglySorted_sublist.
  - apply StronglySorted_True. intros a b. by apply (sorted_by_get_None self).
Qed.

End SortingFacts.

Module PrefixesFacts.
Import CourseIndex Prefixes.

Lemma listed_add_prefix key i m k :
  listed (add_prefix key i m) k
  = listed m k ∪ (if decide (key = k) then {[i]} else ∅).
Proof.
  unfold listed, add_prefix. destruct (decide (key = k)) as [<-|Hne].
  - by rewrite lookup_insert_eq.
  - rewrite lookup_insert_ne by done. set_solver.
Qed.

Lemma add_prefix_nonempty key i m :
  (forall k ids, m !! k = Some ids -> ids <> ∅) ->
  forall k ids, add_prefix key i m !! k = Some ids -> ids <> ∅.
Proof.
  intros Hm k ids. unfold add_prefix. destruct (decide (key = k)) as [<-|Hne].
  - rewrite lookup_insert_eq. intros [= <-]. set_solver.
  - rewrite lookup_insert_ne by done. apply Hm.
Qed.

Lemma elem_of_if_single (P : Prop) `{Decision P} (i x : Z) :
  x ∈ (if decide P then ({[i]} : gset Z) else ∅) <-> P /\ x = i.
Proof. case_decide; set_solver. Qed.

Lemma listed_parts i (parts : list string) m k x :
  x ∈ listed (fold_left (fun prefix_index part =>
                           if (2 <=? String.length part)%nat
                           then add_prefix (PyStr.take 2 part) i prefix_index
                           else prefix_index) parts m) k
  <-> x ∈ listed m k
      \/ (k ∈ PyStr.take 2 <$> filter (fun part => (2 <= String.length part)%nat) parts
          /\ x = i).
Proof.
  revert m. induction parts as [|part parts IH]; intros m; cbn [fold_left].
  - rewrite filter_nil, fmap_nil, elem_of_nil. tauto.
  - rewrite IH. destruct (2 <=? String.length part)%nat eqn:Hlen.
    + apply Nat.leb_le in Hlen. rewrite filter_cons_True by done.
      rewrite fmap_cons, elem_of_cons, listed_add_prefix, elem_of_union,
        elem_of_if_single.
      intuition congruence.
    + apply Nat.leb_gt in Hlen. rewrite filter_cons_False by lia. tauto.
Qed.

Lemma listed_step m i course k x :
  x ∈ listed (step m (i, course)) k
  <-> x ∈ listed m k \/ (k ∈ prefix_keys course /\ x = i).
Proof.
  unfold step, prefix_keys. rewrite elem_of_app.
  destruct (PyStr.truthy (Course.department course)).
  - rewrite listed_add_prefix, elem_of_union, elem_of_if_single, listed_parts,
      list_elem_of_singleton.
    intuition congruence.
  - rewrite listed_parts, elem_of_nil. tauto.
Qed.

Lemma listed_build_from (l : list (Z * Course.t)) m k x :
  x ∈ listed (fold_left step l m) k
  <-> x ∈ listed m k \/ exists course, (x, course) ∈ l /\ k ∈ prefix_keys course.
Proof.
  revert m. induction l as [|[i c] l IH]; intros m; cbn [fold_left].
  - split; [by left | intros [?|(c & ?%elem_of_nil & _)]; done].
  - rewrite IH, listed_step. split.
    + intros [[?|[? ->]]|(c' & ? & ?)]; [by left | |].
      * right. exists c. split; [left | done].
      * right. exists c'. split; [by right | done].
    + intros [?|(c' & [[= -> ->]|?]%elem_of_cons & ?)]; [tauto | tauto |].
      right. by exists c'.
Qed.

Lemma build_prefix_index_unfold courses :
  _build_prefix_index courses = fold_left step (PyList.enumerate courses) ∅.
Proof.
  unfold _build_prefix_index. f_equal.
Qed.

Lemma listed_build courses k x :
  x ∈ listed (_build_prefix_index courses) k <-> filed courses k x.
Proof.
  rewrite build_prefix_index_unfold, listed_build_from. unfold listed at 1.
  rewrite lookup_empty. simpl. unfold filed. split.
  - intros [?%elem_of_empty|(c & (n & -> & Hn)%FieldsFacts.elem_of_enumerate & Hk)];
      [done|]. by exists n, c.
  - intros (n & c & -> & Hn & Hk). right. exists c. split; [|done].
    apply FieldsFacts.elem_of_enumerate. by exists n.
Qed.

Lemma step_nonempty m ic :
  (forall k ids, m !! k = Some ids -> ids <> ∅) ->
  forall k ids, step m ic !! k = Some ids -> ids <> ∅.
Proof.
  intros Hm. destruct ic as [i course]. unfold step.
  assert (forall (parts : list string) m',
            (forall k ids, m' !! k = Some ids -> ids <> ∅) ->
            forall k ids,
              fold_left (fun prefix_index part =>
                           if (2 <=? String.length part)%nat
                           then add_prefix (PyStr.take 2 part) i prefix_index
                           else prefix_index) parts m' !! k = Some ids ->
              ids <> ∅) as Hparts.
  { induction parts as [|part parts IH]; intros m' Hm'; cbn [fold_left]; [done|].
    apply IH. destruct (2 <=? String.length part)%nat; [|done].
    by apply add_prefix_nonempty. }
  destruct (PyStr.truthy (Course.department course)).
  - apply add_prefix_nonempty. by apply Hparts.
  - by apply Hparts.
Qed.

Lemma build_prefix_nonempty courses k ids :
  _build_prefix_index courses !! k = Some ids -> ids <> ∅.
Proof.
  rewrite build_prefix_index_unfold.
  generalize (PyList.enumerate courses) as l.
  assert (forall k ids, (∅ : gmap string (gset Z)) !! k = Some ids -> ids <> ∅) as H0
    by (intros ??; by rewrite lookup_empty).
  revert H0. generalize (∅ : gmap string (gset Z)) as m.
  intros m H0 l. revert m H0 k ids.
  induction l as [|ic l IH]; intros m H0 k ids; cbn [fold_left]; [apply H0|].
  apply IH. by apply step_nonempty.
Qed.

(** A key is known when a course is filed under it. *)
Lemma build_known courses k :
  is_Some (_build_prefix_index courses !! k) <-> exists i, filed courses k i.
Proof.
  split.
  - intros [ids Hids]. pose proof (build_prefix_nonempty _ _ _ Hids) as Hne.
    apply set_choose_L in Hne as [i Hi]. exists i.
    apply listed_build. unfold listed. by rewrite Hids.
  - intros [i Hi%listed_build]. unfold listed in Hi.
    destruct (_build_prefix_index courses !! k); [done | set_solver].
Qed.

Lemma prefix_lookup_elem_of self prefix x :
  x ∈ _prefix_lookup self prefix
  <-> match prefix_index self !! prefix with
      | Some ids => x ∈ ids
      | None => exists key, PyStr.startswith key prefix = true
                            /\ x ∈ listed (prefix_index self) key
      end.
Proof.
  unfold _prefix_lookup. destruct (prefix_index self !! prefix) as [ids|]; [done|].
  apply (map_fold_weak_ind
           (fun (acc : gset Z) (m : gmap string (gset Z)) =>
              x ∈ acc <-> exists key, PyStr.startswith key prefix = true
                                      /\ x ∈ listed m key)).
  - split; [set_solver|]. intros (key & _ & Hx). unfold listed in Hx.
    rewrite lookup_empty in Hx. set_solver.
  - intros p ids m acc Hp IH.
    assert (forall key, x ∈ listed (<[p:=ids]> m) key
                        <-> (key = p /\ x ∈ ids) \/ (key <> p /\ x ∈ listed m key))
      as Hins.
    { intros key. unfold listed. destruct (decide (key = p)) as [->|Hne].
      - rewrite lookup_insert_eq. simpl. intuition congruence.
      - rewrite lookup_insert_ne by done. intuition congruence. }
    destruct (PyStr.startswith p prefix) eqn:Hstart.
    + rewrite elem_of_union, IH. split.
      * intros [(key & Hk & Hx)|Hx].
        -- exists key. split; [done|]. apply Hins. right. split; [|done].
           intros ->. unfold listed in Hx. rewrite Hp in Hx. set_solver.
        -- exists p. split; [done|]. apply Hins. by left.
      * intros (key & Hk & [[-> Hx]|[Hne Hx]]%Hins); [by right|].
        left. by exists key.
    + rewrite IH. split.
      * intros (key & Hk & Hx). exists key. split; [done|]. apply Hins. right.
        split; [|done]. intros ->. unfold listed in Hx. rewrite Hp in Hx. set_solver.
      * intros (key & Hk & [[-> Hx]|[Hne Hx]]%Hins); [congruence|].
        by exists key.
Qed.

End PrefixesFacts.

Module ContainmentFacts.
Import Trigrams TrigramIndex TrigramsFacts Containment.

Lemma length_append (a b : string) :
  String.length (a +:+ b) = (String.length a + String.length b)%nat.
Proof. induction a as [|c a IH]; simpl; [done | by rewrite IH]. Qed.

Lemma substring_app_l (q post : string) :
  forall n m, (n + m <= String.length q)%nat ->
              String.substring n m (q +:+ post) = String.substring n m q.
Proof.
  induction q as [|c q IH]; intros n m Hle; simpl in Hle.
  - assert (n = 0%nat) as -> by lia. assert (m = 0%nat) as -> by lia.
    simpl. by destruct post.
  - destruct n as [|n]; simpl.
    + destruct m as [|m]; [done|]. rewrite IH by lia. done.
    + apply IH. lia.
Qed.

Lemma substring_app_r (pre s : string) n m :
  String.substring (String.length pre + n) m (pre +:+ s) = String.substring n m s.
Proof. induction pre as [|c pre IH]; simpl; [done | apply IH]. Qed.

Lemma extract_trigrams_long text :
  (3 <= String.length text)%nat ->
  forall x, x ∈ _extract_trigrams text
            <-> exists i, (i + 3 <= String.length text)%nat
                          /\ x = String.substring i 3 text.
Proof.
  intros Hlen x. unfold _extract_trigrams.
  rewrite (proj2 (Nat.ltb_ge _ _)) by lia.
  rewrite elem_of_list_to_set, list_elem_of_fmap. split.
  - intros (i & -> & Hi%elem_of_seq). exists i. split; [lia | done].
  - intros (i & Hi & ->). exists i. split; [done|]. apply elem_of_seq. lia.
Qed.

Lemma extract_trigrams_within query text :
  (3 <= String.length query)%nat -> within query text ->
  _extract_trigrams query ⊆ _extract_trigrams text.
Proof.
  intros Hlen (pre & post & ->) x.
  assert (3 <= String.length (pre +:+ query +:+ post))%nat as Hlen'
    by (rewrite !length_append; lia).
  rewrite !extract_trigrams_long by done.
  intros (i & Hi & ->). exists (String.length pre + i)%nat. split.
  - rewrite !length_append. lia.
  - rewrite substring_app_r, substring_app_l by lia. done.
Qed.

Lemma shared_subseteq query stored :
  _extract_trigrams query ⊆ _extract_trigrams stored ->
  shared query stored = Z.of_nat (size (_extract_trigrams query)).
Proof.
  intros Hsub. unfold shared. do 2 f_equal. set_solver.
Qed.

Lemma candidates_known docs query min_matches d :
  NoDup docs.*1 ->
  d ∈ get_candidates (add_all docs) query min_matches -> d ∈ docs.*1.
Proof.
  intros Hnd Hd. apply id_to_text_add_all.
  destruct (decide (_extract_trigrams (_normalize query) = ∅)) as [Hempty|Hne].
  - unfold get_candidates in Hd. rewrite bool_decide_eq_true_2 in Hd by done.
    by apply elem_of_dom in Hd.
  - apply get_candidates_elem_of in Hd as [Hnz _]; [|done].
    destruct (id_to_text (add_all docs) !! d) eqn:Hs; [done|].
    exfalso. apply Hnz. apply tally_unknown; [|done]. by apply consistent_add_all.
Qed.

Lemma candidates_monotone self query m m' :
  m <= m' -> get_candidates self query m' ⊆ get_candidates self query m.
Proof.
  intros Hle d. unfold get_candidates. case_bool_decide; [done|].
  rewrite !elem_of_dom. unfold is_Some. setoid_rewrite map_lookup_filter_Some.
  intros (x & Hx & Hm). exists x. split; [done|]. simpl in *. lia.
Qed.

Lemma candidates_within docs d text query min_matches :
  NoDup docs.*1 -> (d, text) ∈ docs ->
  _extract_trigrams (_normalize query) ⊆ _extract_trigrams (_normalize text) ->
  _normalize query <> "" ->
  1 <= min_matches <= Z.of_nat (size (_extract_trigrams (_normalize query))) ->
  d ∈ get_candidates (add_all docs) query min_matches.
Proof.
  intros Hnd Hd Hsub Hne Hmin.
  apply (add_all_returns_ids_sharing docs query min_matches Hnd); [lia | done|].
  exists (_normalize text). split; [by apply stored_text_add_all|].
  rewrite shared_subseteq by done. lia.
Qed.

End ContainmentFacts.

Section index_properties.
Import Trigrams TrigramIndex CourseIndex Sorting Prefixes Containment SortingFacts.

(** X22. [get_by_id] returns the last course of the list that has the id,
    and nothing when no course has it; when no two courses share an id,
    every course of the list is found under its id. *)
Theorem get_by_id_finds_the_last_course_with_the_id self course_id :
  get_by_id self course_id
  = last (filter (fun c => Course.id c = course_id) (courses self))
  /\ (NoDup (Course.id <$> courses self) ->
      forall course, course ∈ courses self ->
        get_by_id self (Course.id course) = Some course).
Proof.
  assert (forall id, get_by_id self id
                     = last (filter (fun c => Course.id c = id) (courses self))) as Hlast.
  { intros id. unfold get_by_id, by_id. rewrite by_id_fold.
    by destruct (last _). }
  split; [apply Hlast|].
  intros Hnd course Hcourse. rewrite Hlast.
  by rewrite (filter_unique_key Course.id course).
Qed.

(** X23. For ids that are positions of the list of courses, [_get_sorted]
    returns the courses at distinct positions among the ids: as many as the
    limit allows (a negative limit drops that many from the end), all of
    them when the limit is at least the number of ids, and by increasing
    position when the sort key is not one of code, title, professor and
    credits. *)
Theorem get_sorted_returns_the_courses_of_the_ids self ids sort_by limit :
  (forall i, i ∈ ids -> valid (courses self) i) ->
  exists positions out,
    _get_sorted self ids sort_by limit = Ok out
    /\ courses_at (courses self) positions out
    /\ NoDup positions
    /\ (forall i, i ∈ positions -> i ∈ ids)
    /\ Z.of_nat (length out) = limited limit (Z.of_nat (size ids))
    /\ (Z.of_nat (size ids) <= limit -> positions ≡ₚ elements ids)
    /\ (PyDict.get (sorted_by self) sort_by = None -> StronglySorted Z.lt positions).
Proof. apply SortingFacts.get_sorted_content. Qed.

(** X24. What [_get_sorted] returns is in the order of the sort key: by code
    for "code", by lower-case title for "title", by lower-case professor for
    "professor", and by decreasing credits for "credits". *)
Theorem get_sorted_returns_the_courses_in_order self ids sort_by limit out :
  _get_sorted self ids sort_by limit = Ok out ->
  StronglySorted (in_order sort_by) out.
Proof. apply SortingFacts.get_sorted_order. Qed.

(** X25. With a blank query [search] does not call the fuzzy matcher: on the
    index of a list of courses it returns courses at distinct positions that
    satisfy every keyword argument that constrains, no more than a limit
    that is not negative, in the order of the sort key. *)
Theorem search_with_a_blank_query_lists_the_filtered_courses
    (_fuzzy_match : t -> string -> gset Z -> Z -> result (list Course.t))
    courses search_texts query sort_by limit filters :
  PyStr.strip query = "" ->
  exists positions out,
    search _fuzzy_match (_build_indices courses search_texts) query sort_by limit filters
    = Ok out
    /\ courses_at courses positions out
    /\ NoDup positions
    /\ (forall i, i ∈ positions ->
          forall fv, fv ∈ filters ->
            Fields.constrains courses fv -> Fields.satisfies courses fv i)
    /\ (0 <= limit -> Z.of_nat (length out) <= limit)
    /\ StronglySorted (in_order sort_by) out.
Proof.
  intros Hblank. unfold search. rewrite Hblank. cbn [PyStr.truthy negb].
  cbn [bitmap_index _build_indices].
  destruct (FieldsFacts.filter_build courses filters)
    as (ids & -> & Hids).
  change (Ok ids ≫= ?f) with (f ids). cbv beta.
  set (self := _build_indices courses search_texts).
  destruct (SortingFacts.get_sorted_content self ids sort_by limit)
    as (positions & out & Hout & Hat & Hnd & Hin & Hlen & _).
  { intros i Hi. apply Hids in Hi as [Hi _]. exact Hi. }
  exists positions, out. split; [done|]. split; [done|]. split; [done|].
  split; [intros i Hi; by apply Hids, Hin|].
  split.
  - intros Hlimit. rewrite Hlen. unfold limited.
    rewrite (proj2 (Z.leb_le 0 limit)) by done. lia.
  - by eapply SortingFacts.get_sorted_order.
Qed.

(** X26. For a query of fewer than three characters, the candidates are the
    courses filed under the query in upper case (the first two characters of
    a word of the code, or the department); only when no course is filed
    under it are they the courses filed under a key that starts with it. *)
Theorem short_query_candidates_are_the_courses_filed_under_it
    courses search_texts query i :
  (String.length query < 3)%nat ->
  i ∈ _get_query_candidates (_build_indices courses search_texts) query
  <-> filed courses (PyStr.upper query) i
      \/ ((forall j, ~ filed courses (PyStr.upper query) j)
          /\ exists key, PyStr.startswith key (PyStr.upper query) = true
                         /\ filed courses key i).
Proof.
  intros Hlen. unfold _get_query_candidates.
  rewrite (proj2 (Nat.ltb_lt _ _) Hlen).
  rewrite PrefixesFacts.prefix_lookup_elem_of. cbn [prefix_index _build_indices].
  destruct (_build_prefix_index courses !! PyStr.upper query) as [ids|] eqn:Hids.
  - assert (forall j, j ∈ ids <-> filed courses (PyStr.upper query) j) as Hfiled.
    { intros j. rewrite <- PrefixesFacts.listed_build. unfold listed. by rewrite Hids. }
    rewrite Hfiled. split; [by left|].
    intros [?|[Hnone _]]; [done|].
    pose proof (PrefixesFacts.build_prefix_nonempty _ _ _ Hids) as Hne.
    apply set_choose_L in Hne as [j Hj]. by apply Hfiled, Hnone in Hj.
  - assert (forall j, ~ filed courses (PyStr.upper query) j) as Hnone.
    { intros j Hj.
      assert (is_Some (_build_prefix_index courses !! PyStr.upper query)) as [? ?]
        by (apply PrefixesFacts.build_known; by exists j).
      congruence. }
    split.
    + intros (key & Hk & Hi%PrefixesFacts.listed_build). right. split; [done|].
      by exists key.
    + intros [Hi|[_ (key & Hk & Hi)]]; [by apply Hnone in Hi|].
      exists key. split; [done|]. by apply PrefixesFacts.listed_build.
Qed.

(** X27. In a trigram index whose documents were added under distinct ids,
    [get_candidates] returns only ids of the index, returns a document for
    its own text (with the default threshold 1), and returns no more when
    the threshold is raised. *)
Theorem get_candidates_are_indexed_and_find_their_own_text docs :
  NoDup docs.*1 ->
  (forall query min_matches d,
      d ∈ get_candidates (add_all docs) query min_matches -> d ∈ docs.*1)
  /\ (forall d text,
         (d, text) ∈ docs -> d ∈ get_candidates (add_all docs) text 1)
  /\ (forall query m m',
         m <= m' ->
         get_candidates (add_all docs) query m'
         ⊆ get_candidates (add_all docs) query m).
Proof.
  intros Hnd. split; [|split].
  - intros query min_matches d. by apply ContainmentFacts.candidates_known.
  - intros d text Hd.
    destruct (decide (_normalize text = "")) as [Hempty|Hne].
    + unfold get_candidates.
      rewrite bool_decide_eq_true_2 by (by apply TrigramsFacts.extract_trigrams_empty).
      apply elem_of_dom. rewrite (TrigramsFacts.stored_text_add_all _ _ text) by done.
      by eexists.
    + apply (ContainmentFacts.candidates_within docs d text); try done.
      split; [lia|].
      assert (size (_extract_trigrams (_normalize text)) <> 0%nat); [|lia].
      intros Hsize%size_empty_iff. apply leibniz_equiv in Hsize.
      by apply TrigramsFacts.extract_trigrams_empty in Hsize.
  - intros query m m'. apply ContainmentFacts.candidates_monotone.
Qed.

(** X28. For a query of three characters or more, the trigram stage keeps
    every course whose normalized search text contains the normalized query,
    as long as the query has at least [max(1, len(query) // 4)] distinct
    trigrams. *)
Theorem query_candidates_keep_the_texts_that_contain_the_query
    courses search_texts query (n : nat) text :
  search_texts !! n = Some text ->
  (3 <= String.length query)%nat ->
  (3 <= String.length (_normalize query))%nat ->
  within (_normalize query) (_normalize text) ->
  Z.max 1 (PyStr.len query / 4)
    <= Z.of_nat (size (_extract_trigrams (_normalize query))) ->
  Z.of_nat n ∈ _get_query_candidates (_build_indices courses search_texts) query.
Proof.
  intros Hn Hlen Hnlen Hwithin Hmin.
  unfold _get_query_candidates. rewrite (proj2 (Nat.ltb_ge _ _)) by done.
  cbn [trigram_index _build_indices].
  apply (ContainmentFacts.candidates_within (PyList.enumerate search_texts)
           (Z.of_nat n) text).
  - apply TrigramsFacts.enumerate_NoDup.
  - apply FieldsFacts.elem_of_enumerate. by exists n.
  - by apply ContainmentFacts.extract_trigrams_within.
  - intros Hq. rewrite Hq in Hnlen. simpl in Hnlen. lia.
  - lia.
Qed.

End index_properties.

(** *** The index of the small catalogue *)

Lemma get_by_id_finds_the_last_course_with_the_id_witness :
  CourseIndex.get_by_id catalogue_course_index "MA225-A1"
  = last (filter (fun c => Course.id c = "MA225-A1")
                 (CourseIndex.courses catalogue_course_index))
  /\ CourseIndex.get_by_id catalogue_course_index (Course.id Demo.ma225)
     = Some Demo.ma225.
Proof.
  destruct (get_by_id_finds_the_last_course_with_the_id catalogue_course_index
              "MA225-A1") as [Hlast Hfound].
  split; [exact Hlast|]. apply Hfound.
  - apply (bool_decide_unpack _). vm_compute. reflexivity.
  - vm_compute. right. left.
Defined.

Lemma first_and_third_valid i :
  i ∈ ({[ 0; 2 ]} : gset Z) ->
  Sorting.valid (CourseIndex.courses catalogue_course_index) i.
Proof.
  intros Hi. assert (i = 0 \/ i = 2) as [-> | ->] by set_solver;
    unfold Sorting.valid; simpl; lia.
Qed.

Lemma get_sorted_returns_the_courses_of_the_ids_witness :
  exists positions out,
    CourseIndex._get_sorted catalogue_course_index {[ 0; 2 ]} "credits" 1 = Ok out
    /\ Sorting.courses_at (CourseIndex.courses catalogue_course_index) positions out
    /\ NoDup positions
    /\ (forall i, i ∈ positions -> i ∈ ({[ 0; 2 ]} : gset Z))
    /\ Z.of_nat (length out)
       = Sorting.limited 1 (Z.of_nat (size ({[ 0; 2 ]} : gset Z)))
    /\ (Z.of_nat (size ({[ 0; 2 ]} : gset Z)) <= 1
        -> positions ≡ₚ elements ({[ 0; 2 ]} : gset Z))
    /\ (PyDict.get (CourseIndex.sorted_by catalogue_course_index) "credits" = None
        -> StronglySorted Z.lt positions).
Proof.
  apply (get_sorted_returns_the_courses_of_the_ids catalogue_course_index
           {[ 0; 2 ]} "credits" 1).
  exact first_and_third_valid.
Defined.

Lemma get_sorted_returns_the_courses_in_order_witness :
  StronglySorted (Sorting.in_order "code") [Demo.cs111; Demo.ph100].
Proof.
  apply (get_sorted_returns_the_courses_in_order catalogue_course_index
           {[ 0; 2 ]} "code" 10).
  vm_compute. reflexivity.
Defined.

Lemma search_with_a_blank_query_lists_the_filtered_courses_witness :
  exists positions out,
    CourseIndex.search no_match catalogue_course_index "  " "code" 10
      [("subject", BitmapIndex.FList ["CS"; "MA"])]
    = Ok out
    /\ Sorting.courses_at Demo.catalogue positions out
    /\ NoDup positions
    /\ (forall i, i ∈ positions ->
          forall fv, fv ∈ [("subject", BitmapIndex.FList ["CS"; "MA"])] ->
            Fields.constrains Demo.catalogue fv -> Fields.satisfies Demo.catalogue fv i)
    /\ (0 <= 10 -> Z.of_nat (length out) <= 10)
    /\ StronglySorted (Sorting.in_order "code") out.
Proof.
  apply (search_with_a_blank_query_lists_the_filtered_courses no_match
           Demo.catalogue (Course.search_text <$> Demo.catalogue) "  " "code" 10).
  reflexivity.
Defined.

Lemma short_query_candidates_are_the_courses_filed_under_it_witness :
  0 ∈ CourseIndex._get_query_candidates catalogue_course_index "cs"
  <-> Prefixes.filed Demo.catalogue (PyStr.upper "cs") 0
      \/ ((forall j, ~ Prefixes.filed Demo.catalogue (PyStr.upper "cs") j)
          /\ exists key, PyStr.startswith key (PyStr.upper "cs") = true
                         /\ Prefixes.filed Demo.catalogue key 0).
Proof.
  apply (short_query_candidates_are_the_courses_filed_under_it Demo.catalogue
           (Course.search_text <$> Demo.catalogue) "cs" 0).
  simpl. lia.
Defined.

Lemma get_candidates_are_indexed_and_find_their_own_text_witness :
  1 ∈ TrigramIndex.get_candidates (Trigrams.add_all catalogue_texts)
        "CAS MA 225 Multivariate Calculus" 1
  /\ TrigramIndex.get_candidates (Trigrams.add_all catalogue_texts) "Calculus" 2
     ⊆ TrigramIndex.get_candidates (Trigrams.add_all catalogue_texts) "Calculus" 1.
Proof.
  destruct (get_candidates_are_indexed_and_find_their_own_text catalogue_texts)
    as (_ & Hown & Hmono).
  - apply (bool_decide_unpack _). vm_compute. reflexivity.
  - split.
    + apply Hown. right. left.
    + apply Hmono. lia.
Defined.

Lemma query_candidates_keep_the_texts_that_contain_the_query_witness :
  1 ∈ CourseIndex._get_query_candidates
        (CourseIndex._build_indices Demo.catalogue catalogue_texts.*2) "calculus".
Proof.
  apply (query_candidates_keep_the_texts_that_contain_the_query Demo.catalogue
           catalogue_texts.*2 "calculus" 1 "CAS MA 225 Multivariate Calculus").
  - reflexivity.
  - simpl. lia.
  - simpl. lia.
  - exists "cas ma 225 multivariate ", "". reflexivity.
  - vm_compute. discriminate.
Defined.
